(** * Cause-Way: the decision-analysis pipeline

    A shallow embedding of the Python services under [app/services]
    ([confounder_service.py], [llm_service.py], [decision_analyzer.py],
    [document_service.py]) together with the schemas of [app/schemas.py]
    and the constants of [app/config.py], the two handlers of
    [app/main.py], and [chunk_text] and [ingest_experiments] of
    [scripts/ingest_documents.py].

    Conventions of the embedding.
    - A Python [str] is a [string]: a sequence of characters with code
      points below 256.
    - A JSON-like Python value is a [pyval]; a [dict] with text keys is a
      [gmap string pyval]; a [set] of text is a [gset string].
    - A Python [float] is a binary64 [float] of the kernel; [int] is [Z].
    - A function that can raise returns [exc A]: [Ok a] or [Raise e].
    - Library calls whose tables are not part of the repository
      ([json.loads], [dateutil.parser.parse], the text of a pydantic
      validation error, [repr] and [json.dumps] inside prompts) are the
      fields of a [Platform]; the remote collaborators of one request (the
      reasoning backend, the vector index, the change file, the audit
      store, the clock) are the fields of a [World]. *)

From Stdlib Require Import ZArith Ascii String List Bool Lia.
From Stdlib Require Import Sorting.Sorted Sorting.Permutation.
From Stdlib Require Import Numbers.Cyclic.Int63.Uint63.
From Stdlib Require Import Floats.PrimFloat Floats.SpecFloat Floats.FloatOps.
From Stdlib Require Import DecimalString.
From stdpp Require Import base option list gmap strings.

Set Warnings "-inexact-float,-register-all".
#[local] Open Scope string_scope.
#[local] Open Scope list_scope.
#[local] Open Scope Z_scope.

(* ================================================================== *)
(** * Python values and exceptions *)
(* ================================================================== *)

Inductive pyval : Type :=
| PNone
| PBool (b : bool)
| PInt (z : Z)
| PFloat (f : float)
| PStr (s : string)
| PList (l : list pyval)
| PDict (d : gmap string pyval).

(** [bool(v)]: Python truthiness of a JSON-like value. *)
Definition truthy (v : pyval) : bool :=
  match v with
  | PNone => false
  | PBool b => b
  | PInt z => negb (z =? 0)
  | PFloat f => negb (PrimFloat.eqb f 0%float)
  | PStr s => negb (String.eqb s EmptyString)
  | PList l => match l with [] => false | _ => true end
  | PDict d => negb (bool_decide (d = ∅))
  end.

(** [type(v).__name__]. *)
Definition type_name (v : pyval) : string :=
  match v with
  | PNone => "NoneType"
  | PBool _ => "bool"
  | PInt _ => "int"
  | PFloat _ => "float"
  | PStr _ => "str"
  | PList _ => "list"
  | PDict _ => "dict"
  end.

(** [d.get(k, default)] on a dict. *)
Definition dict_get (d : gmap string pyval) (k : string) (default : pyval) : pyval :=
  match d !! k with
  | Some v => v
  | None => default
  end.

(** The exceptions the services raise, catch or let through. *)
Inductive exn : Type :=
| ConnectError                                   (* httpx.ConnectError *)
| OllamaUnavailableError (msg : string)
| ModelNotFoundError (msg : string)
| ValueError (msg : string)
| TypeError (msg : string)
| AttributeError (msg : string)
| ValidationError (model : string) (field : string) (input : pyval)
| ParserError (msg : string)                    (* dateutil *)
| OtherError (msg : string).                    (* any other [Exception] *)

Inductive exc (A : Type) : Type :=
| Ok (a : A)
| Raise (e : exn).
Arguments Ok {A} a.
Arguments Raise {A} e.

#[global] Instance exc_ret : MRet exc := fun A a => Ok a.

#[global] Instance exc_bind : MBind exc := fun A B k m =>
  match m with
  | Ok a => k a
  | Raise e => Raise e
  end.

(** [try: body  except Exception as e: handler e]. *)
Definition try_except {A : Type} (body : exc A) (handler : exn -> exc A) : exc A :=
  match body with
  | Ok a => Ok a
  | Raise e => handler e
  end.

(* ================================================================== *)
(** * The [str] methods the services call *)
(* ================================================================== *)

Definition char_code (c : ascii) : nat := nat_of_ascii c.

(** [ch.lower()] for a code point below 256: the ASCII capitals and the
    Latin-1 capitals U+00C0..U+00DE (the sign U+00D7 apart). *)
Definition lower_char (c : ascii) : ascii :=
  let n := char_code c in
  if ((65 <=? n) && (n <=? 90))%nat
     || ((192 <=? n) && (n <=? 222) && negb (n =? 215))%nat
  then ascii_of_nat (n + 32) else c.

(** [s.lower()] for text below U+0100, where it maps character by
    character and so keeps the length and the indices.  (Beyond, it can
    lengthen the text: U+0130 lowers to two code points.) *)
Fixpoint lower (s : string) : string :=
  match s with
  | EmptyString => EmptyString
  | String c s' => String (lower_char c) (lower s')
  end.

(** [sub in s]. *)
Definition contains (sub s : string) : bool :=
  match String.index 0 sub s with
  | Some _ => true
  | None => false
  end.

(** [s.find(sub, start)]: the lowest index at or after [start], or -1. *)
Definition find_from (sub s : string) (start : nat) : Z :=
  match String.index start sub s with
  | Some i => Z.of_nat i
  | None => -1
  end.

Definition find (sub s : string) : Z := find_from sub s 0.

(** [s.rfind(sub)]: the highest index of an occurrence, or -1. *)
Fixpoint rfind_aux (sub s : string) (pos : nat) (best : Z) : Z :=
  let best' := if String.prefix sub s then Z.of_nat pos else best in
  match s with
  | EmptyString => best'
  | String _ s' => rfind_aux sub s' (S pos) best'
  end.

Definition rfind (sub s : string) : Z := rfind_aux sub s 0 (-1).

(** [s[a:b]] for indices that are not negative. *)
Definition slice (s : string) (a b : Z) : string :=
  String.substring (Z.to_nat a) (Z.to_nat (b - a)) s.

(** [s[:n]]. *)
Definition slice_to (s : string) (n : nat) : string := String.substring 0 n s.

(** [s.split(sep)[0]] for a one-character separator. *)
Fixpoint split_head (sep : ascii) (s : string) : string :=
  match s with
  | EmptyString => EmptyString
  | String c s' => if Ascii.eqb c sep then EmptyString else String c (split_head sep s')
  end.

(** [ch.isspace()] below 256. *)
Definition is_space (c : ascii) : bool :=
  let n := char_code c in
  ((9 <=? n) && (n <=? 13) || (28 <=? n) && (n <=? 32) || (n =? 133) || (n =? 160))%nat.

Fixpoint lstrip (s : string) : string :=
  match s with
  | EmptyString => EmptyString
  | String c s' => if is_space c then lstrip s' else s
  end.

Fixpoint rstrip (s : string) : string :=
  match s with
  | EmptyString => EmptyString
  | String c s' =>
      match rstrip s' with
      | EmptyString => if is_space c then EmptyString else String c EmptyString
      | r => String c r
      end
  end.

Definition strip (s : string) : string := rstrip (lstrip s).

(** The one-character strings of [s], as iterating a [str] yields them. *)
Fixpoint chars (s : string) : list string :=
  match s with
  | EmptyString => []
  | String c s' => String c EmptyString :: chars s'
  end.

(** The double quote, for texts that contain it. *)
Definition dq : string := String (ascii_of_nat 34) EmptyString.
Definition quoted (s : string) : string := dq +:+ s +:+ dq.
Definition nl : string := String (ascii_of_nat 10) EmptyString.

(** [str(n)] of an int that is not negative. *)
Definition str_nat (n : nat) : string := NilZero.string_of_uint (Nat.to_uint n).

(** [str(z)] of an int. *)
Definition str_int (z : Z) : string :=
  if z <? 0 then "-" +:+ str_nat (Z.to_nat (- z)) else str_nat (Z.to_nat z).

(* ================================================================== *)
(** * app/config.py *)
(* ================================================================== *)

Definition CONFOUNDING_WINDOW_DAYS : Z := 14.
Definition LLM_MAX_RETRIES : nat := 2.
Definition OLLAMA_MODEL : string := "qwen2.5:7b".

(* ================================================================== *)
(** * app/schemas.py: pydantic models and their validation *)
(* ================================================================== *)

(** A [str] field accepts text only. *)
Definition validate_str (model field : string) (v : pyval) : exc string :=
  match v with
  | PStr s => Ok s
  | _ => Raise (ValidationError model field v)
  end.

Fixpoint validate_str_items (model field : string) (whole : pyval) (l : list pyval)
  : exc (list string) :=
  match l with
  | [] => Ok []
  | PStr s :: l' => rest ← validate_str_items model field whole l'; Ok (s :: rest)
  | _ :: _ => Raise (ValidationError model field whole)
  end.

(** A [List[str]] field accepts a list of text. *)
Definition validate_str_list (model field : string) (v : pyval) : exc (list string) :=
  match v with
  | PList l => validate_str_items model field v l
  | _ => Raise (ValidationError model field v)
  end.

Record ParsedQuestion : Type := mkParsedQuestion {
  pq_treatment : string;
  pq_outcomes : list string;
  pq_decision_type : string
}.

(** [ParsedQuestion(treatment=.., outcomes=.., decision_type=..)]. *)
Definition ParsedQuestion_new (treatment outcomes decision_type : pyval) : exc ParsedQuestion :=
  t ← validate_str "ParsedQuestion" "treatment" treatment;
  o ← validate_str_list "ParsedQuestion" "outcomes" outcomes;
  d ← validate_str "ParsedQuestion" "decision_type" decision_type;
  Ok (mkParsedQuestion t o d).

(* ================================================================== *)
(** * llm_service.py: the rule-based parser *)
(* ================================================================== *)

Definition treatment_keywords : list string :=
  ["reduce"; "increase"; "change"; "add"; "remove"; "launch"; "stop"].

Definition metric_keywords : list (string * string) :=
  [("trial", "trial_to_paid"); ("conversion", "conversion_rate");
   ("churn", "churn_rate"); ("revenue", "revenue");
   ("activation", "activation_rate"); ("pricing", "conversion_rate")].

Definition question_mark : ascii := ascii_of_nat 63.

(** The [for kw in keywords: ... break] loop. *)
Definition extract_treatment (question question_lower : string) : string :=
  match List.find (fun kw => contains kw question_lower) treatment_keywords with
  | Some kw =>
      let idx := find kw question_lower in
      strip (split_head question_mark (slice question idx (idx + 50)))
  | None => "unknown_change"
  end.

(** The [for kw, metric in metric_keywords.items()] loop and its default. *)
Definition extract_outcomes (question_lower : string) : list string :=
  let outcomes :=
    map snd (List.filter (fun km => contains (fst km) question_lower) metric_keywords) in
  match outcomes with
  | [] => ["conversion_rate"]
  | _ => outcomes
  end.

Definition extract_decision_type (question_lower : string) : string :=
  if contains "why" question_lower || contains "cause" question_lower then "root_cause"
  else if contains "impact" question_lower || contains "effect" question_lower
       then "impact_analysis"
       else "should_we".

Definition _rule_based_parse (question : string) : exc ParsedQuestion :=
  let question_lower := lower question in
  let treatment := extract_treatment question question_lower in
  let outcomes := extract_outcomes question_lower in
  let decision_type := extract_decision_type question_lower in
  ParsedQuestion_new (PStr treatment) (PList (map PStr outcomes)) (PStr decision_type).

(* ================================================================== *)
(** * Dates *)
(* ================================================================== *)

(** A [datetime]: the wall clock in microseconds since the epoch of the
    calendar and, when the value is aware, the UTC offset of its [tzinfo]
    in microseconds. *)
Record datetime : Type := mkDatetime {
  dt_wall : Z;
  dt_utcoffset : option Z
}.

(** [d.replace(tzinfo=timezone.utc)] when [d.tzinfo is None]. *)
Definition make_aware (d : datetime) : datetime :=
  match dt_utcoffset d with
  | None => mkDatetime (dt_wall d) (Some 0)
  | Some _ => d
  end.

Definition utc_instant (d : datetime) : Z :=
  dt_wall d - match dt_utcoffset d with Some off => off | None => 0 end.

Definition MICROS_PER_DAY : Z := 86400000000.

(** [(a - b).days]: a [timedelta] keeps its seconds and microseconds
    non-negative, so its days are the floor of the difference. *)
Definition timedelta_days (a b : datetime) : Z :=
  (utc_instant a - utc_instant b) / MICROS_PER_DAY.

(* ================================================================== *)
(** * Library calls and collaborators *)
(* ================================================================== *)

(** What [json.loads(text)] does on a text: it returns the value, raises
    [JSONDecodeError], or raises [RecursionError] (a text nested deeper
    than the interpreter allows), which is no [JSONDecodeError]. *)
Inductive loads_outcome : Type :=
| Loaded (v : pyval)
| JSONDecodeError
| LoadsRecursionError (msg : string).

Record Platform : Type := mkPlatform {
  (** [json.loads(text)]. *)
  json_loads : string -> loads_outcome;
  (** [dateutil.parser.parse(text)]; [None] when it raises. *)
  parse_date : string -> option datetime;
  (** [str(e)] of a pydantic [ValidationError]. *)
  validation_error_str : string -> string -> pyval -> string;
  (** [str(outcomes)] inside an f-string. *)
  repr_str_list : list string -> string;
  (** [json.dumps(value)]. *)
  json_dumps : pyval -> string
}.

(** [str(e)]. *)
Definition exn_str (P : Platform) (e : exn) : string :=
  match e with
  | ConnectError => "All connection attempts failed"
  | OllamaUnavailableError m | ModelNotFoundError m | ValueError m | TypeError m
  | AttributeError m | ParserError m | OtherError m => m
  | ValidationError model field input => validation_error_str P model field input
  end.

(* ================================================================== *)
(** * Floats: [int / int], [round(x, 3)] *)
(* ================================================================== *)

(** [float(z)] for [|z| < 2^63]. *)
Definition float_of_int (z : Z) : float :=
  if z <? 0 then PrimFloat.opp (PrimFloat.of_uint63 (Uint63.of_Z (- z)))
  else PrimFloat.of_uint63 (Uint63.of_Z z).

(** [a / b] on ints that a float holds exactly: the correctly rounded
    quotient. *)
Definition int_true_div (a b : Z) : float :=
  PrimFloat.div (float_of_int a) (float_of_int b).

(** The integer nearest to [n / d] for [0 < d], ties to the even one. *)
Definition div_round_half_even (n d : Z) : Z :=
  let q := n / d in
  let r := n mod d in
  match 2 * r ?= d with
  | Lt => q
  | Gt => q + 1
  | Eq => if Z.even q then q else q + 1
  end.

(** The integer nearest to [m * 2^e * 1000]. *)
Definition scaled_thousandths (m : positive) (e : Z) : Z :=
  if 0 <=? e then Z.pos m * 1000 * 2 ^ e
  else div_round_half_even (Z.pos m * 1000) (2 ^ (- e)).

(** [round(x, 3)]: the float nearest to the three-decimal numeral that
    is nearest to the exact value of [x] (ties between numerals go to the
    even one); zeros, infinities and NaN come back unchanged.  Exact for
    [|x| < 2^43], where the count of thousandths fits a float. *)
Definition py_round3 (x : float) : float :=
  match Prim2SF x with
  | S754_finite s m e =>
      let r := PrimFloat.div (float_of_int (scaled_thousandths m e)) 1000%float in
      if s then PrimFloat.opp r else r
  | _ => x
  end.

(* ================================================================== *)
(** * confounder_service.py *)
(* ================================================================== *)

Record ConfounderInfo : Type := mkConfounderInfo {
  change_id : string;
  description : string;
  days_ago : Z;
  affected_metrics : list string;
  confidence : float
}.

(** [ConfounderInfo(change_id=.., description=.., ...)]: the two fields
    read from the change dict are validated as text; the other three are
    built by the caller with their declared types. *)
Definition ConfounderInfo_new (id descr : pyval) (days : Z) (metrics : list string)
    (conf : float) : exc ConfounderInfo :=
  i ← validate_str "ConfounderInfo" "change_id" id;
  d ← validate_str "ConfounderInfo" "description" descr;
  Ok (mkConfounderInfo i d days metrics conf).

Definition hashable (v : pyval) : bool :=
  match v with
  | PList _ | PDict _ => false
  | _ => true
  end.

Definition as_str (v : pyval) : option string :=
  match v with
  | PStr s => Some s
  | _ => None
  end.

(** The text members of [set(v)].  A member of another type never equals
    a text, so it never lies in an intersection with a set of text; it
    must still be hashable. *)
Definition set_text_members (v : pyval) : exc (gset string) :=
  match v with
  | PList l =>
      if forallb hashable l then Ok (list_to_set (omap as_str l))
      else Raise (TypeError "unhashable type")
  | PStr s => Ok (list_to_set (chars s))
  | PDict d => Ok (dom d)
  | _ => Raise (TypeError ("'" +:+ type_name v +:+ "' object is not iterable"))
  end.

(** [parse_date(change_date_str)] on the value read from the change. *)
Definition call_parse_date (P : Platform) (v : pyval) : exc datetime :=
  match v with
  | PStr s =>
      match parse_date P s with
      | Some d => Ok d
      | None => Raise (ParserError ("Unknown string format: " +:+ s))
      end
  | _ => Raise (TypeError "Parser must be a string or character stream")
  end.

(** [1.0 - (days_since_change / CONFOUNDING_WINDOW_DAYS) * 0.3], rounded. *)
Definition decayed_confidence (days_since_change : Z) : float :=
  py_round3 (1.0 - (int_true_div days_since_change CONFOUNDING_WINDOW_DAYS) * 0.3)%float.

(** The body of the [try] for one change: [Ok None] where the source
    reaches [continue] or falls out of an [if], [Ok (Some c)] where it
    appends [c], [Raise e] where a statement raises. *)
Definition process_change (P : Platform) (current_date : datetime) (outcomes : list string)
    (change : gmap string pyval) : exc (option ConfounderInfo) :=
  let change_date_str := dict_get change "date" (PStr EmptyString) in
  if negb (truthy change_date_str) then Ok None
  else
    change_date ← call_parse_date P change_date_str;
    let change_date := make_aware change_date in
    let current_date := make_aware current_date in
    let days_since_change := timedelta_days current_date change_date in
    if (days_since_change <=? CONFOUNDING_WINDOW_DAYS) && (days_since_change >=? 0) then
      change_metrics ← set_text_members (dict_get change "affected_metrics" (PList []));
      let outcome_set : gset string := list_to_set outcomes in
      let intersection := change_metrics ∩ outcome_set in
      if negb (bool_decide (intersection = ∅)) then
        let confidence := decayed_confidence days_since_change in
        confounder ← ConfounderInfo_new
                       (dict_get change "id" (PStr "unknown"))
                       (dict_get change "description" (PStr "Unknown change"))
                       days_since_change (elements intersection) confidence;
        Ok (Some confounder)
      else Ok None
    else Ok None.

(** The message of [v.get] on a value that has no such method. *)
Definition no_get (v : pyval) : string :=
  "'" +:+ type_name v +:+ "' object has no attribute 'get'".

(** The body of the [try] on whatever the list holds: its first
    statement reads the date with [change.get], which needs a dict. *)
Definition process_entry (P : Platform) (current_date : datetime) (outcomes : list string)
    (change : pyval) : exc (option ConfounderInfo) :=
  match change with
  | PDict d => process_change P current_date outcomes d
  | _ => Raise (AttributeError (no_get change))
  end.

(** The handler:
    [logger.warning(f"Error processing change {change.get('id', 'unknown')}: {e}")]
    and [continue].  Formatting a JSON-like value does not raise; on a
    change that is no dict [change.get] raises inside the handler, and
    that error leaves the loop. *)
Definition log_skipped_change (change : pyval) (e : exn) : exc (option ConfounderInfo) :=
  match change with
  | PDict _ => Ok None
  | _ => Raise (AttributeError (no_get change))
  end.

(** The [for change in recent_changes] loop, over the values iterated. *)
Fixpoint detect_loop (P : Platform) (current_date : datetime) (outcomes : list string)
    (recent_changes : list pyval) (confounders : list ConfounderInfo)
  : exc (list ConfounderInfo) :=
  match recent_changes with
  | [] => Ok confounders
  | change :: rest =>
      step ← try_except (process_entry P current_date outcomes change)
                        (log_skipped_change change);
      detect_loop P current_date outcomes rest
        (match step with
         | Some c => confounders ++ [c]
         | None => confounders
         end)
  end.

(** What [for change in v] iterates: the elements of a list, the keys of
    a dict, the characters of a text; any other JSON value is not
    iterable.  (The order of the keys is not modelled: the loop stops at
    the first of them.) *)
Definition iterate (v : pyval) : exc (list pyval) :=
  match v with
  | PList l => Ok l
  | PDict d => Ok (map (fun kv => PStr (fst kv)) (map_to_list d))
  | PStr s => Ok (map PStr (chars s))
  | _ => Raise (TypeError ("'" +:+ type_name v +:+ "' object is not iterable"))
  end.

(** [confounders.sort(key=lambda x: x.confidence, reverse=True)]: a
    stable sort, larger keys first; keys are compared with [<]. *)
Fixpoint insert_by_confidence (c : ConfounderInfo) (sorted : list ConfounderInfo)
  : list ConfounderInfo :=
  match sorted with
  | [] => [c]
  | y :: ys =>
      if PrimFloat.ltb (confidence c) (confidence y) then y :: insert_by_confidence c ys
      else c :: sorted
  end.

Definition sort_by_confidence_desc (l : list ConfounderInfo) : list ConfounderInfo :=
  foldr insert_by_confidence [] l.

Record DetectionResult : Type := mkDetectionResult {
  dr_confounders : list ConfounderInfo;
  dr_decision_safe : bool;
  dr_total_confounders : nat
}.

(** [self._reference_date] if it is set, else the clock. *)
Definition _get_current_date (reference_date : option datetime) (now : datetime) : datetime :=
  match reference_date with
  | Some d => d
  | None => now
  end.

(** [detect_confounders] as Python runs it: the annotation
    [List[Dict[str, Any]]] of [recent_changes] is not checked, so the
    argument is whatever value the caller passes. *)
Definition detect_confounders_dyn (P : Platform) (reference_date : option datetime)
    (now : datetime) (recent_changes : pyval) (outcomes : list string)
  : exc DetectionResult :=
  let current_date := _get_current_date reference_date now in
  changes ← iterate recent_changes;
  confounders ← detect_loop P current_date outcomes changes [];
  let confounders := sort_by_confidence_desc confounders in
  let decision_safe := (length confounders =? 0)%nat in
  Ok (mkDetectionResult confounders decision_safe (length confounders)).

(** [detect_confounders] on an argument of its declared type, a list of
    dicts. *)
Definition detect_confounders (P : Platform) (reference_date : option datetime)
    (now : datetime) (recent_changes : list (gmap string pyval)) (outcomes : list string)
  : exc DetectionResult :=
  detect_confounders_dyn P reference_date now (PList (map PDict recent_changes)) outcomes.

(* ================================================================== *)
(** * The collaborators of one request *)
(* ================================================================== *)

(** What [llm.invoke([HumanMessage(content=prompt)])] does. *)
Inductive llm_outcome : Type :=
| LLMConnectError                  (* raises httpx.ConnectError *)
| LLMRaises (e : exn)              (* raises another exception *)
| LLMContent (content : string).   (* returns a message with this content *)

(** What the vector index does for one search. *)
Inductive chroma_reply : Type :=
| ChromaRaises (e : exn)           (* opening, counting, querying or reading the reply raises *)
| ChromaEmpty                      (* [collection.count() == 0] *)
| ChromaHits (docs : list string) (metas : list (option (gmap string pyval))).

Record World : Type := mkWorld {
  (** the reasoning backend, by prompt *)
  llm_invoke : string -> llm_outcome;
  (** the vector index, by search query *)
  chroma : string -> chroma_reply;
  (** [company_changes.json] as [json.load] returns it, a JSON value of
      any shape; [None] when the file is missing or loading it raises *)
  company_changes : option pyval;
  (** whether writing the audit row raises *)
  audit_store_failure : option exn;
  (** [datetime.now(timezone.utc)] at detection and at assembly *)
  clock_detect : datetime;
  clock_response : datetime;
  (** the generated decision id *)
  new_decision_id : string
}.

(* ================================================================== *)
(** * llm_service.py *)
(* ================================================================== *)

Definition fence_json : string := "```json".
Definition fence : string := "```".

(** [try: return json.loads(s)] with [except json.JSONDecodeError: pass]:
    [Ok (Some v)] where the source returns, [Ok None] where it goes on;
    any other exception of [json.loads] is not caught. *)
Definition try_loads (P : Platform) (s : string) : exc (option pyval) :=
  match json_loads P s with
  | Loaded v => Ok (Some v)
  | JSONDecodeError => Ok None
  | LoadsRecursionError msg => Raise (OtherError msg)
  end.

(** JSON wrapped in a marked code block. *)
Definition parse_fenced (P : Platform) (text : string) : exc (option pyval) :=
  if contains fence_json text then
    let start := find fence_json text + 7 in
    let end_ := find_from fence text (Z.to_nat start) in
    if end_ >? start then try_loads P (strip (slice text start end_)) else Ok None
  else Ok None.

(** JSON between the first opening and the last closing brace. *)
Definition parse_braced (P : Platform) (text : string) : exc (option pyval) :=
  let start := find "{" text in
  let end_ := rfind "}" text + 1 in
  if (start >=? 0) && (end_ >? start) then try_loads P (slice text start end_) else Ok None.

Definition _parse_json_response (P : Platform) (response_text : string) : exc pyval :=
  let text := strip response_text in
  direct ← try_loads P text;
  match direct with
  | Some v => Ok v
  | None =>
      fenced ← parse_fenced P text;
      match fenced with
      | Some v => Ok v
      | None =>
          braced ← parse_braced P text;
          match braced with
          | Some v => Ok v
          | None =>
              Raise (ValueError ("Could not parse JSON from response: " +:+ slice_to text 200))
          end
      end
  end.

(** [result.get(key, default)] on whatever [json.loads] returned. *)
Definition py_get (result : pyval) (key : string) (default : pyval) : exc pyval :=
  match result with
  | PDict d => Ok (dict_get d key default)
  | _ => Raise (AttributeError ("'" +:+ type_name result +:+ "' object has no attribute 'get'"))
  end.

(** [result[key] = value]. *)
Definition py_setitem (result : pyval) (key : string) (value : pyval) : exc pyval :=
  match result with
  | PDict d => Ok (PDict (<[key := value]> d))
  | PList _ => Raise (TypeError "list indices must be integers or slices, not str")
  | _ => Raise (TypeError ("'" +:+ type_name result +:+ "' object does not support item assignment"))
  end.

(** One call of the backend: [llm.invoke(...)] then [response.content]. *)
Definition invoke (W : World) (prompt : string) : exc string :=
  match llm_invoke W prompt with
  | LLMConnectError => Raise ConnectError
  | LLMRaises e => Raise e
  | LLMContent content => Ok content
  end.

Definition parse_prompt (question : string) : string :=
  "You are a causal reasoning expert analyzing business decisions." +:+ nl +:+
  "Question: " +:+ question +:+ nl +:+
  "Extract the following in JSON format:" +:+ nl +:+
  "1. " +:+ quoted "treatment" +:+ ": What action/change is being proposed?" +:+ nl +:+
  "2. " +:+ quoted "outcomes" +:+ ": What metrics will this affect? (list)" +:+ nl +:+
  "3. " +:+ quoted "decision_type" +:+ ": " +:+ quoted "impact_analysis" +:+ " | "
        +:+ quoted "root_cause" +:+ " | " +:+ quoted "should_we" +:+ nl +:+
  "Return ONLY valid JSON, no explanation.".

Definition retry_directive : string := nl +:+ "Return ONLY JSON, nothing else.".

Definition unavailable_msg : string := "Ollama unavailable. Run: ollama serve".
Definition model_missing_msg : string := "Model missing. Run: ollama pull " +:+ OLLAMA_MODEL.

(** The [try] body of one attempt of [parse_question]. *)
Definition parse_attempt (P : Platform) (W : World) (prompt : string) : exc ParsedQuestion :=
  content ← invoke W prompt;
  result ← _parse_json_response P content;
  treatment ← py_get result "treatment" (PStr "unknown");
  outcomes ← py_get result "outcomes" (PList []);
  decision_type ← py_get result "decision_type" (PStr "should_we");
  ParsedQuestion_new treatment outcomes decision_type.

(** [for attempt in range(LLM_MAX_RETRIES + 1)], over the attempts that
    remain; a loop that ends without [return] yields [None]. *)
Fixpoint parse_question_loop (P : Platform) (W : World) (question : string)
    (attempts : list nat) (prompt : string) : exc (option ParsedQuestion) :=
  match attempts with
  | [] => Ok None
  | attempt :: rest =>
      match parse_attempt P W prompt with
      | Ok parsed => Ok (Some parsed)
      | Raise ConnectError => Raise (OllamaUnavailableError unavailable_msg)
      | Raise e =>
          if contains "not found" (lower (exn_str P e)) then
            Raise (ModelNotFoundError model_missing_msg)
          else if (attempt <? LLM_MAX_RETRIES)%nat then
            parse_question_loop P W question rest (prompt +:+ retry_directive)
          else
            parsed ← _rule_based_parse question; Ok (Some parsed)
      end
  end.

Definition parse_question (P : Platform) (W : World) (question : string)
  : exc (option ParsedQuestion) :=
  parse_question_loop P W question (seq 0 (LLM_MAX_RETRIES + 1)) (parse_prompt question).

Definition stop_loss_defaults : list string :=
  ["Significant metric degradation"; "Unexpected side effects"].

Definition _rule_based_recommendation (confounders : list pyval) (outcomes : list string)
  : pyval :=
  let has_confounders := (0 <? length confounders)%nat in
  PDict (list_to_map
    [("decision_safe", PBool (negb has_confounders));
     ("confidence_level", PStr "LOW");
     ("reasoning",
      PStr ((if has_confounders
             then "Confounders detected - cannot safely attribute changes to proposed treatment."
             else "No recent confounders detected.") +:+ " (LLM fallback mode)"));
     ("suggested_action", PStr (if has_confounders then "WAIT" else "RUN_EXPERIMENT"));
     ("action_details",
      PStr (if has_confounders then "Review confounders and wait for washout period."
            else "Consider running a controlled experiment."));
     ("monitoring_required", PList (map PStr (take 3 outcomes)));
     ("stop_loss_triggers", PList (map PStr stop_loss_defaults))]).

Definition recommendation_prompt (P : Platform) (question treatment : string)
    (outcomes : list string) (confounders : list pyval) (relevant_experiments : string)
  : string :=
  "You are generating a decision brief for business leaders." +:+ nl +:+
  "Question: " +:+ question +:+ nl +:+
  "Treatment: " +:+ treatment +:+ nl +:+
  "Outcomes: " +:+ repr_str_list P outcomes +:+ nl +:+
  "Confounders Detected: " +:+ json_dumps P (PList confounders) +:+ nl +:+
  "Past Experiments: " +:+ relevant_experiments +:+ nl +:+
  "Generate a recommendation in JSON format:" +:+ nl +:+
  "{" +:+ nl +:+
  quoted "decision_safe" +:+ ": true/false," +:+ nl +:+
  quoted "confidence_level" +:+ ": " +:+ quoted "HIGH|MEDIUM|LOW" +:+ "," +:+ nl +:+
  quoted "reasoning" +:+ ": " +:+ quoted "2-3 sentence explanation" +:+ "," +:+ nl +:+
  quoted "suggested_action" +:+ ": " +:+ quoted "PROCEED|WAIT|RUN_EXPERIMENT" +:+ "," +:+ nl +:+
  quoted "action_details" +:+ ": " +:+ quoted "Specific next steps" +:+ "," +:+ nl +:+
  quoted "monitoring_required" +:+ ": [" +:+ quoted "metric1" +:+ ", " +:+ quoted "metric2"
        +:+ "]," +:+ nl +:+
  quoted "stop_loss_triggers" +:+ ": [" +:+ quoted "condition1" +:+ ", " +:+ quoted "condition2"
        +:+ "]" +:+ nl +:+
  "}" +:+ nl +:+
  "If confounders exist, decision_safe MUST be false." +:+ nl +:+
  "Return ONLY valid JSON.".

(** The [try] body of one attempt of [generate_recommendation]. *)
Definition recommendation_attempt (P : Platform) (W : World) (confounders : list pyval)
    (prompt : string) : exc pyval :=
  content ← invoke W prompt;
  result ← _parse_json_response P content;
  match confounders with
  | [] => Ok result
  | _ :: _ => py_setitem result "decision_safe" (PBool false)
  end.

Fixpoint generate_recommendation_loop (P : Platform) (W : World)
    (outcomes : list string) (confounders : list pyval)
    (attempts : list nat) (prompt : string) : exc pyval :=
  match attempts with
  | [] => Ok PNone
  | attempt :: rest =>
      match recommendation_attempt P W confounders prompt with
      | Ok result => Ok result
      | Raise ConnectError => Raise (OllamaUnavailableError unavailable_msg)
      | Raise e =>
          if contains "not found" (lower (exn_str P e)) then
            Raise (ModelNotFoundError model_missing_msg)
          else if (attempt <? LLM_MAX_RETRIES)%nat then
            generate_recommendation_loop P W outcomes confounders rest
              (prompt +:+ retry_directive)
          else
            Ok (_rule_based_recommendation confounders outcomes)
      end
  end.

Definition generate_recommendation (P : Platform) (W : World) (question treatment : string)
    (outcomes : list string) (confounders : list pyval) (relevant_experiments : string)
  : exc pyval :=
  generate_recommendation_loop P W outcomes confounders (seq 0 (LLM_MAX_RETRIES + 1))
    (recommendation_prompt P question treatment outcomes confounders relevant_experiments).

(* ================================================================== *)
(** * document_service.py *)
(* ================================================================== *)

(** The context dict, by the two keys [analyze] reads.  ([kpi_info] and
    [relevant_changes] are filled or left empty and never read again.) *)
Record Context : Type := mkContext {
  ctx_relevant_experiments : string;
  ctx_warnings : list string
}.

(** One element of an update sequence, the element number [i]: it must
    be a sequence of length 2 whose first item can be a key.  A list, a
    text (its characters) and a dict (its keys) are sequences. *)
Definition update_element (i : nat) (e : pyval) : exc unit :=
  let wrong_length (n : nat) : exc unit :=
    Raise (ValueError ("dictionary update sequence element #" +:+ str_nat i
                         +:+ " has length " +:+ str_nat n +:+ "; 2 is required")) in
  match e with
  | PList [k; _] =>
      if hashable k then Ok tt
      else Raise (TypeError ("unhashable type: '" +:+ type_name k +:+ "'"))
  | PList l => wrong_length (length l)
  | PStr s => if (String.length s =? 2)%nat then Ok tt else wrong_length (String.length s)
  | PDict d => if (size d =? 2)%nat then Ok tt else wrong_length (size d)
  | _ =>
      Raise (TypeError ("cannot convert dictionary update sequence element #" +:+ str_nat i
                          +:+ " to a sequence"))
  end.

(** The elements in turn; the first that is no pair raises. *)
Fixpoint update_elements (i : nat) (l : list pyval) : exc unit :=
  match l with
  | [] => Ok tt
  | e :: rest => _ ← update_element i e; update_elements (S i) rest
  end.

(** [result["kpi_info"].update(kpi_data)]: whether it completes.  A dict
    is merged; a list and a text (its characters) are read as sequences
    of pairs; any other value is not iterable. *)
Definition dict_update (kpi_data : pyval) : exc unit :=
  match kpi_data with
  | PDict _ => Ok tt
  | PList l => update_elements 0 l
  | PStr s => update_elements 0 (map PStr (chars s))
  | _ => Raise (TypeError ("'" +:+ type_name kpi_data +:+ "' object is not iterable"))
  end.

(** [for doc, meta in zip(docs, metas)]. *)
Fixpoint collect_experiments (P : Platform)
    (hits : list (string * option (gmap string pyval))) (experiments : list string)
  : exc (list string) :=
  match hits with
  | [] => Ok experiments
  | (doc, None) :: _ => Raise (AttributeError "'NoneType' object has no attribute 'get'")
  | (doc, Some meta) :: rest =>
      match dict_get meta "type" (PStr "unknown") with
      | PStr "experiment" => collect_experiments P rest (experiments ++ [doc])
      | PStr "kpi" =>
          match json_loads P doc with
          | Loaded kpi_data =>
              _ ← dict_update kpi_data; collect_experiments P rest experiments
          | JSONDecodeError => collect_experiments P rest experiments
          | LoadsRecursionError msg => Raise (OtherError msg)
          end
      | _ => collect_experiments P rest experiments
      end
  end.

Definition experiment_separator : string := nl +:+ "---" +:+ nl.

(** [f"{query} {treatment} {' '.join(outcomes)}"]. *)
Definition search_query (query treatment : string) (outcomes : list string) : string :=
  query +:+ " " +:+ treatment +:+ " " +:+ String.concat " " outcomes.

(** The [try] body of [retrieve_context], from the initial [result]. *)
Definition retrieve_body (P : Platform) (W : World) (query treatment : string)
    (outcomes : list string) (result : Context) : exc Context :=
  match chroma W (search_query query treatment outcomes) with
  | ChromaRaises e => Raise e
  | ChromaEmpty =>
      Ok (mkContext (ctx_relevant_experiments result)
            (ctx_warnings result ++ ["No documents indexed. Run ingest_documents.py"]))
  | ChromaHits docs metas =>
      experiments ← collect_experiments P (zip docs metas) [];
      Ok (mkContext
            (match experiments with
             | [] => "No relevant experiments found."
             | _ => String.concat experiment_separator experiments
             end)
            (ctx_warnings result))
  end.

Definition retrieve_context (P : Platform) (W : World) (query treatment : string)
    (outcomes : list string) : exc Context :=
  let result := mkContext EmptyString [] in
  try_except (retrieve_body P W query treatment outcomes result)
    (fun e => Ok (mkContext (ctx_relevant_experiments result)
                    (ctx_warnings result ++ ["Document retrieval error: " +:+ exn_str P e]))).

Definition get_recent_changes (W : World) : pyval :=
  match company_changes W with
  | Some all_changes => all_changes
  | None => PList []
  end.

(* ================================================================== *)
(** * decision_analyzer.py *)
(* ================================================================== *)

Definition TEAM_METRICS : list (string * list string) :=
  [("growth", ["conversion_rate"; "trial_to_paid"; "cac"]);
   ("product", ["activation_rate"; "churn_rate"; "time_to_value"]);
   ("finance", ["revenue"]);
   ("support", ["nps"; "support_satisfaction"]);
   ("operations", [])].

Record TeamImpact : Type := mkTeamImpact {
  ti_team : string;
  ti_affected_metrics : list string;
  ti_direction : string;
  ti_risk_level : string
}.

(** The union built by [confounder_metrics.update(c.affected_metrics)]. *)
Definition confounder_metrics (confounders : list ConfounderInfo) : gset string :=
  foldl (fun acc c => acc ∪ list_to_set (affected_metrics c)) ∅ confounders.

Definition team_risk_level (affected : gset string) (confounders : list ConfounderInfo)
  : string :=
  match confounders with
  | [] => "low"
  | _ :: _ =>
      if negb (bool_decide (affected ∩ confounder_metrics confounders = ∅)) then "high"
      else "medium"
  end.

(** One turn of [for team, team_metrics in TEAM_METRICS.items()]. *)
Definition assess_team (outcome_set : gset string) (confounders : list ConfounderInfo)
    (entry : string * list string) : option TeamImpact :=
  let affected : gset string := list_to_set (snd entry) ∩ outcome_set in
  if negb (bool_decide (affected = ∅)) then
    Some (mkTeamImpact (fst entry) (elements affected) "uncertain"
            (team_risk_level affected confounders))
  else None.

Definition _assess_team_impacts (outcomes : list string) (confounders : list ConfounderInfo)
  : list TeamImpact :=
  let outcome_set : gset string := list_to_set outcomes in
  omap (assess_team outcome_set confounders) TEAM_METRICS.

Record AnalyzeRequest : Type := mkAnalyzeRequest {
  req_question : string;
  req_requester_team : option string
}.

Record AnalyzeResponse : Type := mkAnalyzeResponse {
  ar_decision_id : string;
  ar_question : string;
  ar_treatment : option string;
  ar_outcomes : option (list string);
  ar_decision_safe : bool;
  ar_confidence_level : string;
  ar_suggested_action : string;
  ar_reasoning : string;
  ar_action_details : option string;
  ar_confounders_detected : list ConfounderInfo;
  ar_monitoring_required : option (list string);
  ar_stop_loss_triggers : option (list string);
  ar_team_impacts : option (list TeamImpact);
  ar_warnings : option (list string);
  ar_created_at : datetime
}.

(** A [bool] field: pydantic accepts a bool, the ints and floats 0 and 1,
    and the usual spellings of yes and no. *)
Definition validate_bool (model field : string) (v : pyval) : exc bool :=
  match v with
  | PBool b => Ok b
  | PInt 0 => Ok false
  | PInt 1 => Ok true
  | PFloat f =>
      if PrimFloat.eqb f 0%float then Ok false
      else if PrimFloat.eqb f 1%float then Ok true
      else Raise (ValidationError model field v)
  | PStr s =>
      let l := lower s in
      if bool_decide (l ∈ ["0"; "off"; "f"; "false"; "n"; "no"]) then Ok false
      else if bool_decide (l ∈ ["1"; "on"; "t"; "true"; "y"; "yes"]) then Ok true
      else Raise (ValidationError model field v)
  | _ => Raise (ValidationError model field v)
  end.

(** An [Optional[str]] field. *)
Definition validate_opt_str (model field : string) (v : pyval) : exc (option string) :=
  match v with
  | PNone => Ok None
  | _ => s ← validate_str model field v; Ok (Some s)
  end.

(** An [Optional[List[str]]] field. *)
Definition validate_opt_str_list (model field : string) (v : pyval)
  : exc (option (list string)) :=
  match v with
  | PNone => Ok None
  | _ => l ← validate_str_list model field v; Ok (Some l)
  end.

(** [x if x else None] on a list. *)
Definition none_if_empty {A : Type} (l : list A) : option (list A) :=
  match l with
  | [] => None
  | _ => Some l
  end.

(** [c.model_dump()]. *)
Definition model_dump (c : ConfounderInfo) : pyval :=
  PDict (list_to_map
    [("change_id", PStr (change_id c));
     ("description", PStr (description c));
     ("days_ago", PInt (days_ago c));
     ("affected_metrics", PList (map PStr (affected_metrics c)));
     ("confidence", PFloat (confidence c))]).

(** The [# Build response] block: the reads of the brief in the order of
    the keyword arguments, then the validation of the model. *)
Definition build_response (W : World) (request : AnalyzeRequest) (parsed : ParsedQuestion)
    (recommendation : pyval) (confounders : list ConfounderInfo) (decision_safe : bool)
    (team_impacts : list TeamImpact) (warnings : list string) : exc AnalyzeResponse :=
  v_safe ← py_get recommendation "decision_safe" (PBool decision_safe);
  v_level ← py_get recommendation "confidence_level" (PStr "LOW");
  v_action ← py_get recommendation "suggested_action" (PStr "WAIT");
  v_reasoning ← py_get recommendation "reasoning" (PStr EmptyString);
  v_details ← py_get recommendation "action_details" PNone;
  v_monitoring ← py_get recommendation "monitoring_required" PNone;
  v_triggers ← py_get recommendation "stop_loss_triggers" PNone;
  safe ← validate_bool "AnalyzeResponse" "decision_safe" v_safe;
  level ← validate_str "AnalyzeResponse" "confidence_level" v_level;
  action ← validate_str "AnalyzeResponse" "suggested_action" v_action;
  reasoning ← validate_str "AnalyzeResponse" "reasoning" v_reasoning;
  details ← validate_opt_str "AnalyzeResponse" "action_details" v_details;
  monitoring ← validate_opt_str_list "AnalyzeResponse" "monitoring_required" v_monitoring;
  triggers ← validate_opt_str_list "AnalyzeResponse" "stop_loss_triggers" v_triggers;
  Ok (mkAnalyzeResponse (new_decision_id W) (req_question request)
        (Some (pq_treatment parsed)) (Some (pq_outcomes parsed))
        safe level action reasoning details confounders monitoring triggers
        (none_if_empty team_impacts) (none_if_empty warnings) (clock_response W)).

(** [self._log_decision(db, request, response)]. *)
Definition _log_decision (W : World) (request : AnalyzeRequest) (response : AnalyzeResponse)
  : exc unit :=
  match audit_store_failure W with
  | Some e => Raise e
  | None => Ok tt
  end.

(** [response.warnings.append(w)], creating the list when it is [None]. *)
Definition append_warning (response : AnalyzeResponse) (w : string) : AnalyzeResponse :=
  mkAnalyzeResponse (ar_decision_id response) (ar_question response) (ar_treatment response)
    (ar_outcomes response) (ar_decision_safe response) (ar_confidence_level response)
    (ar_suggested_action response) (ar_reasoning response) (ar_action_details response)
    (ar_confounders_detected response) (ar_monitoring_required response)
    (ar_stop_loss_triggers response) (ar_team_impacts response)
    (Some ((match ar_warnings response with Some ws => ws | None => [] end) ++ [w]))
    (ar_created_at response).

(** Step 1 of [analyze]: the two hard errors are raised again, any other
    exception is replaced by a fixed question and a warning. *)
Definition analyze_parse (P : Platform) (W : World) (request : AnalyzeRequest)
    (warnings : list string) : exc (option ParsedQuestion * list string) :=
  match parse_question P W (req_question request) with
  | Ok parsed => Ok (parsed, warnings)
  | Raise (OllamaUnavailableError m) => Raise (OllamaUnavailableError m)
  | Raise (ModelNotFoundError m) => Raise (ModelNotFoundError m)
  | Raise _ =>
      Ok (Some (mkParsedQuestion "unknown" ["conversion_rate"] "should_we"),
          warnings ++ ["Question parsing used fallback mode"])
  end.

(** Step 4 of [analyze]. *)
Definition analyze_recommend (P : Platform) (W : World) (request : AnalyzeRequest)
    (parsed : ParsedQuestion) (confounders : list ConfounderInfo) (decision_safe : bool)
    (context : Context) (warnings : list string) : exc (pyval * list string) :=
  match generate_recommendation P W (req_question request) (pq_treatment parsed)
          (pq_outcomes parsed) (map model_dump confounders)
          (ctx_relevant_experiments context) with
  | Ok recommendation => Ok (recommendation, warnings)
  | Raise (OllamaUnavailableError m) => Raise (OllamaUnavailableError m)
  | Raise (ModelNotFoundError m) => Raise (ModelNotFoundError m)
  | Raise _ =>
      Ok (PDict (list_to_map
            [("decision_safe", PBool decision_safe);
             ("confidence_level", PStr "LOW");
             ("reasoning",
              PStr "Unable to generate full recommendation. Based on confounder analysis only.");
             ("suggested_action",
              PStr (match confounders with [] => "RUN_EXPERIMENT" | _ => "WAIT" end));
             ("action_details", PStr "Review detected confounders.");
             ("monitoring_required", PList (map PStr (pq_outcomes parsed)));
             ("stop_loss_triggers", PList [])]),
          warnings ++ ["Recommendation generation used fallback mode"])
  end.

(** Step 6 of [analyze]. *)
Definition analyze_log (W : World) (request : AnalyzeRequest) (response : AnalyzeResponse)
  : exc AnalyzeResponse :=
  try_except (_ ← _log_decision W request response; Ok response)
    (fun e => Ok (append_warning response "Decision logging failed")).

(** Steps 3 to 6 of [analyze], from the parsed question, the warnings so
    far and the retrieved context. *)
Definition analyze_with_context (P : Platform) (W : World) (request : AnalyzeRequest)
    (parsed : ParsedQuestion) (warnings : list string) (context : Context)
  : exc AnalyzeResponse :=
  let warnings := warnings ++ ctx_warnings context in
  let recent_changes := get_recent_changes W in
  confounder_result ← detect_confounders_dyn P None (clock_detect W) recent_changes
                        (pq_outcomes parsed);
  let confounders := dr_confounders confounder_result in
  let decision_safe := dr_decision_safe confounder_result in
  '(recommendation, warnings) ← analyze_recommend P W request parsed confounders
                                  decision_safe context warnings;
  let team_impacts := _assess_team_impacts (pq_outcomes parsed) confounders in
  response ← build_response W request parsed recommendation confounders decision_safe
               team_impacts warnings;
  analyze_log W request response.

Definition analyze (P : Platform) (W : World) (request : AnalyzeRequest)
  : exc AnalyzeResponse :=
  let warnings : list string := [] in
  '(parsed, warnings) ← analyze_parse P W request warnings;
  match parsed with
  | None => Raise (AttributeError "'NoneType' object has no attribute 'treatment'")
  | Some parsed =>
      context ← retrieve_context P W (req_question request) (pq_treatment parsed)
                  (pq_outcomes parsed);
      analyze_with_context P W request parsed warnings context
  end.

(** The same world with another outcome of the audit write. *)
Definition with_audit_store (W : World) (failure : option exn) : World :=
  mkWorld (llm_invoke W) (chroma W) (company_changes W) failure (clock_detect W)
    (clock_response W) (new_decision_id W).

(* ================================================================== *)
(** * A reference platform, to run the services on concrete inputs *)
(* ================================================================== *)

(** The statements below hold for every [Platform].  [ref_platform] is
    one instance: a reader for the JSON grammar without fractions,
    exponents and [\u] escapes (it rejects a text that uses them), a
    reader for ISO calendar dates [YYYY-MM-DD], and short renderings. *)

Definition digit_value (c : ascii) : option Z :=
  let n := char_code c in
  if ((48 <=? n) && (n <=? 57))%nat then Some (Z.of_nat n - 48) else None.

Definition is_json_space (c : ascii) : bool :=
  let n := char_code c in
  ((n =? 32) || (n =? 9) || (n =? 10) || (n =? 13))%nat.

Fixpoint skip_ws (s : string) : string :=
  match s with
  | String c s' => if is_json_space c then skip_ws s' else s
  | EmptyString => s
  end.

Definition json_escape (c : ascii) : option ascii :=
  let n := char_code c in
  if (n =? 34)%nat || (n =? 92)%nat || (n =? 47)%nat then Some c
  else if (n =? 98)%nat then Some (ascii_of_nat 8)
  else if (n =? 102)%nat then Some (ascii_of_nat 12)
  else if (n =? 110)%nat then Some (ascii_of_nat 10)
  else if (n =? 114)%nat then Some (ascii_of_nat 13)
  else if (n =? 116)%nat then Some (ascii_of_nat 9)
  else None.

(** The characters after an opening quote, up to the closing one. *)
Fixpoint json_string_body (s : string) : option (string * string) :=
  match s with
  | EmptyString => None
  | String c s' =>
      let n := char_code c in
      if (n =? 34)%nat then Some (EmptyString, s')
      else if (n =? 92)%nat then
        match s' with
        | String e s'' =>
            c' ← json_escape e;
            '(body, rest) ← json_string_body s'';
            Some (String c' body, rest)
        | EmptyString => None
        end
      else if (n <? 32)%nat then None
      else '(body, rest) ← json_string_body s'; Some (String c body, rest)
  end.

Fixpoint json_digits (s : string) (acc : Z) : Z * string :=
  match s with
  | String c s' =>
      match digit_value c with
      | Some d => json_digits s' (10 * acc + d)
      | None => (acc, s)
      end
  | EmptyString => (acc, s)
  end.

(** An integer numeral; a fraction or an exponent after it is rejected. *)
Definition json_int (s : string) : option (Z * string) :=
  let '(neg, s1) :=
    match s with
    | String "-" s' => (true, s')
    | _ => (false, s)
    end in
  match s1 with
  | String c s2 =>
      d ← digit_value c;
      let '(n, rest) := if d =? 0 then (0, s2) else json_digits s2 d in
      match rest with
      | String "." _ | String "e" _ | String "E" _ => None
      | _ => Some (if neg then - n else n, rest)
      end
  | EmptyString => None
  end.

Definition strip_prefix (p s : string) : option string :=
  if String.prefix p s
  then Some (String.substring (String.length p) (String.length s - String.length p) s)
  else None.

Inductive json_mode : Type :=
| JValue
| JMembers (acc : gmap string pyval)
| JElements (acc : list pyval).

(** [JValue]: one value.  [JMembers acc]: the members of an object after
    its brace or a comma, up to the closing brace.  [JElements acc]: the
    elements of an array after its bracket or a comma. *)
Fixpoint json_parse (fuel : nat) (mode : json_mode) (s : string) : option (pyval * string) :=
  match fuel with
  | O => None
  | S fuel' =>
      match mode, skip_ws s with
      | JValue, String "{" rest =>
          match skip_ws rest with
          | String "}" rest' => Some (PDict ∅, rest')
          | _ => json_parse fuel' (JMembers ∅) rest
          end
      | JValue, String "[" rest =>
          match skip_ws rest with
          | String "]" rest' => Some (PList [], rest')
          | _ => json_parse fuel' (JElements []) rest
          end
      | JValue, String c rest =>
          if (char_code c =? 34)%nat then
            '(body, rest') ← json_string_body rest; Some (PStr body, rest')
          else
            match strip_prefix "true" (String c rest), strip_prefix "false" (String c rest),
                  strip_prefix "null" (String c rest) with
            | Some r, _, _ => Some (PBool true, r)
            | _, Some r, _ => Some (PBool false, r)
            | _, _, Some r => Some (PNone, r)
            | _, _, _ => '(n, r) ← json_int (String c rest); Some (PInt n, r)
            end
      | JValue, EmptyString => None
      | JMembers acc, String c rest =>
          if (char_code c =? 34)%nat then
            '(key, rest1) ← json_string_body rest;
            match skip_ws rest1 with
            | String ":" rest2 =>
                '(v, rest3) ← json_parse fuel' JValue rest2;
                match skip_ws rest3 with
                | String "," rest4 => json_parse fuel' (JMembers (<[key := v]> acc)) rest4
                | String "}" rest4 => Some (PDict (<[key := v]> acc), rest4)
                | _ => None
                end
            | _ => None
            end
          else None
      | JMembers _, EmptyString => None
      | JElements acc, rest =>
          '(v, rest1) ← json_parse fuel' JValue rest;
          match skip_ws rest1 with
          | String "," rest2 => json_parse fuel' (JElements (acc ++ [v])) rest2
          | String "]" rest2 => Some (PList (acc ++ [v]), rest2)
          | _ => None
          end
      end
  end.

Definition ref_json_parse (text : string) : option pyval :=
  '(v, rest) ← json_parse (2 * String.length text + 2) JValue text;
  match skip_ws rest with
  | EmptyString => Some v
  | _ => None
  end.

(** The reader as [json.loads]: a text it does not read is a
    [JSONDecodeError]; it has no depth limit. *)
Definition ref_json_loads (text : string) : loads_outcome :=
  match ref_json_parse text with
  | Some v => Loaded v
  | None => JSONDecodeError
  end.

(** Days from 0001-01-01 to the civil date [y-m-d]. *)
Definition days_from_civil (y m d : Z) : Z :=
  let y' := if m <=? 2 then y - 1 else y in
  let era := y' / 400 in
  let yoe := y' - era * 400 in
  let mp := if 2 <? m then m - 3 else m + 9 in
  let doy := (153 * mp + 2) / 5 + d - 1 in
  let doe := yoe * 365 + yoe / 4 - yoe / 100 + doy in
  era * 146097 + doe - 306.

Definition is_leap_year (y : Z) : bool :=
  ((y mod 4 =? 0) && negb (y mod 100 =? 0)) || (y mod 400 =? 0).

Definition days_in_month (y m : Z) : Z :=
  if m =? 2 then (if is_leap_year y then 29 else 28)
  else if (m =? 4) || (m =? 6) || (m =? 9) || (m =? 11) then 30 else 31.

(** A naive midnight. *)
Definition civil_midnight (y m d : Z) : datetime :=
  mkDatetime (days_from_civil y m d * MICROS_PER_DAY) None.

(** An aware midnight UTC. *)
Definition utc_midnight (y m d : Z) : datetime :=
  mkDatetime (days_from_civil y m d * MICROS_PER_DAY) (Some 0).

Definition ref_parse_date (s : string) : option datetime :=
  match list_ascii_of_string s with
  | [y1; y2; y3; y4; sep1; m1; m2; sep2; d1; d2] =>
      a ← digit_value y1; b ← digit_value y2; c ← digit_value y3; e ← digit_value y4;
      f ← digit_value m1; g ← digit_value m2; h ← digit_value d1; i ← digit_value d2;
      let y := 1000 * a + 100 * b + 10 * c + e in
      let m := 10 * f + g in
      let d := 10 * h + i in
      if (char_code sep1 =? 45)%nat && (char_code sep2 =? 45)%nat
         && (1 <=? y) && (1 <=? m) && (m <=? 12) && (1 <=? d) && (d <=? days_in_month y m)
      then Some (civil_midnight y m d) else None
  | _ => None
  end.

(** [repr(v)] of None, a boolean, an int, a text without quotes and
    backslashes, and a list of such; a float and a dict are abbreviated. *)
Fixpoint ref_repr (v : pyval) : string :=
  match v with
  | PNone => "None"
  | PBool true => "True"
  | PBool false => "False"
  | PInt z => str_int z
  | PFloat _ => "<float>"
  | PStr s => "'" +:+ s +:+ "'"
  | PList l => "[" +:+ String.concat ", " (map ref_repr l) +:+ "]"
  | PDict _ => "{...}"
  end.

(** The message of a validation error quotes the rejected input. *)
Definition ref_validation_error_str (model field : string) (input : pyval) : string :=
  "1 validation error for " +:+ model +:+ nl +:+ field +:+ nl +:+
  "  Input should be a valid value [input_value=" +:+ ref_repr input
  +:+ ", input_type=" +:+ type_name input +:+ "]".

Definition ref_repr_str_list (l : list string) : string :=
  "[" +:+ String.concat ", " (map (fun s => "'" +:+ s +:+ "'") l) +:+ "]".

Definition ref_json_dumps (v : pyval) : string :=
  match v with
  | PList [] => "[]"
  | _ => "[...]"
  end.

Definition ref_platform : Platform :=
  mkPlatform ref_json_loads ref_parse_date ref_validation_error_str ref_repr_str_list
    ref_json_dumps.

(* ================================================================== *)
(** * The reference definition of detection *)
(* ================================================================== *)

(** The change's date, when it is present, not empty and parses. *)
Definition change_date (P : Platform) (change : gmap string pyval) : option datetime :=
  match change !! "date" with
  | Some (PStr s) => if String.eqb s EmptyString then None else parse_date P s
  | _ => None
  end.

(** Whole days from the change to the reference date; a date without a
    zone counts as UTC. *)
Definition whole_days_ago (reference date : datetime) : Z :=
  (utc_instant (make_aware reference) - utc_instant (make_aware date)) / MICROS_PER_DAY.

(** The metrics the change lists. *)
Definition change_metrics (change : gmap string pyval) : gset string :=
  match change !! "affected_metrics" with
  | Some (PList l) => list_to_set (omap as_str l)
  | _ => ∅
  end.

Definition text_field (change : gmap string pyval) (key default : string) : string :=
  match change !! key with
  | Some (PStr s) => s
  | _ => default
  end.

(** [round(1.0 - (days_ago / WINDOW) * 0.3, 3)] by exact arithmetic: the
    count of thousandths nearest to [1000 - 300 * days / WINDOW], as the
    float nearest to that decimal. *)
Definition reference_confidence (days : Z) : float :=
  PrimFloat.div
    (float_of_int (div_round_half_even
                     (1000 * CONFOUNDING_WINDOW_DAYS - 300 * days) CONFOUNDING_WINDOW_DAYS))
    1000%float.

Definition in_window (days : Z) : bool :=
  (0 <=? days) && (days <=? CONFOUNDING_WINDOW_DAYS).

(** The record of one change, if the change is a confounder. *)
Definition reference_record (P : Platform) (reference : datetime) (outcomes : list string)
    (change : gmap string pyval) : option ConfounderInfo :=
  match change_date P change with
  | None => None
  | Some date =>
      let days := whole_days_ago reference date in
      let overlap := change_metrics change ∩ list_to_set outcomes in
      if in_window days && negb (bool_decide (overlap = ∅)) then
        Some (mkConfounderInfo (text_field change "id" "unknown")
                (text_field change "description" "Unknown change")
                days (elements overlap) (reference_confidence days))
      else None
  end.












(** A record whose day lies in the window and whose confidence is the
    one of that day. *)
Definition well_scored (c : ConfounderInfo) : Prop :=
  in_window (days_ago c) = true /\ confidence c = reference_confidence (days_ago c).


(** What one change adds to the list: the record its [try] body builds,
    nothing when the body skips or raises. *)
Definition emitted_by (P : Platform) (current_date : datetime) (outcomes : list string)
    (change : gmap string pyval) : option ConfounderInfo :=
  match process_change P current_date outcomes change with
  | Ok (Some c) => Some c
  | _ => None
  end.

(** The change file by its shape. *)
Definition as_dict (v : pyval) : option (gmap string pyval) :=
  match v with
  | PDict d => Some d
  | _ => None
  end.

Definition is_dict (v : pyval) : bool :=
  match v with
  | PDict _ => true
  | _ => false
  end.

(** The dicts of a list. *)
Definition dict_entries (v : pyval) : list (gmap string pyval) :=
  match v with
  | PList l => omap as_dict l
  | _ => []
  end.

(** The error detection ends with on a value that is no list of dicts:
    a value that cannot be iterated, or the first entry that is no dict.
    (The keys of a dict and the characters of a text are text.) *)
Definition change_file_error (v : pyval) : option exn :=
  match v with
  | PList l =>
      match List.find (fun c => negb (is_dict c)) l with
      | Some c => Some (AttributeError (no_get c))
      | None => None
      end
  | PDict d =>
      if bool_decide (d = ∅) then None
      else Some (AttributeError "'str' object has no attribute 'get'")
  | PStr s =>
      if String.eqb s EmptyString then None
      else Some (AttributeError "'str' object has no attribute 'get'")
  | _ => Some (TypeError ("'" +:+ type_name v +:+ "' object is not iterable"))
  end.

(** The metrics a team owns that are among the outcomes meet the
    metrics of some confounder. *)
Definition overlaps_confounders (affected : gset string) (confounders : list ConfounderInfo)
  : Prop :=
  exists m c, m ∈ affected /\ c ∈ confounders /\ m ∈ affected_metrics c.

(** A brief that is a dict whose [decision_safe] is false. *)
Definition forced_unsafe (brief : pyval) : Prop :=
  exists d, brief = PDict d /\ d !! "decision_safe" = Some (PBool false).

(** An attempt that fails without a connection error and without the
    words [not found] in its message. *)
Definition soft_failure (P : Platform) (W : World) (prompt : string) : Prop :=
  exists e, parse_attempt P W prompt = Raise e
            /\ e <> ConnectError
            /\ contains "not found" (lower (exn_str P e)) = false.

(** Whether a list is empty. *)
Definition is_empty {A : Type} (l : list A) : bool :=
  match l with
  | [] => true
  | _ :: _ => false
  end.

(* ================================================================== *)
(** * Sample inputs *)
(* ================================================================== *)

Definition sample_change (id date descr : string) (metrics : list string)
  : gmap string pyval :=
  list_to_map [("id", PStr id); ("date", PStr date); ("description", PStr descr);
               ("affected_metrics", PList (map PStr metrics))].

(** The pricing change of the test suite, three days before 2026-01-18. *)
Definition pricing_change : gmap string pyval :=
  sample_change "CHG-2026-001" "2026-01-15" "Increased enterprise tier pricing by 15%"
    ["conversion_rate"; "revenue"; "churn_rate"].



Definition sample_reference : datetime := utc_midnight 2026 1 18.

Definition sample_question : string := "Should we change pricing?".

Definition sample_request : AnalyzeRequest := mkAnalyzeRequest sample_question None.

Definition json_member (key value : string) : string := quoted key +:+ ": " +:+ value.

(** A well-formed answer to the parse prompt. *)
Definition parse_reply : string :=
  "{" +:+ json_member "treatment" (quoted "change pricing") +:+ ", "
      +:+ json_member "outcomes" ("[" +:+ quoted "conversion_rate" +:+ "]") +:+ ", "
      +:+ json_member "decision_type" (quoted "should_we") +:+ "}".

(** A brief that declares the decision safe. *)
Definition optimistic_brief : string :=
  "{" +:+ json_member "decision_safe" "true" +:+ ", "
      +:+ json_member "confidence_level" (quoted "HIGH") +:+ ", "
      +:+ json_member "reasoning" (quoted "Nothing stands in the way.") +:+ ", "
      +:+ json_member "suggested_action" (quoted "PROCEED") +:+ "}".

Definition optimistic_backend (prompt : string) : llm_outcome :=
  if contains "decision brief" prompt then LLMContent optimistic_brief
  else LLMContent parse_reply.

(** The pricing change is three days old and the backend calls the
    decision safe. *)
Definition optimistic_world : World :=
  mkWorld optimistic_backend (fun _ => ChromaEmpty) (Some (PList [PDict pricing_change])) None
    sample_reference sample_reference "DEC-20260118-0A1B2C3D".

(** The same, with the vector index and the audit store failing. *)
Definition degraded_world : World :=
  mkWorld optimistic_backend (fun _ => ChromaRaises (OtherError "index unavailable"))
    (Some (PList [PDict pricing_change])) (Some (OtherError "database is locked"))
    sample_reference sample_reference "DEC-20260118-0A1B2C3D".

(** A backend that answers in prose, and the prose says [not found]. *)
Definition apologetic_reply : string :=
  "Sorry, a treatment was not found in the question.".

Definition apologetic_world : World :=
  mkWorld (fun _ => LLMContent apologetic_reply) (fun _ => ChromaEmpty)
    (Some (PList [PDict pricing_change])) None sample_reference sample_reference "DEC-20260118-0A1B2C3D".

(** A backend whose answer to the parse prompt has no [outcomes]. *)
Definition terse_reply : string :=
  "{" +:+ json_member "treatment" (quoted "change pricing") +:+ "}".

Definition terse_world : World :=
  mkWorld (fun _ => LLMContent terse_reply) (fun _ => ChromaEmpty)
    (Some (PList [PDict pricing_change])) None sample_reference sample_reference "DEC-20260118-0A1B2C3D".

(* ================================================================== *)
(** * scripts/ingest_documents.py: [chunk_text] *)
(* ================================================================== *)

(** How a slice bound is read: a negative bound counts from the end, and
    the result is kept inside the text. *)
Definition clamp_index (len i : Z) : Z :=
  let i := if i <? 0 then i + len else i in
  if i <? 0 then 0 else if len <? i then len else i.

(** [s[a:b]] for any two ints. *)
Definition py_slice (s : string) (a b : Z) : string :=
  let len := Z.of_nat (String.length s) in
  let a' := clamp_index len a in
  let b' := clamp_index len b in
  String.substring (Z.to_nat a') (Z.to_nat (b' - a')) s.

(** The [while start < len(text)] loop; [None] when the fuel ends before
    the loop does. *)
Fixpoint chunk_text_loop (fuel : nat) (text : string) (chunk_size overlap start : Z)
    (chunks : list string) : option (list string) :=
  if start <? Z.of_nat (String.length text) then
    match fuel with
    | O => None
    | S fuel' =>
        let end_ := start + chunk_size in
        let chunk := py_slice text start end_ in
        let chunks :=
          if negb (String.eqb (strip chunk) EmptyString) then chunks ++ [strip chunk]
          else chunks in
        chunk_text_loop fuel' text chunk_size overlap (end_ - overlap) chunks
    end
  else Some chunks.

Definition chunk_text (fuel : nat) (text : string) (chunk_size overlap : Z)
  : option (list string) :=
  chunk_text_loop fuel text chunk_size overlap 0 [].

(** All characters are whitespace. *)
Fixpoint is_blank (s : string) : bool :=
  match s with
  | EmptyString => true
  | String c s' => is_space c && is_blank s'
  end.

(** The stripped window that starts at [k * step], when it is not blank. *)
Definition chunk_window (text : string) (chunk_size step : Z) (k : nat) : option string :=
  let chunk := strip (py_slice text (Z.of_nat k * step) (Z.of_nat k * step + chunk_size)) in
  if String.eqb chunk EmptyString then None else Some chunk.

(** The number of window starts [0, step, 2 * step, ...] below [len]. *)
Definition window_count (len step : Z) : nat := Z.to_nat ((len + step - 1) / step).


(* ================================================================== *)
(** * The prompts of the retry loops *)
(* ================================================================== *)

(** The prompt after [n] failed attempts: [prompt += ...] done [n] times. *)
Fixpoint retry_prompt (prompt : string) (n : nat) : string :=
  match n with
  | O => prompt
  | S n' => retry_prompt (prompt +:+ retry_directive) n'
  end.

(** The two errors the retry loops let through. *)
Definition hard_error (e : exn) : Prop :=
  e = OllamaUnavailableError unavailable_msg \/ e = ModelNotFoundError model_missing_msg.

(** The character occurs in the text. *)
Fixpoint has_char (c : ascii) (s : string) : bool :=
  match s with
  | EmptyString => false
  | String a s' => Ascii.eqb a c || has_char c s'
  end.

(** No character of the text is whitespace. *)
Fixpoint no_space (s : string) : bool :=
  match s with
  | EmptyString => true
  | String c s' => negb (is_space c) && no_space s'
  end.

(** A backend that differs from [optimistic_backend] on one prompt only:
    the parse prompt of the sample question after three directives. *)
Definition picky_backend (prompt : string) : llm_outcome :=
  if String.eqb prompt (retry_prompt (parse_prompt sample_question) 3) then LLMConnectError
  else optimistic_backend prompt.

Definition picky_world : World :=
  mkWorld picky_backend (fun _ => ChromaEmpty) (Some (PList [PDict pricing_change])) None
    sample_reference sample_reference "DEC-20260118-0A1B2C3D".

(* ================================================================== *)
(** * Retrieval: the hits that count *)
(* ================================================================== *)

(** [meta.get("type", "unknown")] when it is text. *)
Definition hit_type (meta : gmap string pyval) : option string :=
  as_str (dict_get meta "type" (PStr "unknown")).

(** The document of a hit whose metadata call it an experiment. *)
Definition experiment_doc (hit : string * option (gmap string pyval)) : option string :=
  match hit with
  | (doc, Some meta) =>
      match hit_type meta with
      | Some s => if String.eqb s "experiment" then Some doc else None
      | None => None
      end
  | (_, None) => None
  end.

(** A hit that has metadata and is not a KPI document. *)
Definition plain_hit (hit : string * option (gmap string pyval)) : bool :=
  match hit with
  | (_, Some meta) =>
      match hit_type meta with
      | Some s => negb (String.eqb s "kpi")
      | None => true
      end
  | (_, None) => false
  end.

(** [result["relevant_experiments"]] after the loop. *)
Definition experiments_text (experiments : list string) : string :=
  match experiments with
  | [] => "No relevant experiments found."
  | _ => String.concat experiment_separator experiments
  end.

(** Three hits: an experiment, a change and a second experiment. *)
Definition sample_hits : list (string * option (gmap string pyval)) :=
  [("Experiment 001: annual discount", Some {[ "type" := PStr "experiment" ]});
   ("Change: pricing", Some {[ "type" := PStr "change" ]});
   ("Experiment 002: onboarding email", Some {[ "type" := PStr "experiment" ]})].

(** The metrics some team owns. *)
Definition owned_metrics : list string := concat (map snd TEAM_METRICS).

(* ================================================================== *)
(** * main.py *)
(* ================================================================== *)

(** What the handler of [POST /api/analyze] does: it returns the
    response, or raises [HTTPException(status_code, detail)] with the
    two texts of [detail]. *)
Inductive http_reply : Type :=
| Returned (response : AnalyzeResponse)
| HTTPException (status_code : Z) (error suggestion : string).

Definition analyze_decision (P : Platform) (W : World) (request : AnalyzeRequest)
  : http_reply :=
  match analyze P W request with
  | Ok response => Returned response
  | Raise (OllamaUnavailableError _) =>
      HTTPException 503 "Ollama unavailable. Run: ollama serve"
        "Start Ollama server with: ollama serve"
  | Raise (ModelNotFoundError _) =>
      HTTPException 500 "Model missing. Run: ollama pull qwen2.5:7b"
        "Download the model with: ollama pull qwen2.5:7b"
  | Raise e =>
      HTTPException 500 ("Analysis failed: " +:+ exn_str P e) "Check logs for details"
  end.

(** The fields of [AnalyzeResponse] that are read from the brief. *)
Definition brief_fields : list string :=
  ["decision_safe"; "confidence_level"; "suggested_action"; "reasoning"; "action_details";
   "monitoring_required"; "stop_loss_triggers"].

(** The backend is of no use: every call of it raises, or returns a text
    that holds no JSON, and the error is none of those that end the
    request (no connection error, no [not found] in its message). *)
Definition backend_unusable (P : Platform) (W : World) : Prop :=
  forall prompt,
    exists e, (content ← invoke W prompt; _parse_json_response P content) = Raise e
              /\ e <> ConnectError
              /\ contains "not found" (lower (exn_str P e)) = false.

(** The warning the audit write adds when it fails. *)
Definition audit_warning (W : World) : list string :=
  match audit_store_failure W with
  | Some _ => ["Decision logging failed"]
  | None => []
  end.

(** A backend that times out, an empty index and no change file. *)
Definition silent_world : World :=
  mkWorld (fun _ => LLMRaises (OtherError "Read timed out")) (fun _ => ChromaEmpty)
    None None sample_reference sample_reference "DEC-20260118-0A1B2C3D".

(** The change file holds the changes under a key instead of being the
    list itself. *)
Definition keyed_changes_world : World :=
  mkWorld optimistic_backend (fun _ => ChromaEmpty)
    (Some (PDict {[ "changes" := PList [PDict pricing_change] ]})) None
    sample_reference sample_reference "DEC-20260118-0A1B2C3D".

(** A backend whose answer gives the treatment as a list. *)
Definition misnamed_reply : string :=
  "{" +:+ json_member "treatment" ("[" +:+ quoted "not found" +:+ "]") +:+ "}".

Definition misnaming_world : World :=
  mkWorld (fun _ => LLMContent misnamed_reply) (fun _ => ChromaEmpty) None None
    sample_reference sample_reference "DEC-20260118-0A1B2C3D".

(** A backend that cannot be reached. *)
Definition unreachable_world : World :=
  mkWorld (fun _ => LLMConnectError) (fun _ => ChromaEmpty) (Some (PList [PDict pricing_change])) None
    sample_reference sample_reference "DEC-20260118-0A1B2C3D".

(** A backend whose brief is a JSON list, and no change on file. *)
Definition listing_backend (prompt : string) : llm_outcome :=
  if contains "decision brief" prompt then LLMContent "[1]"
  else LLMContent parse_reply.

Definition listing_world : World :=
  mkWorld listing_backend (fun _ => ChromaEmpty) None None
    sample_reference sample_reference "DEC-20260118-0A1B2C3D".

(* ================================================================== *)
(** * scripts/ingest_documents.py: [ingest_experiments] *)
(* ================================================================== *)

(** [s.split(sep)] for a separator that is not empty: the pieces between
    the occurrences of [sep], found from the left without overlap.
    [skip] counts the characters of an occurrence still to pass, [piece]
    is the piece read so far. *)
Fixpoint split_from (sep s : string) (skip : nat) (piece : string) : list string :=
  match s with
  | EmptyString => [piece]
  | String c s' =>
      match skip with
      | S skip' => split_from sep s' skip' piece
      | O =>
          if String.prefix sep s
          then piece :: split_from sep s' (String.length sep - 1) EmptyString
          else split_from sep s' 0 (piece +:+ String c EmptyString)
      end
  end.

Definition split (sep s : string) : list string := split_from sep s 0 EmptyString.

(** [l[0]]. *)
Definition first_item (l : list string) : exc string :=
  match l with
  | x :: _ => Ok x
  | [] => Raise (OtherError "list index out of range")
  end.

(** The arguments of [collection.add]: three lists, filled in step. *)
Record Batch : Type := mkBatch {
  documents : list string;
  metadatas : list (gmap string pyval);
  ids : list string
}.

Definition EXPERIMENT_CHUNK_SIZE : Z := 800.
Definition EXPERIMENT_OVERLAP : Z := 100.

(** [chunk_text(text, chunk_size=800, overlap=100)], with fuel for one
    turn of the loop per character. *)
Definition experiment_chunks (text : string) : option (list string) :=
  chunk_text (String.length text) text EXPERIMENT_CHUNK_SIZE EXPERIMENT_OVERLAP.

(** [lines[0].split(":")[0].strip() if lines else f"exp_{i}"]. *)
Definition section_exp_id (i : nat) (section : string) : exc string :=
  let lines := split nl (strip section) in
  match lines with
  | [] => Ok ("exp_" +:+ str_nat i)
  | _ :: _ =>
      line ← first_item lines;
      head ← first_item (split ":" line);
      Ok (strip head)
  end.

(** [for j, chunk in enumerate(chunks)] of one section. *)
Fixpoint add_section_chunks (exp_id : string) (chunks : list string) (j : nat) (b : Batch)
  : Batch :=
  match chunks with
  | [] => b
  | chunk :: rest =>
      add_section_chunks exp_id rest (S j)
        (mkBatch
           (documents b ++ ["Experiment " +:+ exp_id +:+ ":" +:+ nl +:+ chunk])
           (metadatas b ++ [list_to_map [("type", PStr "experiment");
                                         ("experiment_id", PStr ("EXP-" +:+ exp_id));
                                         ("chunk", PInt (Z.of_nat j))]])
           (ids b ++ ["exp_" +:+ exp_id +:+ "_" +:+ str_nat j]))
  end.

(** [for i, section in enumerate(sections[1:], 1)]; [None] when a call of
    [chunk_text] does not end. *)
Fixpoint ingest_sections (sections : list string) (i : nat) (b : Batch)
  : option (exc Batch) :=
  match sections with
  | [] => Some (Ok b)
  | section :: rest =>
      match section_exp_id i section with
      | Raise e => Some (Raise e)
      | Ok exp_id =>
          match experiment_chunks section with
          | None => None
          | Some chunks => ingest_sections rest (S i) (add_section_chunks exp_id chunks 0 b)
          end
      end
  end.

Definition best_practices_title : string := "Experiment Design Best Practices".

(** [content[bp_start:]]. *)
Definition best_practices_text (content : string) : string :=
  let bp_start := find ("## " +:+ best_practices_title) content in
  py_slice content bp_start (Z.of_nat (String.length content)).

(** [for j, chunk in enumerate(chunks)] of the best practices. *)
Fixpoint add_practice_chunks (chunks : list string) (j : nat) (b : Batch) : Batch :=
  match chunks with
  | [] => b
  | chunk :: rest =>
      add_practice_chunks rest (S j)
        (mkBatch
           (documents b ++ [chunk])
           (metadatas b ++ [list_to_map [("type", PStr "experiment");
                                         ("experiment_id", PStr "best_practices");
                                         ("chunk", PInt (Z.of_nat j))]])
           (ids b ++ ["exp_best_practices_" +:+ str_nat j]))
  end.

(** [ingest_experiments] on the text of the file: the batch handed to
    [collection.add], if it is called, and the count returned. *)
Definition ingest_experiments (content : string) : option (exc (option Batch * nat)) :=
  let sections := split "## EXP-" content in
  match ingest_sections (tail sections) 1 (mkBatch [] [] []) with
  | None => None
  | Some (Raise e) => Some (Raise e)
  | Some (Ok b) =>
      let with_practices :=
        if contains best_practices_title content then
          match experiment_chunks (best_practices_text content) with
          | None => None
          | Some chunks => Some (add_practice_chunks chunks 0 b)
          end
        else Some b in
      match with_practices with
      | None => None
      | Some b =>
          Some (Ok (match documents b with [] => None | _ :: _ => Some b end,
                    length (documents b)))
      end
  end.

(** The hits a search returns when it finds the documents of a batch with
    their metadata. *)
Definition batch_hits (b : Batch) : list (string * option (gmap string pyval)) :=
  zip (documents b) (map Some (metadatas b)).

(** A small experiment file. *)
Definition sample_experiments : string :=
  "# Past experiments" +:+ nl +:+
  "## EXP-001: Annual discount" +:+ nl +:+ "Result: +4% conversion" +:+ nl +:+
  "## EXP-002: Onboarding email" +:+ nl +:+ "Result: no change" +:+ nl +:+
  "## Experiment Design Best Practices" +:+ nl +:+ "Run one change at a time.".

(** A chunk as [chunk_text] stores it: stripped, not empty, at most 800
    characters. *)
Definition text_chunk (c : string) : Prop :=
  c <> EmptyString /\ strip c = c /\ Z.of_nat (String.length c) <= EXPERIMENT_CHUNK_SIZE.

(** A stored document: a chunk of a section under the line that names
    its experiment, or a chunk of the best practices. *)
Definition stored_document (d : string) : Prop :=
  (exists exp_id chunk,
     d = "Experiment " +:+ exp_id +:+ ":" +:+ nl +:+ chunk
     /\ strip exp_id = exp_id /\ text_chunk chunk)
  \/ text_chunk d.

(** The three lists of a batch have one length. *)
Definition aligned (b : Batch) : Prop :=
  length (metadatas b) = length (documents b) /\ length (ids b) = length (documents b).

(** What a batch holds, as the loops keep it. *)
Definition batch_ok (b : Batch) : Prop :=
  aligned b
  /\ Forall stored_document (documents b)
  /\ Forall (fun m : gmap string pyval => m !! "type" = Some (PStr "experiment"))
       (metadatas b)
  /\ Forall (fun id => String.prefix "exp_" id = true) (ids b).


(* ================================================================== *)
(** * Availability checks and the health endpoint *)
(* ================================================================== *)

(** What [GET /api/tags] does: the request raises, or a response comes
    with a status code and a body; [None] when [response.json()] raises. *)
Inductive tags_reply : Type :=
| TagsRaises (e : exn)
| TagsResponse (status_code : Z) (body : option pyval).

(** [m.get("name", default)], the default being the empty text. *)
Definition model_name (m : pyval) : exc pyval := py_get m "name" (PStr EmptyString).

(** [[m.get("name", default) for m in v]]: the elements of a list; the keys of
    a dict and the characters of a text are text and have no [get]. *)
Definition model_names (v : pyval) : exc (list pyval) :=
  match v with
  | PList l => mapM model_name l
  | PDict d =>
      if bool_decide (d = ∅) then Ok []
      else Raise (AttributeError "'str' object has no attribute 'get'")
  | PStr s =>
      if String.eqb s EmptyString then Ok []
      else Raise (AttributeError "'str' object has no attribute 'get'")
  | _ => Raise (TypeError ("'" +:+ type_name v +:+ "' object is not iterable"))
  end.

(** [OLLAMA_MODEL in m]: a part of a text, an element of a list, a key of
    a dict. *)
Definition mentions_model (m : pyval) : exc bool :=
  match m with
  | PStr s => Ok (contains OLLAMA_MODEL s)
  | PList l => Ok (existsb (fun x => match x with
                                     | PStr s => String.eqb s OLLAMA_MODEL
                                     | _ => false
                                     end) l)
  | PDict d => Ok (bool_decide (is_Some (d !! OLLAMA_MODEL)))
  | _ => Raise (TypeError ("argument of type '" +:+ type_name m +:+ "' is not iterable"))
  end.

(** [any(OLLAMA_MODEL in m for m in models)]: it stops at the first hit. *)
Fixpoint any_mentions_model (models : list pyval) : exc bool :=
  match models with
  | [] => Ok false
  | m :: rest =>
      match mentions_model m with
      | Raise e => Raise e
      | Ok true => Ok true
      | Ok false => any_mentions_model rest
      end
  end.

(** [LLMService.check_availability]. *)
Definition llm_check_availability (reply : tags_reply) : bool :=
  match reply with
  | TagsRaises _ => false
  | TagsResponse status_code body =>
      if negb (status_code =? 200) then false
      else
        match body with
        | None => false
        | Some tags =>
            match (models_value ← py_get tags "models" (PList []);
                   models ← model_names models_value;
                   any_mentions_model models) with
            | Ok available => available
            | Raise _ => false
            end
        end
  end.

(** What [collection.count()] does, the collection being opened first. *)
Inductive count_reply : Type :=
| CountRaises (e : exn)
| CountIs (n : Z).

(** [DocumentService.check_availability]. *)
Definition document_check_availability (reply : count_reply) : bool :=
  match reply with
  | CountRaises _ => false
  | CountIs n => n >? 0
  end.

(** [DocumentService.get_document_count]. *)
Definition get_document_count (reply : count_reply) : Z :=
  match reply with
  | CountRaises _ => 0
  | CountIs n => n
  end.

Record HealthResponse : Type := mkHealthResponse {
  hr_status : string;
  hr_ollama_available : bool;
  hr_chromadb_available : bool;
  hr_database_available : bool
}.

(** The handler of [GET /health]. *)
Definition health_check (tags : tags_reply) (count : count_reply) : HealthResponse :=
  let ollama_available := llm_check_availability tags in
  let chromadb_available := document_check_availability count in
  let database_available := true in
  let status := if ollama_available && chromadb_available then "healthy" else "degraded" in
  mkHealthResponse status ollama_available chromadb_available database_available.

(** The body of a tag list: one dict with a text name per model. *)
Definition tags_body (names : list string) : pyval :=
  PDict {[ "models" := PList (map (fun n => PDict {[ "name" := PStr n ]}) names) ]}.

(* ================================================================== *)
(** * Validation of well-typed arguments *)
(* ================================================================== *)

Lemma validate_str_items_texts model field whole (l : list string) :
  validate_str_items model field whole (map PStr l) = Ok l.
Proof.
  induction l as [|s l IH]; simpl.
  - reflexivity.
  - rewrite IH. reflexivity.
Qed.

Lemma ParsedQuestion_new_texts (t : string) (o : list string) (d : string) :
  ParsedQuestion_new (PStr t) (PList (map PStr o)) (PStr d) = Ok (mkParsedQuestion t o d).
Proof.
  unfold ParsedQuestion_new. simpl.
  rewrite validate_str_items_texts. reflexivity.
Qed.

(* ================================================================== *)
(** * The rule-based parser *)
(* ================================================================== *)

Lemma extract_outcomes_nonempty (question_lower : string) :
  extract_outcomes question_lower <> [].
Proof.
  unfold extract_outcomes.
  destruct (map snd _) eqn:E; discriminate.
Qed.

Lemma extract_outcomes_default (question_lower : string) :
  (forall km, In km metric_keywords -> contains (fst km) question_lower = false) ->
  extract_outcomes question_lower = ["conversion_rate"].
Proof.
  intros Hno. unfold extract_outcomes.
  assert (Hnil : List.filter (fun km => contains (fst km) question_lower) metric_keywords = []).
  { induction metric_keywords as [|km l IH]; simpl; [reflexivity|].
    rewrite (Hno km (or_introl eq_refl)). apply IH.
    intros km' Hin. apply Hno. right. exact Hin. }
  rewrite Hnil. reflexivity.
Qed.

(** C5: for every question the rule-based parser returns a
    [ParsedQuestion] (it does not raise); its outcomes are not empty, and
    are the single metric [conversion_rate] when no metric keyword occurs
    in the lowered question; its decision type is [root_cause] when the
    lowered question contains [why] or [cause], otherwise
    [impact_analysis] when it contains [impact] or [effect], otherwise
    [should_we]. *)
Theorem rule_based_parse_total (question : string) :
  exists parsed,
    _rule_based_parse question = Ok parsed
    /\ pq_outcomes parsed <> []
    /\ ((forall km, In km metric_keywords -> contains (fst km) (lower question) = false) ->
        pq_outcomes parsed = ["conversion_rate"])
    /\ pq_decision_type parsed =
         (if contains "why" (lower question) || contains "cause" (lower question)
          then "root_cause"
          else if contains "impact" (lower question) || contains "effect" (lower question)
               then "impact_analysis"
               else "should_we").
Proof.
  unfold _rule_based_parse.
  rewrite ParsedQuestion_new_texts.
  eexists. split; [reflexivity|]. simpl.
  split; [apply extract_outcomes_nonempty|].
  split; [apply extract_outcomes_default|].
  reflexivity.
Qed.

Example rule_based_parse_pricing :
  _rule_based_parse "Should we change pricing?"
  = Ok (mkParsedQuestion "change pricing" ["conversion_rate"] "should_we").
Proof. vm_compute. reflexivity. Qed.

Example rule_based_parse_churn :
  _rule_based_parse "Why is churn increasing?"
  = Ok (mkParsedQuestion "unknown_change" ["churn_rate"] "root_cause").
Proof. vm_compute. reflexivity. Qed.

(* ================================================================== *)
(** * The rule-based recommendation *)
(* ================================================================== *)

(** C6: for every confounder list and outcome list the fallback brief is
    a dict with [decision_safe] true exactly when the confounder list is
    empty, [confidence_level] LOW, [suggested_action] WAIT when there are
    confounders and RUN_EXPERIMENT otherwise, [monitoring_required] the
    first three outcomes, and the two fixed stop-loss triggers. *)
Theorem rule_based_recommendation_brief (confounders : list pyval) (outcomes : list string) :
  exists d,
    _rule_based_recommendation confounders outcomes = PDict d
    /\ d !! "decision_safe" = Some (PBool (is_empty confounders))
    /\ d !! "confidence_level" = Some (PStr "LOW")
    /\ d !! "suggested_action"
       = Some (PStr (if is_empty confounders then "RUN_EXPERIMENT" else "WAIT"))
    /\ d !! "monitoring_required" = Some (PList (map PStr (take 3 outcomes)))
    /\ d !! "stop_loss_triggers"
       = Some (PList [PStr "Significant metric degradation"; PStr "Unexpected side effects"]).
Proof.
  unfold _rule_based_recommendation.
  eexists. split; [reflexivity|].
  destruct confounders as [|c cs]; simpl;
    repeat split; reflexivity.
Qed.

Example fallback_without_confounders :
  match _rule_based_recommendation [] ["conversion_rate"] with
  | PDict d => d !! "suggested_action" = Some (PStr "RUN_EXPERIMENT")
               /\ d !! "decision_safe" = Some (PBool true)
  | _ => False
  end.
Proof. split; reflexivity. Qed.

(* ================================================================== *)
(** * Team impacts *)
(* ================================================================== *)

Lemma foldl_union_metrics (cs : list ConfounderInfo) (acc : gset string) (m : string) :
  m ∈ foldl (fun acc c => acc ∪ list_to_set (affected_metrics c)) acc cs
  <-> m ∈ acc \/ exists c, c ∈ cs /\ m ∈ affected_metrics c.
Proof.
  revert acc. induction cs as [|c cs IH]; intros acc; simpl.
  - split; [intros H; left; exact H|].
    intros [H|(c & Hc & _)]; [exact H|]. inversion Hc.
  - rewrite IH. rewrite elem_of_union, elem_of_list_to_set. split.
    + intros [[H|H]|(c' & Hc' & Hm)].
      * left; exact H.
      * right. exists c. split; [constructor|exact H].
      * right. exists c'. split; [constructor; exact Hc'|exact Hm].
    + intros [H|(c' & Hc' & Hm)].
      * left; left; exact H.
      * inversion Hc'; subst.
        -- left; right; exact Hm.
        -- right. exists c'. split; assumption.
Qed.

Lemma elem_of_confounder_metrics (cs : list ConfounderInfo) (m : string) :
  m ∈ confounder_metrics cs <-> exists c, c ∈ cs /\ m ∈ affected_metrics c.
Proof.
  unfold confounder_metrics. rewrite foldl_union_metrics. split.
  - intros [H|H]; [|exact H]. exfalso. revert H. apply not_elem_of_empty.
  - intros H. right. exact H.
Qed.

Lemma team_risk_level_spec (affected : gset string) (confounders : list ConfounderInfo) :
  (overlaps_confounders affected confounders ->
   team_risk_level affected confounders = "high")
  /\ (confounders <> [] -> ~ overlaps_confounders affected confounders ->
      team_risk_level affected confounders = "medium")
  /\ (confounders = [] -> team_risk_level affected confounders = "low").
Proof.
  unfold team_risk_level, overlaps_confounders.
  destruct confounders as [|c0 cs].
  - split; [|split]; [|congruence|reflexivity].
    intros (m & c & _ & Hc & _). inversion Hc.
  - destruct (bool_decide (affected ∩ confounder_metrics (c0 :: cs) = ∅)) eqn:E; simpl.
    + apply bool_decide_eq_true in E.
      split; [|split]; [|reflexivity|discriminate].
      intros (m & c & Hm & Hc & Hmc). exfalso.
      assert (Hin : m ∈ affected ∩ confounder_metrics (c0 :: cs)).
      { apply elem_of_intersection. split; [exact Hm|].
        apply elem_of_confounder_metrics. exists c. split; assumption. }
      rewrite E in Hin. revert Hin. apply not_elem_of_empty.
    + apply bool_decide_eq_false in E.
      split; [|split]; [reflexivity| |discriminate].
      intros _ Hno. exfalso. apply E.
      apply leibniz_equiv. apply elem_of_equiv_empty. intros m Hm.
      apply elem_of_intersection in Hm as [Hm1 Hm2].
      apply elem_of_confounder_metrics in Hm2 as (c & Hc & Hmc).
      apply Hno. exists m, c. auto.
Qed.

Lemma assess_team_Some (outcome_set : gset string) confounders entry impact :
  assess_team outcome_set confounders entry = Some impact ->
  list_to_set (snd entry) ∩ outcome_set <> (∅ : gset string)
  /\ impact = mkTeamImpact (fst entry) (elements (list_to_set (snd entry) ∩ outcome_set))
                "uncertain"
                (team_risk_level (list_to_set (snd entry) ∩ outcome_set) confounders).
Proof.
  unfold assess_team.
  destruct (bool_decide (list_to_set (snd entry) ∩ outcome_set = ∅)) eqn:E; simpl.
  - discriminate.
  - apply bool_decide_eq_false in E. intros [= <-]. split; [exact E|reflexivity].
Qed.

Lemma assess_team_None (outcome_set : gset string) confounders entry :
  assess_team outcome_set confounders entry = None ->
  list_to_set (snd entry) ∩ outcome_set = (∅ : gset string).
Proof.
  unfold assess_team.
  destruct (bool_decide (list_to_set (snd entry) ∩ outcome_set = ∅)) eqn:E; simpl.
  - intros _. apply bool_decide_eq_true in E. exact E.
  - discriminate.
Qed.

Lemma NoDup_teams_omap (outcome_set : gset string) confounders
    (entries : list (string * list string)) :
  NoDup (map fst entries) ->
  NoDup (map ti_team (omap (assess_team outcome_set confounders) entries)).
Proof.
  induction entries as [|e es IH]; simpl; intros Hnd.
  - constructor.
  - apply NoDup_cons in Hnd as [Hnotin Hnd].
    destruct (assess_team outcome_set confounders e) as [impact|] eqn:E; simpl.
    + apply NoDup_cons. split; [|apply IH; exact Hnd].
      apply assess_team_Some in E as [_ ->]. simpl.
      intros Hin. apply Hnotin.
      apply list_elem_of_fmap in Hin as (i & Hteam & Hi).
      apply list_elem_of_omap in Hi as (e' & He' & Hsome).
      apply assess_team_Some in Hsome as [_ ->]. simpl in Hteam.
      apply list_elem_of_fmap. exists e'. split; assumption.
    + apply IH; exact Hnd.
Qed.

Lemma TEAM_METRICS_keys_NoDup : NoDup (map fst TEAM_METRICS).
Proof. apply (bool_decide_unpack _). vm_compute. exact I. Qed.

(** C7: for every outcome list and confounder list, the assessment has
    at most one record per team, and a record for a team exactly when the
    team's owned metrics meet the outcomes (a team without overlap has
    none); the record's affected metrics are that intersection, its
    direction is [uncertain], and its risk is [high] when the
    intersection meets the metrics of some confounder, [medium] when
    there are confounders and none meets it, [low] when there is no
    confounder. *)
Theorem team_impacts_by_overlap (outcomes : list string) (confounders : list ConfounderInfo) :
  NoDup (map ti_team (_assess_team_impacts outcomes confounders))
  /\ (forall team metrics, (team, metrics) ∈ TEAM_METRICS ->
        (list_to_set metrics ∩ list_to_set outcomes <> (∅ : gset string)
         <-> exists r, r ∈ _assess_team_impacts outcomes confounders /\ ti_team r = team))
  /\ (forall r, r ∈ _assess_team_impacts outcomes confounders ->
        exists metrics (affected : gset string),
          (ti_team r, metrics) ∈ TEAM_METRICS
          /\ affected = list_to_set metrics ∩ list_to_set outcomes
          /\ affected <> ∅
          /\ NoDup (ti_affected_metrics r)
          /\ (forall m, m ∈ ti_affected_metrics r <-> m ∈ affected)
          /\ ti_direction r = "uncertain"
          /\ (overlaps_confounders affected confounders -> ti_risk_level r = "high")
          /\ (confounders <> [] -> ~ overlaps_confounders affected confounders ->
              ti_risk_level r = "medium")
          /\ (confounders = [] -> ti_risk_level r = "low")).
Proof.
  unfold _assess_team_impacts.
  split; [apply NoDup_teams_omap, TEAM_METRICS_keys_NoDup|].
  split.
  - intros team metrics Hin. split.
    + intros Hne.
      destruct (assess_team (list_to_set outcomes) confounders (team, metrics))
        as [impact|] eqn:E.
      * exists impact. split.
        -- apply list_elem_of_omap. exists (team, metrics). split; assumption.
        -- apply assess_team_Some in E as [_ ->]. reflexivity.
      * apply assess_team_None in E. simpl in E. contradiction.
    + intros (r & Hr & Hteam).
      apply list_elem_of_omap in Hr as (e & He & Hsome).
      apply assess_team_Some in Hsome as [Hne ->]. simpl in Hteam.
      assert (e = (team, metrics)) as ->; [|exact Hne].
      destruct e as [t ms]. simpl in Hteam. subst t.
      assert (Hkeys := TEAM_METRICS_keys_NoDup).
      clear Hne. revert He Hin Hkeys.
      generalize TEAM_METRICS. intros l.
      induction l as [|x l IH]; intros He Hin Hnd; [inversion He|].
      simpl in Hnd. apply NoDup_cons in Hnd as [Hx Hnd].
      apply elem_of_cons in He as [He|He]; apply elem_of_cons in Hin as [Hin|Hin].
      * congruence.
      * subst x. exfalso. apply Hx. simpl.
        apply list_elem_of_fmap. exists (team, metrics). split; [reflexivity|exact Hin].
      * subst x. exfalso. apply Hx. simpl.
        apply list_elem_of_fmap. exists (team, ms). split; [reflexivity|exact He].
      * apply IH; assumption.
  - intros r Hr.
    apply list_elem_of_omap in Hr as (e & He & Hsome).
    apply assess_team_Some in Hsome as [Hne ->].
    destruct e as [team metrics]. simpl in *.
    exists metrics, (list_to_set metrics ∩ list_to_set outcomes).
    split; [exact He|]. split; [reflexivity|]. split; [exact Hne|].
    split; [apply NoDup_elements|].
    split; [intros m; apply elem_of_elements|].
    split; [reflexivity|].
    apply team_risk_level_spec.
Qed.

(* ================================================================== *)
(** * The confidence of a day inside the window *)
(* ================================================================== *)









(* ================================================================== *)
(** * The sort by confidence *)
(* ================================================================== *)









(* ================================================================== *)
(** * Detection: the loop *)
(* ================================================================== *)

Lemma detect_loop_emitted P current_date outcomes changes confounders :
  detect_loop P current_date outcomes (map PDict changes) confounders
  = Ok (confounders ++ omap (emitted_by P current_date outcomes) changes).
Proof.
  revert confounders. induction changes as [|c cs IH]; intros confounders; simpl.
  - rewrite app_nil_r. reflexivity.
  - unfold emitted_by at 1.
    destruct (process_change P current_date outcomes c) as [[r|]|e]; simpl;
      rewrite IH; [rewrite <- app_assoc|..]; reflexivity.
Qed.

(** The loop stops with an error at the first entry that is no dict. *)
Lemma detect_loop_entries P current_date outcomes (l : list pyval) confounders :
  detect_loop P current_date outcomes l confounders
  = match List.find (fun c => negb (is_dict c)) l with
    | Some c => Raise (AttributeError (no_get c))
    | None => detect_loop P current_date outcomes (map PDict (omap as_dict l)) confounders
    end.
Proof.
  revert confounders. induction l as [|v l IH]; intros confounders; [reflexivity|].
  destruct v as [|b|z|f|s|l'|d]; try reflexivity.
  cbn [List.find is_dict negb].
  change (omap as_dict (PDict d :: l)) with (d :: omap as_dict l).
  cbn [map detect_loop process_entry].
  destruct (process_change P current_date outcomes d) as [[r|]|e]; simpl;
    rewrite IH; destruct (List.find (fun c => negb (is_dict c)) l); reflexivity.
Qed.

Lemma omap_as_dict_dicts (changes : list (gmap string pyval)) :
  omap as_dict (map PDict changes) = changes.
Proof.
  induction changes as [|c cs IH]; [reflexivity|].
  change (omap as_dict (map PDict (c :: cs))) with (c :: omap as_dict (map PDict cs)).
  rewrite IH. reflexivity.
Qed.

Lemma find_non_dict_dicts (changes : list (gmap string pyval)) :
  List.find (fun c => negb (is_dict c)) (map PDict changes) = None.
Proof. induction changes as [|c cs IH]; [reflexivity|exact IH]. Qed.

Lemma detect_confounders_emitted P reference_date now changes outcomes :
  detect_confounders P reference_date now changes outcomes
  = Ok (mkDetectionResult
          (sort_by_confidence_desc
             (omap (emitted_by P (_get_current_date reference_date now) outcomes) changes))
          (is_empty (sort_by_confidence_desc
             (omap (emitted_by P (_get_current_date reference_date now) outcomes) changes)))
          (length (sort_by_confidence_desc
             (omap (emitted_by P (_get_current_date reference_date now) outcomes) changes)))).
Proof.
  unfold detect_confounders, detect_confounders_dyn. cbn [iterate mbind exc_bind].
  rewrite detect_loop_emitted. simpl.
  destruct (sort_by_confidence_desc _); reflexivity.
Qed.

(** Detection on a value of any shape: the error of the shape, or
    detection on the dicts of the list. *)
Lemma detect_confounders_dyn_shape P reference_date now (v : pyval) outcomes :
  detect_confounders_dyn P reference_date now v outcomes
  = match change_file_error v with
    | Some e => Raise e
    | None => detect_confounders P reference_date now (dict_entries v) outcomes
    end.
Proof.
  unfold detect_confounders, detect_confounders_dyn.
  destruct v as [|b|z|f|s|l|d]; try reflexivity.
  - cbn [iterate change_file_error dict_entries mbind exc_bind].
    destruct s as [|c s]; [reflexivity|]. reflexivity.
  - cbn [iterate change_file_error dict_entries mbind exc_bind].
    rewrite (detect_loop_entries _ _ _ l), (detect_loop_entries _ _ _ (map PDict _)).
    rewrite find_non_dict_dicts, omap_as_dict_dicts.
    destruct (List.find (fun c => negb (is_dict c)) l); reflexivity.
  - cbn [iterate change_file_error dict_entries mbind exc_bind].
    destruct (bool_decide (d = ∅)) eqn:E.
    + apply bool_decide_eq_true in E. subst d. rewrite map_to_list_empty. reflexivity.
    + apply bool_decide_eq_false in E.
      destruct (map_to_list d) as [|[k x] kvs] eqn:El.
      * apply map_to_list_empty_iff in El. contradiction.
      * reflexivity.
Qed.

(* ================================================================== *)
(** * Detection: one change *)
(* ================================================================== *)







Lemma reference_record_well_scored P current_date outcomes change r :
  reference_record P current_date outcomes change = Some r -> well_scored r.
Proof.
  unfold reference_record.
  destruct (change_date P change) as [date|]; [|discriminate].
  destruct (in_window (whole_days_ago current_date date)) eqn:Ew; simpl; [|discriminate].
  destruct (bool_decide _); simpl; [discriminate|].
  intros [= <-]. split; [exact Ew|reflexivity].
Qed.




(* ================================================================== *)
(** * Detection: the reference definition and totality *)
(* ================================================================== *)











Example detect_default_clock :
  detect_confounders ref_platform None sample_reference
    [pricing_change] ["conversion_rate"; "activation_rate"]
  = Ok (mkDetectionResult
          [mkConfounderInfo "CHG-2026-001" "Increased enterprise tier pricing by 15%" 3
             ["conversion_rate"] 0.936%float]
          false 1).
Proof. vm_compute. reflexivity. Qed.

Example detect_three_days_ago :
  detect_confounders ref_platform (Some sample_reference) sample_reference
    [pricing_change] ["conversion_rate"; "activation_rate"]
  = Ok (mkDetectionResult
          [mkConfounderInfo "CHG-2026-001" "Increased enterprise tier pricing by 15%" 3
             ["conversion_rate"] 0.936%float]
          false 1).
Proof. vm_compute. reflexivity. Qed.

Example detect_twenty_days_ago :
  detect_confounders ref_platform (Some sample_reference) sample_reference
    [sample_change "CHG-OLD" "2025-12-29" "Old change" ["conversion_rate"]]
    ["conversion_rate"]
  = Ok (mkDetectionResult [] true 0).
Proof. vm_compute. reflexivity. Qed.

Example detect_confidence_decay :
  detect_confounders ref_platform (Some sample_reference) sample_reference
    [sample_change "CHG-2" "2026-01-11" "Older" ["conversion_rate"];
     sample_change "CHG-1" "2026-01-17" "Recent" ["conversion_rate"]]
    ["conversion_rate"]
  = Ok (mkDetectionResult
          [mkConfounderInfo "CHG-1" "Recent" 1 ["conversion_rate"] 0.979%float;
           mkConfounderInfo "CHG-2" "Older" 7 ["conversion_rate"] 0.85%float]
          false 2).
Proof. vm_compute. reflexivity. Qed.

Example detect_no_changes :
  detect_confounders ref_platform (Some sample_reference) sample_reference []
    ["conversion_rate"]
  = Ok (mkDetectionResult [] true 0).
Proof. reflexivity. Qed.



(* ================================================================== *)
(** * The recommendation and the safety invariant *)
(* ================================================================== *)

Lemma py_setitem_Ok (result : pyval) (key : string) (value result' : pyval) :
  py_setitem result key value = Ok result' ->
  exists d, result = PDict d /\ result' = PDict (<[key := value]> d).
Proof.
  destruct result; simpl; try discriminate.
  intros [= <-]. eexists. split; reflexivity.
Qed.

Lemma recommendation_attempt_forced P W confounders prompt result :
  confounders <> [] ->
  recommendation_attempt P W confounders prompt = Ok result ->
  forced_unsafe result.
Proof.
  intros Hne. unfold recommendation_attempt.
  destruct (invoke W prompt) as [content|]; simpl; [|discriminate].
  destruct (_parse_json_response P content) as [parsed|]; simpl; [|discriminate].
  destruct confounders as [|c cs]; [congruence|].
  intros H. apply py_setitem_Ok in H as (d & -> & ->).
  exists (<["decision_safe" := PBool false]> d). split; [reflexivity|].
  apply lookup_insert_eq.
Qed.

Lemma rule_based_recommendation_forced (confounders : list pyval) (outcomes : list string) :
  confounders <> [] -> forced_unsafe (_rule_based_recommendation confounders outcomes).
Proof.
  intros Hne. destruct confounders as [|c cs]; [congruence|].
  unfold _rule_based_recommendation. eexists. split; reflexivity.
Qed.

(** Whatever the loop returns after at least one attempt was forced. *)
Lemma generate_recommendation_loop_forced P W outcomes confounders attempts prompt brief :
  confounders <> [] ->
  generate_recommendation_loop P W outcomes confounders attempts prompt = Ok brief ->
  brief = PNone \/ forced_unsafe brief.
Proof.
  intros Hne. revert prompt. induction attempts as [|attempt rest IH]; intros prompt; simpl.
  - intros [= <-]. left. reflexivity.
  - destruct (recommendation_attempt P W confounders prompt) as [result|e] eqn:E.
    + intros [= <-]. right. eapply recommendation_attempt_forced; eassumption.
    + assert (Hrest :
        (if contains "not found" (lower (exn_str P e))
         then Raise (ModelNotFoundError model_missing_msg)
         else if (attempt <? LLM_MAX_RETRIES)%nat
              then generate_recommendation_loop P W outcomes confounders rest
                     (prompt +:+ retry_directive)
              else Ok (_rule_based_recommendation confounders outcomes)) = Ok brief ->
        brief = PNone \/ forced_unsafe brief).
      { destruct (contains "not found" (lower (exn_str P e))); [discriminate|].
        destruct (attempt <? LLM_MAX_RETRIES)%nat; [apply IH|].
        intros [= <-]. right. apply rule_based_recommendation_forced. exact Hne. }
      destruct e; try exact Hrest. discriminate.
Qed.

Lemma generate_recommendation_loop_last P W outcomes confounders attempts prompt brief :
  confounders <> [] ->
  last attempts = Some LLM_MAX_RETRIES ->
  generate_recommendation_loop P W outcomes confounders attempts prompt = Ok brief ->
  forced_unsafe brief.
Proof.
  intros Hne. revert prompt. induction attempts as [|attempt rest IH]; intros prompt; simpl.
  - discriminate.
  - intros Hlast.
    destruct (recommendation_attempt P W confounders prompt) as [result|e] eqn:E.
    + intros [= <-]. eapply recommendation_attempt_forced; eassumption.
    + assert (Hrest :
        (if contains "not found" (lower (exn_str P e))
         then Raise (ModelNotFoundError model_missing_msg)
         else if (attempt <? LLM_MAX_RETRIES)%nat
              then generate_recommendation_loop P W outcomes confounders rest
                     (prompt +:+ retry_directive)
              else Ok (_rule_based_recommendation confounders outcomes)) = Ok brief ->
        forced_unsafe brief).
      { destruct (contains "not found" (lower (exn_str P e))); [discriminate|].
        destruct (attempt <? LLM_MAX_RETRIES)%nat eqn:Elt.
        - apply IH. destruct rest as [|a rest'].
          + simpl in Hlast. injection Hlast as ->.
            apply Nat.ltb_lt in Elt. lia.
          + exact Hlast.
        - intros [= <-]. apply rule_based_recommendation_forced. exact Hne. }
      destruct e; try exact Hrest. discriminate.
Qed.

Lemma generate_recommendation_forced P W question treatment outcomes confounders
    relevant_experiments brief :
  confounders <> [] ->
  generate_recommendation P W question treatment outcomes confounders relevant_experiments
  = Ok brief ->
  forced_unsafe brief.
Proof.
  intros Hne. unfold generate_recommendation.
  apply generate_recommendation_loop_last; [exact Hne|reflexivity].
Qed.

Lemma analyze_recommend_forced P W request parsed confounders context warnings brief
    warnings' :
  confounders <> [] ->
  analyze_recommend P W request parsed confounders (is_empty confounders) context warnings
  = Ok (brief, warnings') ->
  forced_unsafe brief.
Proof.
  intros Hne. unfold analyze_recommend.
  destruct (generate_recommendation _ _ _ _ _ _ _) as [rec|e] eqn:E.
  - intros [= <- <-]. eapply generate_recommendation_forced; [|exact E].
    destruct confounders; [congruence|discriminate].
  - destruct confounders as [|c cs]; [congruence|].
    destruct e; try discriminate;
      intros [= <- <-]; eexists; split; reflexivity.
Qed.

(** What [build_response] puts into the response it returns. *)
Lemma build_response_Ok W request parsed recommendation confounders decision_safe
    team_impacts warnings response :
  build_response W request parsed recommendation confounders decision_safe team_impacts
    warnings = Ok response ->
  exists d,
    recommendation = PDict d
    /\ validate_bool "AnalyzeResponse" "decision_safe"
         (dict_get d "decision_safe" (PBool decision_safe)) = Ok (ar_decision_safe response)
    /\ validate_str "AnalyzeResponse" "confidence_level"
         (dict_get d "confidence_level" (PStr "LOW")) = Ok (ar_confidence_level response)
    /\ validate_str "AnalyzeResponse" "suggested_action"
         (dict_get d "suggested_action" (PStr "WAIT")) = Ok (ar_suggested_action response)
    /\ validate_str "AnalyzeResponse" "reasoning"
         (dict_get d "reasoning" (PStr EmptyString)) = Ok (ar_reasoning response)
    /\ ar_confounders_detected response = confounders
    /\ ar_warnings response = none_if_empty warnings.
Proof.
  unfold build_response.
  destruct recommendation as [| | | | | |d]; simpl; try discriminate.
  destruct (validate_bool _ _ _) as [safe|] eqn:E1; simpl; [|discriminate].
  destruct (validate_str _ _ (dict_get d "confidence_level" _)) as [level|] eqn:E2; simpl;
    [|discriminate].
  destruct (validate_str _ _ (dict_get d "suggested_action" _)) as [action|] eqn:E3; simpl;
    [|discriminate].
  destruct (validate_str _ _ (dict_get d "reasoning" _)) as [reasoning|] eqn:E4; simpl;
    [|discriminate].
  destruct (validate_opt_str _ _ _) as [details|]; simpl; [|discriminate].
  destruct (validate_opt_str_list _ _ (dict_get d "monitoring_required" _)) as [mon|]; simpl;
    [|discriminate].
  destruct (validate_opt_str_list _ _ (dict_get d "stop_loss_triggers" _)) as [trig|]; simpl;
    [|discriminate].
  intros [= <-]. exists d. simpl. repeat split; assumption || reflexivity.
Qed.

Lemma analyze_log_Ok W request response :
  analyze_log W request response
  = Ok (match audit_store_failure W with
        | Some _ => append_warning response "Decision logging failed"
        | None => response
        end).
Proof.
  unfold analyze_log, _log_decision. destruct (audit_store_failure W); reflexivity.
Qed.

Lemma analyze_with_context_unsafe P W request parsed warnings context response :
  analyze_with_context P W request parsed warnings context = Ok response ->
  ar_confounders_detected response <> [] ->
  ar_decision_safe response = false.
Proof.
  unfold analyze_with_context.
  rewrite detect_confounders_dyn_shape.
  destruct (change_file_error (get_recent_changes W)); [discriminate|].
  rewrite detect_confounders_emitted. simpl.
  set (confounders := sort_by_confidence_desc _).
  destruct (analyze_recommend _ _ _ _ _ _ _ _) as [[brief warnings']|] eqn:Erec; simpl;
    [|discriminate].
  destruct (build_response _ _ _ _ _ _ _ _) as [built|] eqn:Eb; simpl; [|discriminate].
  rewrite analyze_log_Ok. intros [= <-].
  apply build_response_Ok in Eb as (d & -> & Hsafe & _ & _ & _ & Hconf & _).
  assert (Hgoal : ar_confounders_detected built <> [] -> ar_decision_safe built = false).
  { rewrite Hconf. intros Hne.
    apply analyze_recommend_forced in Erec as (d' & [= <-] & Hlook); [|exact Hne].
    unfold dict_get in Hsafe. rewrite Hlook in Hsafe. simpl in Hsafe.
    congruence. }
  destruct (audit_store_failure W); simpl; exact Hgoal.
Qed.

(** C1: whenever the pipeline returns a response whose confounder list is
    not empty, the response has [decision_safe = false], whatever the
    backend answered and whichever path produced the brief (the backend,
    the rule-based fallback of the synthesizer, the fallback of the
    orchestrator); and a brief that [generate_recommendation] returns for
    a non-empty confounder list is a dict with [decision_safe] false. *)
Theorem confounders_force_unsafe (P : Platform) (W : World) :
  (forall request response,
     analyze P W request = Ok response ->
     ar_confounders_detected response <> [] ->
     ar_decision_safe response = false)
  /\ (forall question treatment outcomes confounders relevant_experiments brief,
        confounders <> [] ->
        generate_recommendation P W question treatment outcomes confounders
          relevant_experiments = Ok brief ->
        exists d, brief = PDict d /\ d !! "decision_safe" = Some (PBool false)).
Proof.
  split.
  - intros request response. unfold analyze.
    destruct (analyze_parse P W request []) as [[[parsed|] warnings]|]; simpl;
      try discriminate.
    destruct (retrieve_context _ _ _ _ _) as [context|]; simpl; [|discriminate].
    apply analyze_with_context_unsafe.
  - intros question treatment outcomes confounders relevant_experiments brief.
    apply generate_recommendation_forced.
Qed.

(** The backend declares the decision safe while a three-day-old change
    touches the outcome: the response is not safe. *)
Lemma confounders_force_unsafe_witness :
  exists response,
    analyze ref_platform optimistic_world sample_request = Ok response
    /\ ar_confounders_detected response <> []
    /\ ar_suggested_action response = "PROCEED"
    /\ ar_decision_safe response = false.
Proof.
  eexists. split; [vm_compute; reflexivity|].
  split; [discriminate|]. split; [reflexivity|].
  apply (proj1 (confounders_force_unsafe ref_platform optimistic_world) sample_request).
  - vm_compute. reflexivity.
  - discriminate.
Defined.

(* ================================================================== *)
(** * Defaults of the assembled response *)
(* ================================================================== *)

Lemma validate_bool_PBool model field (b b' : bool) :
  validate_bool model field (PBool b) = Ok b' -> b' = b.
Proof. simpl. congruence. Qed.

Lemma validate_str_PStr model field (s s' : string) :
  validate_str model field (PStr s) = Ok s' -> s' = s.
Proof. simpl. congruence. Qed.

(** C10: a field the brief dict omits takes a fixed default in the
    response: [decision_safe] the value of the confounder detector,
    [confidence_level] LOW, [suggested_action] WAIT, [reasoning] the
    empty text; so a brief without [decision_safe] cannot mark an
    analysis with confounders as safe, and a brief without
    [suggested_action] yields WAIT.  The empty brief is accepted and
    yields exactly these defaults. *)
Theorem build_response_defaults (W : World) (request : AnalyzeRequest)
    (parsed : ParsedQuestion) (confounders : list ConfounderInfo) (decision_safe : bool)
    (team_impacts : list TeamImpact) (warnings : list string) :
  (forall d response,
     build_response W request parsed (PDict d) confounders decision_safe team_impacts
       warnings = Ok response ->
     (d !! "decision_safe" = None -> ar_decision_safe response = decision_safe)
     /\ (d !! "confidence_level" = None -> ar_confidence_level response = "LOW")
     /\ (d !! "suggested_action" = None -> ar_suggested_action response = "WAIT")
     /\ (d !! "reasoning" = None -> ar_reasoning response = EmptyString)
     /\ (forall P reference_date now changes outcomes result,
           detect_confounders P reference_date now changes outcomes = Ok result ->
           confounders = dr_confounders result ->
           decision_safe = dr_decision_safe result ->
           confounders <> [] ->
           d !! "decision_safe" = None ->
           ar_decision_safe response = false))
  /\ build_response W request parsed (PDict ∅) confounders decision_safe team_impacts warnings
     = Ok (mkAnalyzeResponse (new_decision_id W) (req_question request)
             (Some (pq_treatment parsed)) (Some (pq_outcomes parsed))
             decision_safe "LOW" "WAIT" EmptyString None confounders None None
             (none_if_empty team_impacts) (none_if_empty warnings) (clock_response W)).
Proof.
  split; [|reflexivity].
  intros d response Hb.
  apply build_response_Ok in Hb as (d' & [= <-] & Hsafe & Hlevel & Haction & Hreason & _ & _).
  unfold dict_get in *.
  assert (H1 : d !! "decision_safe" = None -> ar_decision_safe response = decision_safe).
  { intros E. rewrite E in Hsafe. eapply validate_bool_PBool, Hsafe. }
  split; [exact H1|].
  split; [intros E; rewrite E in Hlevel; eapply validate_str_PStr, Hlevel|].
  split; [intros E; rewrite E in Haction; eapply validate_str_PStr, Haction|].
  split; [intros E; rewrite E in Hreason; eapply validate_str_PStr, Hreason|].
  intros P reference_date now changes outcomes result Hdet Hc Hs Hne E.
  rewrite (H1 E), Hs.
  rewrite detect_confounders_emitted in Hdet. injection Hdet as <-. simpl in *.
  subst confounders. destruct (sort_by_confidence_desc _); [congruence|reflexivity].
Qed.

Lemma build_response_defaults_witness :
  exists response,
    build_response optimistic_world sample_request
      (mkParsedQuestion "change pricing" ["conversion_rate"] "should_we")
      (PDict ∅) [] true [] [] = Ok response
    /\ ar_decision_safe response = true
    /\ ar_confidence_level response = "LOW"
    /\ ar_suggested_action response = "WAIT"
    /\ ar_reasoning response = EmptyString.
Proof.
  pose proof (proj2 (build_response_defaults optimistic_world sample_request
                       (mkParsedQuestion "change pricing" ["conversion_rate"] "should_we")
                       [] true [] [])) as Hrun.
  eexists. split; [exact Hrun|].
  destruct (proj1 (build_response_defaults optimistic_world sample_request
                     (mkParsedQuestion "change pricing" ["conversion_rate"] "should_we")
                     [] true [] []) ∅ _ Hrun)
    as (H1 & H2 & H3 & H4 & _).
  split; [apply H1; reflexivity|]. split; [apply H2; reflexivity|].
  split; [apply H3; reflexivity|apply H4; reflexivity].
Defined.

(* ================================================================== *)
(** * Failures of the collaborators *)
(* ================================================================== *)

Lemma retrieve_context_Ok P W query treatment outcomes :
  exists context,
    retrieve_context P W query treatment outcomes = Ok context
    /\ (forall e, chroma W (search_query query treatment outcomes) = ChromaRaises e ->
          context = mkContext EmptyString ["Document retrieval error: " +:+ exn_str P e]).
Proof.
  unfold retrieve_context, retrieve_body.
  destruct (chroma W (search_query query treatment outcomes)) as [e| |docs metas]; simpl.
  - eexists. split; [reflexivity|]. intros e' [= <-]. reflexivity.
  - eexists. split; [reflexivity|]. discriminate.
  - destruct (collect_experiments P (zip docs metas) []); simpl;
      eexists; (split; [reflexivity|discriminate]).
Qed.

Lemma analyze_recommend_warnings P W request parsed confounders decision_safe context
    warnings brief warnings' w :
  analyze_recommend P W request parsed confounders decision_safe context warnings
  = Ok (brief, warnings') ->
  In w warnings -> In w warnings'.
Proof.
  unfold analyze_recommend.
  destruct (generate_recommendation _ _ _ _ _ _ _) as [rec|e].
  - intros [= <- <-]. auto.
  - destruct e; try discriminate; intros [= <- <-] Hin; apply in_or_app; left; exact Hin.
Qed.

Lemma analyze_with_context_warnings P W request parsed warnings context response w :
  analyze_with_context P W request parsed warnings context = Ok response ->
  In w (ctx_warnings context) ->
  exists ws, ar_warnings response = Some ws /\ In w ws.
Proof.
  unfold analyze_with_context.
  destruct (detect_confounders_dyn _ _ _ _ _) as [result|]; simpl; [|discriminate].
  destruct (analyze_recommend _ _ _ _ _ _ _ _) as [[brief warnings']|] eqn:Erec; simpl;
    [|discriminate].
  destruct (build_response _ _ _ _ _ _ _ _) as [built|] eqn:Eb; simpl; [|discriminate].
  rewrite analyze_log_Ok. intros [= <-] Hin.
  apply build_response_Ok in Eb as (d & _ & _ & _ & _ & _ & _ & Hw).
  assert (Hin' : In w warnings').
  { eapply analyze_recommend_warnings; [exact Erec|]. apply in_or_app. right. exact Hin. }
  destruct warnings' as [|w0 ws0]; [inversion Hin'|]. simpl in Hw.
  destruct (audit_store_failure W); simpl; rewrite ?Hw.
  - eexists. split; [reflexivity|]. apply in_or_app. left. exact Hin'.
  - eexists. split; [reflexivity|]. exact Hin'.
Qed.

(** The pipeline up to the audit write. *)
Lemma analyze_with_context_log P W request parsed warnings context :
  analyze_with_context P W request parsed warnings context
  = (response ← analyze_with_context P (with_audit_store W None) request parsed warnings
                  context;
     analyze_log W request response).
Proof.
  unfold analyze_with_context.
  change (detect_confounders_dyn P None (clock_detect (with_audit_store W None))
            (get_recent_changes (with_audit_store W None)) (pq_outcomes parsed))
    with (detect_confounders_dyn P None (clock_detect W) (get_recent_changes W)
            (pq_outcomes parsed)).
  destruct (detect_confounders_dyn _ _ _ _ _) as [result|]; simpl; [|reflexivity].
  change (analyze_recommend P (with_audit_store W None)) with (analyze_recommend P W).
  destruct (analyze_recommend _ _ _ _ _ _ _ _) as [[brief warnings']|]; simpl; [|reflexivity].
  change (build_response (with_audit_store W None)) with (build_response W).
  destruct (build_response _ _ _ _ _ _ _ _) as [built|]; simpl; reflexivity.
Qed.

Lemma analyze_log_split P W request :
  analyze P W request
  = (response ← analyze P (with_audit_store W None) request; analyze_log W request response).
Proof.
  unfold analyze.
  change (analyze_parse P (with_audit_store W None)) with (analyze_parse P W).
  destruct (analyze_parse P W request []) as [[[parsed|] warnings]|]; simpl;
    try reflexivity.
  change (retrieve_context P (with_audit_store W None)) with (retrieve_context P W).
  destruct (retrieve_context _ _ _ _ _) as [context|]; simpl; [|reflexivity].
  apply analyze_with_context_log.
Qed.

(** C8: failures of retrieval and of the audit store do not fail the
    request.  [retrieve_context] always returns, and when the index
    raises it returns the empty context with one warning; [analyze] then
    goes on with that context, and the warning is in the warnings of the
    response it returns; when the audit write raises, [analyze] returns
    what it returns without the failure with the warning
    [Decision logging failed] appended, and appending a warning changes
    no other field. *)
Theorem collaborator_failures_not_fatal (P : Platform) (W : World) (request : AnalyzeRequest) :
  (forall query treatment outcomes,
     exists context,
       retrieve_context P W query treatment outcomes = Ok context
       /\ (forall e, chroma W (search_query query treatment outcomes) = ChromaRaises e ->
             context = mkContext EmptyString ["Document retrieval error: " +:+ exn_str P e]))
  /\ (forall e,
        (forall q, chroma W q = ChromaRaises e) ->
        analyze P W request
        = ('(parsed, warnings) ← analyze_parse P W request [];
           match parsed with
           | None => Raise (AttributeError "'NoneType' object has no attribute 'treatment'")
           | Some parsed =>
               analyze_with_context P W request parsed warnings
                 (mkContext EmptyString ["Document retrieval error: " +:+ exn_str P e])
           end))
  /\ (forall e response,
        (forall q, chroma W q = ChromaRaises e) ->
        analyze P W request = Ok response ->
        exists ws, ar_warnings response = Some ws
                   /\ In ("Document retrieval error: " +:+ exn_str P e) ws)
  /\ (forall e,
        audit_store_failure W = Some e ->
        analyze P W request
        = (response ← analyze P (with_audit_store W None) request;
           Ok (append_warning response "Decision logging failed")))
  /\ (forall response w,
        append_warning response w
        = mkAnalyzeResponse (ar_decision_id response) (ar_question response)
            (ar_treatment response) (ar_outcomes response) (ar_decision_safe response)
            (ar_confidence_level response) (ar_suggested_action response)
            (ar_reasoning response) (ar_action_details response)
            (ar_confounders_detected response) (ar_monitoring_required response)
            (ar_stop_loss_triggers response) (ar_team_impacts response)
            (Some (match ar_warnings response with Some ws => ws | None => [] end ++ [w]))
            (ar_created_at response)).
Proof.
  split; [intros; apply retrieve_context_Ok|].
  split; [|split; [|split; [|reflexivity]]].
  - intros e Hdown. unfold analyze.
    destruct (analyze_parse P W request []) as [[[parsed|] warnings]|]; simpl;
      try reflexivity.
    destruct (retrieve_context_Ok P W (req_question request) (pq_treatment parsed)
                (pq_outcomes parsed)) as (context & -> & Hctx).
    simpl. rewrite (Hctx e (Hdown _)). reflexivity.
  - intros e response Hdown. unfold analyze.
    destruct (analyze_parse P W request []) as [[[parsed|] warnings]|]; simpl;
      try discriminate.
    destruct (retrieve_context_Ok P W (req_question request) (pq_treatment parsed)
                (pq_outcomes parsed)) as (context & -> & Hctx).
    simpl. rewrite (Hctx e (Hdown _)). intros Hrun.
    eapply analyze_with_context_warnings; [exact Hrun|]. left. reflexivity.
  - intros e He. rewrite analyze_log_split.
    destruct (analyze P (with_audit_store W None) request) as [response|]; simpl;
      [|reflexivity].
    rewrite analyze_log_Ok, He. reflexivity.
Qed.

(** The index and the audit store both fail, and the caller still gets
    the full response, with the two warnings. *)
Lemma collaborator_failures_not_fatal_witness :
  exists response,
    analyze ref_platform degraded_world sample_request = Ok response
    /\ ar_decision_safe response = false
    /\ ar_warnings response
       = Some ["Document retrieval error: index unavailable"; "Decision logging failed"].
Proof.
  destruct (collaborator_failures_not_fatal ref_platform degraded_world sample_request)
    as (_ & _ & _ & Haudit & _).
  rewrite (Haudit (OtherError "database is locked") eq_refl).
  eexists. split; [vm_compute; reflexivity|]. split; reflexivity.
Defined.

(* ================================================================== *)
(** * Retries, hard errors and the fallback of the parser *)
(* ================================================================== *)

Lemma parse_question_loop_soft P W question attempt rest prompt :
  soft_failure P W prompt ->
  parse_question_loop P W question (attempt :: rest) prompt
  = (if (attempt <? LLM_MAX_RETRIES)%nat
     then parse_question_loop P W question rest (prompt +:+ retry_directive)
     else parsed ← _rule_based_parse question; Ok (Some parsed)).
Proof.
  intros (e & He & Hne & Hnf). simpl. rewrite He.
  destruct e; try congruence; rewrite Hnf; reflexivity.
Qed.

(** Three soft failures: the prompt grows by the directive each time and
    the rule-based parser answers. *)
Lemma parse_question_falls_back P W question :
  soft_failure P W (parse_prompt question) ->
  soft_failure P W (parse_prompt question +:+ retry_directive) ->
  soft_failure P W ((parse_prompt question +:+ retry_directive) +:+ retry_directive) ->
  parse_question P W question = (parsed ← _rule_based_parse question; Ok (Some parsed)).
Proof.
  intros H0 H1 H2. unfold parse_question.
  change (seq 0 (LLM_MAX_RETRIES + 1)) with [0; 1; 2]%nat.
  rewrite (parse_question_loop_soft _ _ _ _ _ _ H0).
  change (0 <? LLM_MAX_RETRIES)%nat with true. cbv iota.
  rewrite (parse_question_loop_soft _ _ _ _ _ _ H1).
  change (1 <? LLM_MAX_RETRIES)%nat with true. cbv iota.
  rewrite (parse_question_loop_soft _ _ _ _ _ _ H2). reflexivity.
Qed.

Lemma parse_question_unreachable P W question :
  llm_invoke W (parse_prompt question) = LLMConnectError ->
  parse_question P W question = Raise (OllamaUnavailableError unavailable_msg).
Proof.
  intros H. unfold parse_question. simpl. unfold parse_attempt, invoke. rewrite H.
  reflexivity.
Qed.

(** An unparseable answer whose first 200 characters contain the words
    [not found] ends the call with [ModelNotFoundError]. *)
Lemma parse_question_misread P W question text message :
  llm_invoke W (parse_prompt question) = LLMContent text ->
  _parse_json_response P text = Raise (ValueError message) ->
  contains "not found" (lower message) = true ->
  parse_question P W question = Raise (ModelNotFoundError model_missing_msg).
Proof.
  intros Hinvoke Hparse Hwords. unfold parse_question. simpl.
  unfold parse_attempt, invoke. rewrite Hinvoke. simpl. rewrite Hparse. simpl.
  rewrite Hwords. reflexivity.
Qed.

(** C3 (the code departs from the claim): the backend answers the first
    attempt in prose that is not JSON and that contains the words
    [not found].  [_parse_json_response] raises its [ValueError], whose
    message quotes the answer; [parse_question] and
    [generate_recommendation] read the words in that message and raise
    [ModelNotFoundError] at once, without a retry and without the
    rule-based fallback. *)
Theorem malformed_response_raises_model_missing :
  _parse_json_response ref_platform apologetic_reply
  = Raise (ValueError ("Could not parse JSON from response: " +:+ apologetic_reply))
  /\ parse_question ref_platform apologetic_world sample_question
     = Raise (ModelNotFoundError model_missing_msg)
  /\ generate_recommendation ref_platform apologetic_world sample_question "change pricing"
       ["conversion_rate"] [] EmptyString
     = Raise (ModelNotFoundError model_missing_msg).
Proof.
  split; [vm_compute; reflexivity|].
  split; vm_compute; reflexivity.
Qed.

(** C9 (the code departs from the claim): the backend answers the parse
    prompt with a JSON object that has no [outcomes]; the primary path
    returns a [ParsedQuestion] whose outcomes are empty. *)
Theorem primary_path_empty_outcomes :
  parse_question ref_platform terse_world sample_question
  = Ok (Some (mkParsedQuestion "change pricing" [] "should_we")).
Proof. vm_compute. reflexivity. Qed.

Example parse_json_fenced :
  _parse_json_response ref_platform
    ("Here is the result:" +:+ nl +:+ fence_json +:+ nl +:+ "{"
       +:+ json_member "count" "3" +:+ "}" +:+ nl +:+ fence)
  = Ok (PDict {[ "count" := PInt 3 ]}).
Proof. vm_compute. reflexivity. Qed.

Example parse_json_with_prose :
  _parse_json_response ref_platform
    ("The analysis shows: {" +:+ json_member "count" "3" +:+ "} as the result.")
  = Ok (PDict {[ "count" := PInt 3 ]}).
Proof. vm_compute. reflexivity. Qed.

(* ================================================================== *)
(** * Whitespace and [strip] *)
(* ================================================================== *)

Lemma lstrip_blank (s : string) : is_blank s = true -> lstrip s = EmptyString.
Proof.
  induction s as [|c s IH]; simpl; [reflexivity|].
  intros H. apply andb_true_iff in H as [Hc Hs]. rewrite Hc. apply IH. exact Hs.
Qed.

Lemma rstrip_blank (s : string) : is_blank s = true -> rstrip s = EmptyString.
Proof.
  induction s as [|c s IH]; simpl; [reflexivity|].
  intros H. apply andb_true_iff in H as [Hc Hs]. rewrite (IH Hs), Hc. reflexivity.
Qed.

Lemma rstrip_cons (c : ascii) (s : string) :
  is_space c = false -> rstrip (String c s) = String c (rstrip s).
Proof.
  intros Hc. simpl. destruct (rstrip s); [rewrite Hc|]; reflexivity.
Qed.

Lemma lstrip_head (s : string) (c : ascii) (r : string) :
  lstrip s = String c r -> is_space c = false.
Proof.
  induction s as [|a s IH]; simpl; [discriminate|].
  destruct (is_space a) eqn:E; [exact IH|].
  intros [= <- <-]. exact E.
Qed.

Lemma lstrip_app_blank_l (w s : string) :
  is_blank w = true -> lstrip (w +:+ s) = lstrip s.
Proof.
  induction w as [|c w IH]; simpl; [reflexivity|].
  intros H. apply andb_true_iff in H as [Hc Hw]. rewrite Hc. apply IH. exact Hw.
Qed.

Lemma rstrip_app_blank_r (s w : string) :
  is_blank w = true -> rstrip (s +:+ w) = rstrip s.
Proof.
  intros Hw. induction s as [|c s IH]; simpl.
  - apply rstrip_blank. exact Hw.
  - rewrite IH. reflexivity.
Qed.

Lemma lstrip_app_blank_r (s w : string) :
  is_blank w = true ->
  lstrip (s +:+ w) = (if is_blank s then EmptyString else lstrip s +:+ w).
Proof.
  intros Hw. induction s as [|c s IH]; simpl.
  - apply lstrip_blank. exact Hw.
  - destruct (is_space c); simpl; [exact IH|reflexivity].
Qed.

Lemma rstrip_idem (s : string) : rstrip (rstrip s) = rstrip s.
Proof.
  induction s as [|c s IH]; simpl; [reflexivity|].
  destruct (rstrip s) as [|a r] eqn:E.
  - destruct (is_space c) eqn:Ec; simpl; [reflexivity|]. rewrite Ec. reflexivity.
  - change (rstrip (String c (String a r)) = String c (String a r)).
    simpl. simpl in IH. rewrite IH. reflexivity.
Qed.

Lemma strip_idem (s : string) : strip (strip s) = strip s.
Proof.
  unfold strip. destruct (lstrip s) as [|c r] eqn:E; [reflexivity|].
  pose proof (lstrip_head _ _ _ E) as Hc.
  rewrite (rstrip_cons _ _ Hc). simpl. rewrite Hc.
  rewrite (rstrip_cons _ _ Hc), rstrip_idem. reflexivity.
Qed.

Lemma strip_padded (w1 s w2 : string) :
  is_blank w1 = true -> is_blank w2 = true ->
  strip (w1 +:+ s +:+ w2) = strip s.
Proof.
  intros H1 H2. unfold strip.
  rewrite (lstrip_app_blank_l _ _ H1), (lstrip_app_blank_r _ _ H2).
  destruct (is_blank s) eqn:Es.
  - rewrite (lstrip_blank _ Es). reflexivity.
  - apply rstrip_app_blank_r. exact H2.
Qed.

Lemma rstrip_length (s : string) : (String.length (rstrip s) <= String.length s)%nat.
Proof.
  induction s as [|c s IH]; simpl; [lia|].
  destruct (rstrip s); [destruct (is_space c)|]; simpl in *; lia.
Qed.

Lemma lstrip_length (s : string) : (String.length (lstrip s) <= String.length s)%nat.
Proof.
  induction s as [|c s IH]; simpl; [lia|].
  destruct (is_space c); simpl; lia.
Qed.

Lemma strip_length (s : string) : (String.length (strip s) <= String.length s)%nat.
Proof.
  unfold strip. pose proof (rstrip_length (lstrip s)). pose proof (lstrip_length s). lia.
Qed.

Lemma substring_length_le (n m : nat) (s : string) :
  (String.length (String.substring n m s) <= m)%nat.
Proof.
  revert n m. induction s as [|c s IH]; intros n m.
  - destruct n, m; simpl; lia.
  - destruct n; simpl.
    + destruct m; simpl; [lia|]. specialize (IH 0%nat m). lia.
    + apply IH.
Qed.

Lemma substring_length_le_text (n m : nat) (s : string) :
  (String.length (String.substring n m s) <= String.length s)%nat.
Proof.
  revert n m. induction s as [|c s IH]; intros n m.
  - destruct n, m; simpl; lia.
  - destruct n; simpl.
    + destruct m; simpl; [lia|]. specialize (IH 0%nat m). lia.
    + specialize (IH n m). lia.
Qed.

Lemma omap_length_le {A B : Type} (f : A -> option B) (l : list A) :
  (length (omap f l) <= length l)%nat.
Proof.
  induction l as [|a l IH]; [reflexivity|].
  change (omap f (a :: l)) with (match f a with Some b => b :: omap f l | None => omap f l end).
  destruct (f a); simpl; lia.
Qed.


(* ================================================================== *)
(** * [chunk_text] *)
(* ================================================================== *)

Lemma window_count_spec (len step : Z) (k : nat) :
  0 <= len -> 0 < step ->
  (Z.of_nat k * step < len <-> (k < window_count len step)%nat).
Proof.
  intros Hlen Hstep. unfold window_count.
  assert (Hq : 0 <= (len + step - 1) / step) by (apply Z.div_pos; lia).
  split.
  - intros Hk.
    assert (Z.of_nat k + 1 <= (len + step - 1) / step); [|lia].
    apply Z.div_le_lower_bound; [lia|]. nia.
  - intros Hk.
    assert (Hlt : Z.of_nat k < (len + step - 1) / step) by lia.
    assert (Hmul : step * ((len + step - 1) / step) <= len + step - 1)
      by (apply Z.mul_div_le; lia).
    nia.
Qed.

Lemma chunk_text_loop_windows (text : string) (chunk_size overlap : Z) :
  0 < chunk_size - overlap ->
  forall (m k : nat) (chunks : list string) (fuel : nat),
    (k + m)%nat = window_count (Z.of_nat (String.length text)) (chunk_size - overlap) ->
    (m <= fuel)%nat ->
    chunk_text_loop fuel text chunk_size overlap (Z.of_nat k * (chunk_size - overlap)) chunks
    = Some (chunks ++ omap (chunk_window text chunk_size (chunk_size - overlap)) (seq k m)).
Proof.
  intros Hstep. induction m as [|m IH]; intros k chunks fuel Hn Hfuel.
  - assert (Hge : ~ Z.of_nat k * (chunk_size - overlap) < Z.of_nat (String.length text)).
    { rewrite window_count_spec by lia. lia. }
    simpl. rewrite app_nil_r.
    destruct fuel; simpl;
      (destruct (Z.of_nat k * (chunk_size - overlap) <? Z.of_nat (String.length text)) eqn:E;
       [apply Z.ltb_lt in E; contradiction|reflexivity]).
  - assert (Hlt : Z.of_nat k * (chunk_size - overlap) < Z.of_nat (String.length text)).
    { rewrite window_count_spec by lia. lia. }
    destruct fuel as [|fuel]; [lia|]. simpl.
    apply Z.ltb_lt in Hlt. rewrite Hlt.
    replace (Z.of_nat k * (chunk_size - overlap) + chunk_size - overlap)
      with (Z.of_nat (S k) * (chunk_size - overlap)) by lia.
    rewrite IH by lia.
    unfold chunk_window at 2.
    destruct (String.eqb _ EmptyString); simpl; [reflexivity|].
    rewrite <- app_assoc. reflexivity.
Qed.

(** X1: when [0 <= overlap < chunk_size] the loop of [chunk_text] ends,
    after one turn per window start [0, step, 2 * step, ...] below the
    length of the text ([step = chunk_size - overlap]); the chunks are the
    stripped windows of [chunk_size] characters at those starts, the
    blank ones left out, in order. *)
Theorem chunk_text_windows (fuel : nat) (text : string) (chunk_size overlap : Z) :
  0 <= overlap -> overlap < chunk_size ->
  (window_count (Z.of_nat (String.length text)) (chunk_size - overlap) <= fuel)%nat ->
  chunk_text fuel text chunk_size overlap
  = Some (omap (chunk_window text chunk_size (chunk_size - overlap))
            (seq 0 (window_count (Z.of_nat (String.length text)) (chunk_size - overlap)))).
Proof.
  intros H0 Hlt Hfuel. unfold chunk_text.
  change 0 with (Z.of_nat 0 * (chunk_size - overlap)).
  rewrite (chunk_text_loop_windows text chunk_size overlap ltac:(lia)
             (window_count (Z.of_nat (String.length text)) (chunk_size - overlap)) 0%nat []
             fuel eq_refl Hfuel).
  reflexivity.
Qed.

Lemma chunk_text_windows_witness :
  chunk_text 4 "alpha beta gamma" 6 2 = Some ["alpha"; "a beta"; "ta gam"; "amma"].
Proof.
  rewrite (chunk_text_windows 4 "alpha beta gamma" 6 2); [|lia|lia|vm_compute; lia].
  vm_compute. reflexivity.
Defined.

Lemma chunk_text_loop_more_fuel (text : string) (chunk_size overlap : Z) (fuel : nat) :
  forall (fuel' : nat) (start : Z) (chunks result : list string),
    (fuel <= fuel')%nat ->
    chunk_text_loop fuel text chunk_size overlap start chunks = Some result ->
    chunk_text_loop fuel' text chunk_size overlap start chunks = Some result.
Proof.
  induction fuel as [|fuel IH]; intros fuel' start chunks result Hle.
  - simpl. destruct (start <? Z.of_nat (String.length text)) eqn:E; [discriminate|].
    intros H. destruct fuel'; simpl; rewrite E; exact H.
  - destruct fuel' as [|fuel']; [lia|]. simpl.
    destruct (start <? Z.of_nat (String.length text)); [|auto].
    apply IH. lia.
Qed.

Lemma chunk_text_Some (fuel : nat) (text : string) (chunk_size overlap : Z)
    (chunks : list string) :
  0 <= overlap -> overlap < chunk_size ->
  chunk_text fuel text chunk_size overlap = Some chunks ->
  chunks = omap (chunk_window text chunk_size (chunk_size - overlap))
             (seq 0 (window_count (Z.of_nat (String.length text)) (chunk_size - overlap))).
Proof.
  intros H0 Hlt Hrun.
  pose (n := window_count (Z.of_nat (String.length text)) (chunk_size - overlap)).
  assert (Hbig : chunk_text (fuel + n) text chunk_size overlap = Some chunks).
  { unfold chunk_text in *. eapply chunk_text_loop_more_fuel; [|exact Hrun]. lia. }
  rewrite chunk_text_windows in Hbig by (try assumption; fold n; lia).
  congruence.
Qed.

Lemma py_slice_length (s : string) (a n : Z) :
  0 <= a -> 0 <= n -> Z.of_nat (String.length (py_slice s a (a + n))) <= n.
Proof.
  intros Ha Hn. unfold py_slice.
  set (len := Z.of_nat (String.length s)).
  pose proof (substring_length_le (Z.to_nat (clamp_index len a))
                (Z.to_nat (clamp_index len (a + n) - clamp_index len a)) s) as Hsub.
  assert (Hc : clamp_index len (a + n) - clamp_index len a <= n).
  { unfold clamp_index.
    destruct (a <? 0) eqn:E1; [apply Z.ltb_lt in E1; lia|].
    destruct (a + n <? 0) eqn:E2; [apply Z.ltb_lt in E2; lia|].
    rewrite E1, E2.
    destruct (len <? a) eqn:E3; destruct (len <? a + n) eqn:E4;
      try apply Z.ltb_lt in E3; try apply Z.ltb_lt in E4;
      try apply Z.ltb_ge in E3; try apply Z.ltb_ge in E4; lia. }
  lia.
Qed.

Lemma py_slice_length_text (s : string) (a b : Z) :
  (String.length (py_slice s a b) <= String.length s)%nat.
Proof. unfold py_slice. apply substring_length_le_text. Qed.

Lemma chunk_window_Some (text : string) (chunk_size step : Z) (k : nat) (c : string) :
  0 <= step -> 0 <= chunk_size ->
  chunk_window text chunk_size step k = Some c ->
  c <> EmptyString /\ strip c = c
  /\ Z.of_nat (String.length c) <= chunk_size
  /\ (String.length c <= String.length text)%nat.
Proof.
  intros Hstep Hsize. unfold chunk_window.
  destruct (String.eqb _ EmptyString) eqn:E; [discriminate|].
  intros [= <-]. apply String.eqb_neq in E.
  split; [exact E|]. split; [apply strip_idem|].
  pose proof (strip_length (py_slice text (Z.of_nat k * step) (Z.of_nat k * step + chunk_size))).
  pose proof (py_slice_length text (Z.of_nat k * step) chunk_size ltac:(lia) Hsize).
  pose proof (py_slice_length_text text (Z.of_nat k * step) (Z.of_nat k * step + chunk_size)).
  lia.
Qed.

(** X2: when [0 <= overlap < chunk_size], what [chunk_text] returns has
    at most one chunk per window start, and every chunk is non-empty, has
    no whitespace at either end, and is no longer than [chunk_size] and
    than the text. *)
Theorem chunk_text_chunks (fuel : nat) (text : string) (chunk_size overlap : Z)
    (chunks : list string) :
  0 <= overlap -> overlap < chunk_size ->
  chunk_text fuel text chunk_size overlap = Some chunks ->
  (length chunks <= window_count (Z.of_nat (String.length text)) (chunk_size - overlap))%nat
  /\ Forall (fun c => c <> EmptyString /\ strip c = c
                      /\ Z.of_nat (String.length c) <= chunk_size
                      /\ (String.length c <= String.length text)%nat) chunks.
Proof.
  intros H0 Hlt Hrun.
  rewrite (chunk_text_Some _ _ _ _ _ H0 Hlt Hrun). split.
  - etransitivity; [apply omap_length_le|]. rewrite length_seq. lia.
  - apply Forall_forall. intros c Hc.
    apply list_elem_of_omap in Hc as (k & _ & Hk).
    eapply chunk_window_Some; [| |exact Hk]; lia.
Qed.

Lemma chunk_text_chunks_witness :
  Forall (fun c => c <> EmptyString /\ strip c = c
                   /\ Z.of_nat (String.length c) <= 6
                   /\ (String.length c <= String.length "alpha beta gamma")%nat)
    ["alpha"; "a beta"; "ta gam"; "amma"].
Proof.
  apply (chunk_text_chunks 4 "alpha beta gamma" 6 2); [lia|lia|vm_compute; reflexivity].
Defined.

Lemma chunk_text_loop_stuck (text : string) (chunk_size overlap : Z) :
  (0 < String.length text)%nat -> chunk_size <= overlap ->
  forall (fuel : nat) (start : Z) (chunks : list string),
    start <= 0 -> chunk_text_loop fuel text chunk_size overlap start chunks = None.
Proof.
  intros Hlen Hstep. induction fuel as [|fuel IH]; intros start chunks Hstart; simpl.
  - destruct (start <? Z.of_nat (String.length text)) eqn:E; [reflexivity|].
    apply Z.ltb_ge in E. lia.
  - destruct (start <? Z.of_nat (String.length text)) eqn:E;
      [|apply Z.ltb_ge in E; lia].
    apply IH. lia.
Qed.

(** X3: on a text that is not empty, [chunk_text] with
    [chunk_size <= overlap] never leaves its loop: [start] does not
    advance, so no amount of fuel gives a result. *)
Theorem chunk_text_diverges (text : string) (chunk_size overlap : Z) (fuel : nat) :
  text <> EmptyString -> chunk_size <= overlap ->
  chunk_text fuel text chunk_size overlap = None.
Proof.
  intros Hne Hstep. unfold chunk_text.
  apply chunk_text_loop_stuck; [|exact Hstep|lia].
  destruct text; [congruence|simpl; lia].
Qed.

Lemma chunk_text_diverges_witness : chunk_text 1000 "abc" 50 50 = None.
Proof. apply chunk_text_diverges; [discriminate|lia]. Defined.

Lemma substring_whole (s : string) : String.substring 0 (String.length s) s = s.
Proof. induction s as [|c s IH]; simpl; [reflexivity|]. rewrite IH. reflexivity. Qed.

Lemma py_slice_whole (s : string) (n : Z) :
  Z.of_nat (String.length s) <= n -> py_slice s 0 n = s.
Proof.
  intros Hn. unfold py_slice, clamp_index. simpl.
  destruct (Z.of_nat (String.length s) <? 0) eqn:E0; [apply Z.ltb_lt in E0; lia|].
  destruct (n <? 0) eqn:E1; [apply Z.ltb_lt in E1; lia|]. rewrite E1.
  change (Z.to_nat 0) with 0%nat. rewrite Z.sub_0_r.
  destruct (Z.of_nat (String.length s) <? n) eqn:E2.
  - rewrite Nat2Z.id. apply substring_whole.
  - apply Z.ltb_ge in E2. replace n with (Z.of_nat (String.length s)) by lia.
    rewrite Nat2Z.id. apply substring_whole.
Qed.

Lemma strip_empty_iff (s : string) : strip s = EmptyString <-> is_blank s = true.
Proof.
  split.
  - unfold strip. induction s as [|c s IH]; simpl; [reflexivity|].
    destruct (is_space c) eqn:Ec; simpl; [exact IH|].
    intros H. exfalso. revert H. change (rstrip (String c s) <> EmptyString).
    rewrite (rstrip_cons _ _ Ec). discriminate.
  - intros H. unfold strip. rewrite (lstrip_blank _ H). reflexivity.
Qed.

(** X4: a text no longer than [chunk_size - overlap] gives one chunk, the
    stripped text, or none when the text is blank (in particular when it
    is empty). *)
Theorem chunk_text_short (fuel : nat) (text : string) (chunk_size overlap : Z) :
  (1 <= fuel)%nat -> 0 <= overlap ->
  0 < chunk_size - overlap ->
  Z.of_nat (String.length text) <= chunk_size - overlap ->
  chunk_text fuel text chunk_size overlap
  = Some (if is_blank text then [] else [strip text]).
Proof.
  intros Hfuel H0 Hstep Hshort.
  assert (Hn : (window_count (Z.of_nat (String.length text)) (chunk_size - overlap) <= 1)%nat).
  { destruct (Nat.le_gt_cases
                (window_count (Z.of_nat (String.length text)) (chunk_size - overlap)) 1)
      as [H|H]; [exact H|].
    apply (window_count_spec (Z.of_nat (String.length text)) (chunk_size - overlap) 1) in H;
      lia. }
  rewrite chunk_text_windows by lia.
  destruct (window_count _ _) as [|[|n]] eqn:En; [| |lia].
  - assert (String.length text = 0)%nat as Hlen.
    { destruct (String.length text) eqn:El; [reflexivity|].
      assert (H : (0 < window_count (Z.of_nat (String.length text)) (chunk_size - overlap))%nat).
      { apply window_count_spec; lia. }
      rewrite El in H. lia. }
    destruct text; [reflexivity|discriminate].
  - simpl. unfold chunk_window.
    assert (Hslice : py_slice text (Z.of_nat 0 * (chunk_size - overlap))
                       (Z.of_nat 0 * (chunk_size - overlap) + chunk_size) = text).
    { replace (Z.of_nat 0 * (chunk_size - overlap)) with 0 by lia.
      rewrite Z.add_0_l. apply py_slice_whole. lia. }
    rewrite Hslice.
    destruct (is_blank text) eqn:Eb.
    + apply strip_empty_iff in Eb. rewrite Eb. reflexivity.
    + destruct (String.eqb (strip text) EmptyString) eqn:Es; [|reflexivity].
      apply String.eqb_eq, strip_empty_iff in Es. congruence.
Qed.

Lemma chunk_text_short_witness :
  chunk_text 1 "  EXP-7  " 500 50 = Some ["EXP-7"].
Proof.
  rewrite chunk_text_short; [reflexivity|lia|lia|lia|vm_compute; discriminate].
Defined.

(* ================================================================== *)
(** * [_parse_json_response] *)
(* ================================================================== *)

(** X5: whitespace around the backend's answer does not change what
    [_parse_json_response] returns or raises. *)
Theorem parse_json_response_padding (P : Platform) (w1 text w2 : string) :
  is_blank w1 = true -> is_blank w2 = true ->
  _parse_json_response P (w1 +:+ text +:+ w2) = _parse_json_response P text.
Proof.
  intros H1 H2. unfold _parse_json_response.
  rewrite (strip_padded _ _ _ H1 H2). reflexivity.
Qed.

Lemma parse_json_response_padding_witness :
  _parse_json_response ref_platform ("  " +:+ terse_reply +:+ nl)
  = _parse_json_response ref_platform terse_reply.
Proof.
  apply parse_json_response_padding; vm_compute; reflexivity.
Defined.

Lemma slice_length_text (s : string) (a b : Z) :
  (String.length (slice s a b) <= String.length s)%nat.
Proof. unfold slice. apply substring_length_le_text. Qed.















(* ================================================================== *)
(** * The retry loops: what they return, raise and ask *)
(* ================================================================== *)

Lemma rule_based_parse_Ok (question : string) :
  _rule_based_parse question
  = Ok (mkParsedQuestion (extract_treatment question (lower question))
          (extract_outcomes (lower question)) (extract_decision_type (lower question))).
Proof. unfold _rule_based_parse. apply ParsedQuestion_new_texts. Qed.

Lemma parse_question_loop_ends P W question attempts prompt :
  last attempts = Some LLM_MAX_RETRIES ->
  (exists parsed, parse_question_loop P W question attempts prompt = Ok (Some parsed))
  \/ (exists e, parse_question_loop P W question attempts prompt = Raise e /\ hard_error e).
Proof.
  revert prompt. induction attempts as [|attempt rest IH]; intros prompt; simpl.
  - discriminate.
  - intros Hlast.
    destruct (parse_attempt P W prompt) as [parsed|e] eqn:E.
    + left. eexists. reflexivity.
    + assert (Hrest :
        (exists parsed,
           (if contains "not found" (lower (exn_str P e))
            then Raise (ModelNotFoundError model_missing_msg)
            else if (attempt <? LLM_MAX_RETRIES)%nat
                 then parse_question_loop P W question rest (prompt +:+ retry_directive)
                 else parsed ← _rule_based_parse question; Ok (Some parsed))
           = Ok (Some parsed))
        \/ (exists e',
              (if contains "not found" (lower (exn_str P e))
               then Raise (ModelNotFoundError model_missing_msg)
               else if (attempt <? LLM_MAX_RETRIES)%nat
                    then parse_question_loop P W question rest (prompt +:+ retry_directive)
                    else parsed ← _rule_based_parse question; Ok (Some parsed))
              = Raise e' /\ hard_error e')).
      { destruct (contains "not found" (lower (exn_str P e))).
        - right. eexists. split; [reflexivity|]. right. reflexivity.
        - destruct (attempt <? LLM_MAX_RETRIES)%nat eqn:Elt.
          + apply IH. destruct rest as [|a rest'].
            * simpl in Hlast. injection Hlast as ->. apply Nat.ltb_lt in Elt. lia.
            * exact Hlast.
          + left. rewrite rule_based_parse_Ok. eexists. reflexivity. }
      destruct e; try exact Hrest.
      right. eexists. split; [reflexivity|]. left. reflexivity.
Qed.

Lemma generate_recommendation_loop_ends P W outcomes confounders attempts prompt :
  (exists brief,
     generate_recommendation_loop P W outcomes confounders attempts prompt = Ok brief)
  \/ (exists e,
        generate_recommendation_loop P W outcomes confounders attempts prompt = Raise e
        /\ hard_error e).
Proof.
  revert prompt. induction attempts as [|attempt rest IH]; intros prompt; simpl.
  - left. eexists. reflexivity.
  - destruct (recommendation_attempt P W confounders prompt) as [result|e] eqn:E.
    + left. eexists. reflexivity.
    + assert (Hrest :
        (exists brief,
           (if contains "not found" (lower (exn_str P e))
            then Raise (ModelNotFoundError model_missing_msg)
            else if (attempt <? LLM_MAX_RETRIES)%nat
                 then generate_recommendation_loop P W outcomes confounders rest
                        (prompt +:+ retry_directive)
                 else Ok (_rule_based_recommendation confounders outcomes))
           = Ok brief)
        \/ (exists e',
              (if contains "not found" (lower (exn_str P e))
               then Raise (ModelNotFoundError model_missing_msg)
               else if (attempt <? LLM_MAX_RETRIES)%nat
                    then generate_recommendation_loop P W outcomes confounders rest
                           (prompt +:+ retry_directive)
                    else Ok (_rule_based_recommendation confounders outcomes))
              = Raise e' /\ hard_error e')).
      { destruct (contains "not found" (lower (exn_str P e))).
        - right. eexists. split; [reflexivity|]. right. reflexivity.
        - destruct (attempt <? LLM_MAX_RETRIES)%nat; [apply IH|].
          left. eexists. reflexivity. }
      destruct e; try exact Hrest.
      right. eexists. split; [reflexivity|]. left. reflexivity.
Qed.

(** X7: [parse_question] returns a [ParsedQuestion] (never [None]: its
    loop always leaves by [return] or [raise]) or raises one of the two
    hard errors with their fixed messages; [generate_recommendation]
    returns a brief or raises one of the same two errors.  No other
    exception leaves either function, whatever the backend does. *)
Theorem llm_calls_end_three_ways (P : Platform) (W : World) :
  (forall question,
     (exists parsed, parse_question P W question = Ok (Some parsed))
     \/ parse_question P W question = Raise (OllamaUnavailableError unavailable_msg)
     \/ parse_question P W question = Raise (ModelNotFoundError model_missing_msg))
  /\ (forall question treatment outcomes confounders relevant_experiments,
        (exists brief,
           generate_recommendation P W question treatment outcomes confounders
             relevant_experiments = Ok brief)
        \/ generate_recommendation P W question treatment outcomes confounders
             relevant_experiments = Raise (OllamaUnavailableError unavailable_msg)
        \/ generate_recommendation P W question treatment outcomes confounders
             relevant_experiments = Raise (ModelNotFoundError model_missing_msg)).
Proof.
  split.
  - intros question. unfold parse_question.
    destruct (parse_question_loop_ends P W question (seq 0 (LLM_MAX_RETRIES + 1))
                (parse_prompt question) eq_refl) as [H|(e & He & [->| ->])]; auto.
  - intros question treatment outcomes confounders relevant_experiments.
    unfold generate_recommendation.
    destruct (generate_recommendation_loop_ends P W outcomes confounders
                (seq 0 (LLM_MAX_RETRIES + 1))
                (recommendation_prompt P question treatment outcomes confounders
                   relevant_experiments)) as [H|(e & He & [->| ->])]; auto.
Qed.

Lemma parse_attempt_ext P W W' prompt :
  llm_invoke W prompt = llm_invoke W' prompt ->
  parse_attempt P W prompt = parse_attempt P W' prompt.
Proof. intros H. unfold parse_attempt, invoke. rewrite H. reflexivity. Qed.

Lemma recommendation_attempt_ext P W W' confounders prompt :
  llm_invoke W prompt = llm_invoke W' prompt ->
  recommendation_attempt P W confounders prompt
  = recommendation_attempt P W' confounders prompt.
Proof. intros H. unfold recommendation_attempt, invoke. rewrite H. reflexivity. Qed.

Lemma parse_question_loop_ext P W W' question attempts prompt :
  (forall n, (n < length attempts)%nat ->
             llm_invoke W (retry_prompt prompt n) = llm_invoke W' (retry_prompt prompt n)) ->
  parse_question_loop P W question attempts prompt
  = parse_question_loop P W' question attempts prompt.
Proof.
  revert prompt. induction attempts as [|attempt rest IH]; intros prompt Hsame; simpl.
  - reflexivity.
  - rewrite (parse_attempt_ext P W W' prompt (Hsame 0%nat ltac:(simpl; lia))).
    rewrite (IH (prompt +:+ retry_directive)).
    + reflexivity.
    + intros n Hn. apply (Hsame (S n)). simpl. lia.
Qed.

Lemma generate_recommendation_loop_ext P W W' outcomes confounders attempts prompt :
  (forall n, (n < length attempts)%nat ->
             llm_invoke W (retry_prompt prompt n) = llm_invoke W' (retry_prompt prompt n)) ->
  generate_recommendation_loop P W outcomes confounders attempts prompt
  = generate_recommendation_loop P W' outcomes confounders attempts prompt.
Proof.
  revert prompt. induction attempts as [|attempt rest IH]; intros prompt Hsame; simpl.
  - reflexivity.
  - rewrite (recommendation_attempt_ext P W W' confounders prompt
               (Hsame 0%nat ltac:(simpl; lia))).
    rewrite (IH (prompt +:+ retry_directive)).
    + reflexivity.
    + intros n Hn. apply (Hsame (S n)). simpl. lia.
Qed.

(** X8: a call of [parse_question] or [generate_recommendation] asks the
    backend at most [LLM_MAX_RETRIES + 1] times, with the first prompt and
    the prompts that grow by the directive: two backends that agree on
    these prompts give the same result. *)
Theorem llm_calls_ask_bounded (P : Platform) (W W' : World) (prompt : string) :
  (forall n, (n <= LLM_MAX_RETRIES)%nat ->
             llm_invoke W (retry_prompt prompt n) = llm_invoke W' (retry_prompt prompt n)) ->
  (forall question,
     prompt = parse_prompt question ->
     parse_question P W question = parse_question P W' question)
  /\ (forall question treatment outcomes confounders relevant_experiments,
        prompt = recommendation_prompt P question treatment outcomes confounders
                   relevant_experiments ->
        generate_recommendation P W question treatment outcomes confounders
          relevant_experiments
        = generate_recommendation P W' question treatment outcomes confounders
            relevant_experiments).
Proof.
  intros Hsame. split.
  - intros question ->. unfold parse_question.
    apply parse_question_loop_ext. intros n Hn. apply Hsame.
    rewrite length_seq in Hn. lia.
  - intros question treatment outcomes confounders relevant_experiments ->.
    unfold generate_recommendation.
    apply generate_recommendation_loop_ext. intros n Hn. apply Hsame.
    rewrite length_seq in Hn. lia.
Qed.

Lemma llm_calls_ask_bounded_witness :
  parse_question ref_platform optimistic_world sample_question
  = parse_question ref_platform picky_world sample_question
  /\ llm_invoke optimistic_world (retry_prompt (parse_prompt sample_question) 3)
     <> llm_invoke picky_world (retry_prompt (parse_prompt sample_question) 3).
Proof.
  split.
  - apply (proj1 (llm_calls_ask_bounded ref_platform optimistic_world picky_world
                    (parse_prompt sample_question)
                    ltac:(intros n Hn; unfold LLM_MAX_RETRIES in Hn;
                          destruct n as [|[|[|n]]]; [vm_compute; reflexivity..|lia]))
             sample_question eq_refl).
  - vm_compute. discriminate.
Defined.

(* ================================================================== *)
(** * The rule-based parser: the treatment excerpt and the outcomes *)
(* ================================================================== *)

Lemma split_head_no_sep (sep : ascii) (s : string) :
  has_char sep (split_head sep s) = false.
Proof.
  induction s as [|c s IH]; simpl; [reflexivity|].
  destruct (Ascii.eqb c sep) eqn:E; simpl; [reflexivity|]. rewrite E, IH. reflexivity.
Qed.

Lemma split_head_length (sep : ascii) (s : string) :
  (String.length (split_head sep s) <= String.length s)%nat.
Proof.
  induction s as [|c s IH]; simpl; [lia|].
  destruct (Ascii.eqb c sep); simpl; lia.
Qed.

Lemma lstrip_no_char (c : ascii) (s : string) :
  has_char c s = false -> has_char c (lstrip s) = false.
Proof.
  induction s as [|a s IH]; simpl; [reflexivity|].
  intros H. apply orb_false_iff in H as [Ha Hs].
  destruct (is_space a); [apply IH; exact Hs|]. simpl. rewrite Ha, Hs. reflexivity.
Qed.

Lemma rstrip_no_char (c : ascii) (s : string) :
  has_char c s = false -> has_char c (rstrip s) = false.
Proof.
  induction s as [|a s IH]; simpl; [reflexivity|].
  intros H. apply orb_false_iff in H as [Ha Hs]. specialize (IH Hs).
  destruct (rstrip s) as [|b r].
  - destruct (is_space a); simpl; [reflexivity|]. rewrite Ha. reflexivity.
  - change (has_char c (String a (String b r)) = false).
    change (has_char c (String a (String b r))) with (Ascii.eqb a c || has_char c (String b r)).
    rewrite Ha, IH. reflexivity.
Qed.

Lemma strip_no_char (c : ascii) (s : string) :
  has_char c s = false -> has_char c (strip s) = false.
Proof. intros H. unfold strip. apply rstrip_no_char, lstrip_no_char, H. Qed.

Lemma lower_char_question_mark (c : ascii) :
  Ascii.eqb (lower_char c) question_mark = Ascii.eqb c question_mark.
Proof. destruct c as [[] [] [] [] [] [] [] []]; reflexivity. Qed.

Lemma lower_char_space (c : ascii) : is_space (lower_char c) = is_space c.
Proof. destruct c as [[] [] [] [] [] [] [] []]; reflexivity. Qed.

Lemma lower_split_head (s : string) :
  lower (split_head question_mark s) = split_head question_mark (lower s).
Proof.
  induction s as [|c s IH]; simpl; [reflexivity|].
  rewrite lower_char_question_mark.
  destruct (Ascii.eqb c question_mark); simpl; [reflexivity|]. rewrite IH. reflexivity.
Qed.

Lemma lower_lstrip (s : string) : lower (lstrip s) = lstrip (lower s).
Proof.
  induction s as [|c s IH]; simpl; [reflexivity|].
  rewrite lower_char_space. destruct (is_space c); simpl; [exact IH|reflexivity].
Qed.

Lemma lower_rstrip (s : string) : lower (rstrip s) = rstrip (lower s).
Proof.
  induction s as [|c s IH]; simpl; [reflexivity|].
  rewrite <- IH, lower_char_space.
  destruct (rstrip s); [destruct (is_space c)|]; reflexivity.
Qed.

Lemma lower_strip (s : string) : lower (strip s) = strip (lower s).
Proof. unfold strip. rewrite lower_rstrip, lower_lstrip. reflexivity. Qed.

Lemma lower_substring (n m : nat) (s : string) :
  lower (String.substring n m s) = String.substring n m (lower s).
Proof.
  revert n m. induction s as [|c s IH]; intros n m.
  - destruct n, m; reflexivity.
  - destruct n; simpl.
    + destruct m; simpl; [reflexivity|]. rewrite IH. reflexivity.
    + apply IH.
Qed.

Lemma substring_split (n a b : nat) (s : string) :
  String.substring n (a + b) s
  = String.substring n a s +:+ String.substring (n + a) b s.
Proof.
  revert n a. induction s as [|c s IH]; intros n a.
  - destruct n, a, b; reflexivity.
  - destruct n; simpl.
    + destruct a; simpl.
      * destruct b; reflexivity.
      * rewrite (IH 0%nat a). reflexivity.
    + apply IH.
Qed.

Lemma split_head_app (sep : ascii) (kw r : string) :
  has_char sep kw = false ->
  split_head sep (kw +:+ r) = kw +:+ split_head sep r.
Proof.
  induction kw as [|c kw IH]; simpl; [reflexivity|].
  intros H. apply orb_false_iff in H as [Hc Hkw]. rewrite Hc, (IH Hkw). reflexivity.
Qed.

Lemma rstrip_app_no_space (kw r : string) :
  no_space kw = true -> rstrip (kw +:+ r) = kw +:+ rstrip r.
Proof.
  induction kw as [|c kw IH]; [reflexivity|].
  intros H. simpl in H. apply andb_true_iff in H as [Hc Hkw].
  apply negb_true_iff in Hc.
  change (String c kw +:+ r) with (String c (kw +:+ r)).
  rewrite (rstrip_cons _ _ Hc), (IH Hkw). reflexivity.
Qed.

Lemma strip_app_no_space (kw r : string) :
  kw <> EmptyString -> no_space kw = true -> strip (kw +:+ r) = kw +:+ rstrip r.
Proof.
  intros Hne Hkw. unfold strip.
  destruct kw as [|c kw]; [congruence|].
  pose proof Hkw as Hkw'. simpl in Hkw'. apply andb_true_iff in Hkw' as [Hc _].
  apply negb_true_iff in Hc.
  change (lstrip (String c kw +:+ r)) with (if is_space c then lstrip (kw +:+ r)
                                             else String c kw +:+ r).
  rewrite Hc. apply rstrip_app_no_space. exact Hkw.
Qed.

Lemma treatment_keywords_plain (kw : string) :
  In kw treatment_keywords ->
  kw <> EmptyString /\ no_space kw = true /\ has_char question_mark kw = false
  /\ (String.length kw <= 50)%nat.
Proof.
  unfold treatment_keywords. simpl.
  intros H. repeat (destruct H as [<-|H]; [repeat split; (discriminate || reflexivity || (simpl; lia))|]).
  contradiction.
Qed.

Lemma lower_length (s : string) : String.length (lower s) = String.length s.
Proof. induction s as [|c s IH]; simpl; [reflexivity|]. rewrite IH. reflexivity. Qed.

(** The excerpt is cut out of the question, whatever the index is. *)
Lemma extract_treatment_excerpt (question question_lower : string) :
  (String.length (extract_treatment question question_lower) <= 50)%nat
  /\ has_char question_mark (extract_treatment question question_lower) = false
  /\ strip (extract_treatment question question_lower)
     = extract_treatment question question_lower.
Proof.
  unfold extract_treatment.
  destruct (List.find (fun kw => contains kw question_lower) treatment_keywords) as [kw|].
  2: { split; [simpl; lia|]. split; reflexivity. }
  set (idx := find kw question_lower). unfold slice.
  replace (idx + 50 - idx) with 50 by lia.
  split.
  { etransitivity; [apply strip_length|].
    etransitivity; [apply split_head_length|]. apply substring_length_le. }
  split; [apply strip_no_char, split_head_no_sep|apply strip_idem].
Qed.

(** X9: the treatment of the rule-based parser.  It is cut out of the
    question at the index the keyword has in the lowered question; so,
    whatever text lowering gave, the treatment is at most 50 characters
    long, holds no question mark and has no whitespace at either end,
    and it is [unknown_change] when no action keyword occurs in the
    lowered question.  Where lowering kept the length of the question
    (it does for every text below U+0100; beyond, [str.lower] lengthens
    some capitals, U+0130 for one, and the index then points elsewhere),
    the lowered treatment begins with the first keyword of the list that
    occurs. *)
Theorem rule_based_treatment (question : string) :
  (exists parsed,
     _rule_based_parse question = Ok parsed
     /\ pq_treatment parsed = extract_treatment question (lower question))
  /\ (forall question_lower,
        (String.length (extract_treatment question question_lower) <= 50)%nat
        /\ has_char question_mark (extract_treatment question question_lower) = false
        /\ strip (extract_treatment question question_lower)
           = extract_treatment question question_lower
        /\ (List.find (fun kw => contains kw question_lower) treatment_keywords = None ->
            extract_treatment question question_lower = "unknown_change"))
  /\ (String.length (lower question) = String.length question ->
      forall kw,
        List.find (fun kw => contains kw (lower question)) treatment_keywords = Some kw ->
        exists rest, lower (extract_treatment question (lower question)) = kw +:+ rest).
Proof.
  split; [|split].
  - rewrite rule_based_parse_Ok. eexists. split; reflexivity.
  - intros question_lower.
    destruct (extract_treatment_excerpt question question_lower) as (Hlen & Hq & Hs).
    split; [exact Hlen|]. split; [exact Hq|]. split; [exact Hs|].
    unfold extract_treatment. intros ->. reflexivity.
  - intros _ kw Efind. unfold extract_treatment. rewrite Efind.
    apply find_some in Efind as [Hin Hcontains].
    destruct (treatment_keywords_plain kw Hin) as (Hne & Hns & Hq & Hlen).
    unfold contains in Hcontains. unfold find, find_from.
    destruct (String.index 0 kw (lower question)) as [i|] eqn:Ei; [|discriminate].
    unfold slice. rewrite Nat2Z.id.
    replace (Z.to_nat (Z.of_nat i + 50 - Z.of_nat i)) with 50%nat by lia.
    rewrite lower_strip, lower_split_head, lower_substring.
    replace 50%nat with (String.length kw + (50 - String.length kw))%nat by lia.
    rewrite substring_split, (index_correct1 _ _ _ _ Ei).
    rewrite (split_head_app _ _ _ Hq), (strip_app_no_space _ _ Hne Hns).
    eexists. reflexivity.
Qed.

Example rule_based_treatment_pricing :
  _rule_based_parse "Should we REDUCE the price?  Why not?"
  = Ok (mkParsedQuestion "REDUCE the price" ["conversion_rate"] "root_cause").
Proof. vm_compute. reflexivity. Qed.

Lemma assess_team_impacts_nonempty (outcomes : list string)
    (confounders : list ConfounderInfo) (o team : string) (metrics : list string) :
  In o outcomes -> (team, metrics) ∈ TEAM_METRICS -> In o metrics ->
  _assess_team_impacts outcomes confounders <> [].
Proof.
  intros Ho Hteam Hm. unfold _assess_team_impacts.
  assert (Hin : o ∈ (list_to_set metrics ∩ list_to_set outcomes : gset string)).
  { apply elem_of_intersection.
    split; apply elem_of_list_to_set, list_elem_of_In; assumption. }
  destruct (assess_team (list_to_set outcomes) confounders (team, metrics)) as [r|] eqn:E.
  - intros Hnil.
    assert (Hr : r ∈ omap (assess_team (list_to_set outcomes) confounders) TEAM_METRICS).
    { apply list_elem_of_omap. exists (team, metrics). split; assumption. }
    rewrite Hnil in Hr. inversion Hr.
  - apply assess_team_None in E. simpl in E. rewrite E in Hin.
    exfalso. revert Hin. apply not_elem_of_empty.
Qed.

Lemma extract_outcomes_known (question_lower : string) :
  Forall (fun o => In o (map snd metric_keywords)) (extract_outcomes question_lower)
  /\ (length (extract_outcomes question_lower) <= 6)%nat.
Proof.
  unfold extract_outcomes.
  set (hits := List.filter (fun km => contains (fst km) question_lower) metric_keywords).
  assert (Hall : Forall (fun o => In o (map snd metric_keywords)) (map snd hits)).
  { apply List.Forall_forall. intros o Ho. apply in_map_iff in Ho as (km & <- & Hkm).
    apply filter_In in Hkm as [Hkm _]. apply in_map. exact Hkm. }
  assert (Hlen : (length (map snd hits) <= 6)%nat).
  { rewrite length_map. unfold hits.
    etransitivity; [apply List.filter_length_le|]. simpl. lia. }
  destruct (map snd hits) eqn:E.
  - split; [|simpl; lia]. constructor; [simpl; tauto|constructor].
  - split; assumption.
Qed.

Lemma extract_outcomes_five (question_lower : string) :
  Forall (fun o => In o ["trial_to_paid"; "conversion_rate"; "churn_rate"; "revenue";
                          "activation_rate"]) (extract_outcomes question_lower).
Proof.
  destruct (extract_outcomes_known question_lower) as [Hknown _].
  eapply List.Forall_impl; [|exact Hknown]. simpl. intros o H.
  repeat (destruct H as [<-|H]; [tauto|]). contradiction.
Qed.

(** Each metric of the keyword table is owned by a team. *)
Lemma extract_outcomes_assessed (question_lower : string)
    (confounders : list ConfounderInfo) :
  _assess_team_impacts (extract_outcomes question_lower) confounders <> [].
Proof.
  pose proof (extract_outcomes_five question_lower) as Hfive.
  pose proof (extract_outcomes_nonempty question_lower) as Hne.
  destruct (extract_outcomes question_lower) as [|o os] eqn:E; [congruence|].
  apply List.Forall_cons_iff in Hfive as [Ho _].
  simpl in Ho.
  destruct Ho as [<-|[<-|[<-|[<-|[<-|[]]]]]].
  - apply (assess_team_impacts_nonempty _ _ "trial_to_paid" "growth"
             ["conversion_rate"; "trial_to_paid"; "cac"]);
      [left; reflexivity|unfold TEAM_METRICS; set_solver|simpl; tauto].
  - apply (assess_team_impacts_nonempty _ _ "conversion_rate" "growth"
             ["conversion_rate"; "trial_to_paid"; "cac"]);
      [left; reflexivity|unfold TEAM_METRICS; set_solver|simpl; tauto].
  - apply (assess_team_impacts_nonempty _ _ "churn_rate" "product"
             ["activation_rate"; "churn_rate"; "time_to_value"]);
      [left; reflexivity|unfold TEAM_METRICS; set_solver|simpl; tauto].
  - apply (assess_team_impacts_nonempty _ _ "revenue" "finance" ["revenue"]);
      [left; reflexivity|unfold TEAM_METRICS; set_solver|simpl; tauto].
  - apply (assess_team_impacts_nonempty _ _ "activation_rate" "product"
             ["activation_rate"; "churn_rate"; "time_to_value"]);
      [left; reflexivity|unfold TEAM_METRICS; set_solver|simpl; tauto].
Qed.

(** X10: the question the rule-based parser returns is well-formed for
    the rest of the pipeline: its outcomes are at most six names out of
    the five metrics of the keyword table, its decision type is one of
    the three kinds, and since each of these metrics is owned by a team,
    the team assessment of its outcomes is never empty. *)
Theorem rule_based_outcomes_owned (question : string) (confounders : list ConfounderInfo) :
  exists parsed,
    _rule_based_parse question = Ok parsed
    /\ Forall (fun o => In o ["trial_to_paid"; "conversion_rate"; "churn_rate"; "revenue";
                            "activation_rate"]) (pq_outcomes parsed)
    /\ (length (pq_outcomes parsed) <= 6)%nat
    /\ In (pq_decision_type parsed) ["root_cause"; "impact_analysis"; "should_we"]
    /\ _assess_team_impacts (pq_outcomes parsed) confounders <> [].
Proof.
  rewrite rule_based_parse_Ok. eexists. split; [reflexivity|].
  cbn [pq_outcomes pq_decision_type].
  split; [apply extract_outcomes_five|].
  split; [apply extract_outcomes_known|]. split.
  - unfold extract_decision_type.
    destruct (_ || _); [simpl; tauto|]. destruct (_ || _); simpl; tauto.
  - apply extract_outcomes_assessed.
Qed.

(* ================================================================== *)
(** * The fallback brief in the response *)
(* ================================================================== *)

(** The brief of the rule-based fallback always passes the validation of
    the response. *)
Lemma build_response_rule_based (W : World) (request : AnalyzeRequest)
    (parsed : ParsedQuestion) (dumped : list pyval) (outcomes : list string)
    (confounders : list ConfounderInfo) (decision_safe : bool)
    (team_impacts : list TeamImpact) (warnings : list string) :
  exists response,
    build_response W request parsed (_rule_based_recommendation dumped outcomes)
      confounders decision_safe team_impacts warnings = Ok response
    /\ ar_decision_safe response = is_empty dumped
    /\ ar_confidence_level response = "LOW"
    /\ ar_suggested_action response = (if is_empty dumped then "RUN_EXPERIMENT" else "WAIT")
    /\ ar_monitoring_required response = Some (take 3 outcomes)
    /\ ar_stop_loss_triggers response = Some stop_loss_defaults
    /\ ar_reasoning response
       = (if is_empty dumped then "No recent confounders detected."
          else "Confounders detected - cannot safely attribute changes to proposed treatment.")
         +:+ " (LLM fallback mode)"
    /\ ar_treatment response = Some (pq_treatment parsed)
    /\ ar_outcomes response = Some (pq_outcomes parsed)
    /\ ar_confounders_detected response = confounders
    /\ ar_team_impacts response = none_if_empty team_impacts
    /\ ar_warnings response = none_if_empty warnings.
Proof.
  unfold build_response, _rule_based_recommendation.
  cbn [py_get].
  set (d := list_to_map _ : gmap string pyval).
  assert (H1 : dict_get d "decision_safe" (PBool decision_safe)
               = PBool (negb (0 <? length dumped)%nat)) by reflexivity.
  assert (H2 : dict_get d "confidence_level" (PStr "LOW") = PStr "LOW") by reflexivity.
  assert (H3 : dict_get d "suggested_action" (PStr "WAIT")
               = PStr (if (0 <? length dumped)%nat then "WAIT" else "RUN_EXPERIMENT"))
    by reflexivity.
  assert (H4 : dict_get d "reasoning" (PStr EmptyString)
               = PStr ((if (0 <? length dumped)%nat
                        then "Confounders detected - cannot safely attribute changes to proposed treatment."
                        else "No recent confounders detected.") +:+ " (LLM fallback mode)"))
    by reflexivity.
  assert (H5 : exists a, dict_get d "action_details" PNone = PStr a)
    by (eexists; reflexivity).
  assert (H6 : dict_get d "monitoring_required" PNone = PList (map PStr (take 3 outcomes)))
    by reflexivity.
  assert (H7 : dict_get d "stop_loss_triggers" PNone = PList (map PStr stop_loss_defaults))
    by reflexivity.
  destruct H5 as [a H5].
  unfold mbind, exc_bind. cbn [mret exc_ret].
  rewrite H1, H2, H3, H4, H5, H6, H7.
  cbn [validate_bool validate_str validate_opt_str validate_opt_str_list validate_str_list].
  unfold mbind, exc_bind.
  rewrite !validate_str_items_texts.
  eexists. split; [reflexivity|].
  destruct dumped; repeat split; reflexivity.
Qed.

(* ================================================================== *)
(** * Detection on arbitrary change dicts *)
(* ================================================================== *)












(* ================================================================== *)
(** * Retrieval *)
(* ================================================================== *)

Ltac split_bit b := destruct b; try reflexivity.

Ltac split_char s :=
  let b0 := fresh "b" in let b1 := fresh "b" in let b2 := fresh "b" in
  let b3 := fresh "b" in let b4 := fresh "b" in let b5 := fresh "b" in
  let b6 := fresh "b" in let b7 := fresh "b" in
  destruct s as [|[b0 b1 b2 b3 b4 b5 b6 b7] s]; [reflexivity|];
  split_bit b0; split_bit b1; split_bit b2; split_bit b3;
  split_bit b4; split_bit b5; split_bit b6; split_bit b7.

(** One turn of the loop over the hits, by the type of the hit. *)
Lemma collect_experiments_cons P doc meta rest experiments :
  collect_experiments P ((doc, Some meta) :: rest) experiments
  = match hit_type meta with
    | Some s =>
        if String.eqb s "experiment" then collect_experiments P rest (experiments ++ [doc])
        else if String.eqb s "kpi" then
          match json_loads P doc with
          | Loaded kpi_data =>
              _ ← dict_update kpi_data; collect_experiments P rest experiments
          | JSONDecodeError => collect_experiments P rest experiments
          | LoadsRecursionError msg => Raise (OtherError msg)
          end
        else collect_experiments P rest experiments
    | None => collect_experiments P rest experiments
    end.
Proof.
  unfold hit_type. cbn [collect_experiments].
  destruct (dict_get meta "type" (PStr "unknown")) as [|b|z|f|s|l|d]; try reflexivity.
  cbn [as_str].
  do 11 (split_char s).
Qed.

Lemma collect_experiments_Ok P hits experiments result :
  collect_experiments P hits experiments = Ok result ->
  result = experiments ++ omap experiment_doc hits.
Proof.
  revert experiments. induction hits as [|[doc [meta|]] rest IH]; intros experiments.
  - simpl. intros [= <-]. rewrite app_nil_r. reflexivity.
  - rewrite collect_experiments_cons.
    change (omap experiment_doc ((doc, Some meta) :: rest))
      with (match experiment_doc (doc, Some meta) with
            | Some d => d :: omap experiment_doc rest
            | None => omap experiment_doc rest
            end).
    unfold experiment_doc at 1.
    destruct (hit_type meta) as [s|]; [|apply IH].
    destruct (String.eqb s "experiment").
    + intros H. apply IH in H. rewrite <- app_assoc in H. exact H.
    + destruct (String.eqb s "kpi"); [|apply IH].
      destruct (json_loads P doc) as [kpi_data| |msg]; [|apply IH|discriminate].
      destruct (dict_update kpi_data); simpl; [apply IH|discriminate].
  - simpl. discriminate.
Qed.

Lemma collect_experiments_plain P hits experiments :
  forallb plain_hit hits = true ->
  collect_experiments P hits experiments = Ok (experiments ++ omap experiment_doc hits).
Proof.
  revert experiments. induction hits as [|[doc [meta|]] rest IH]; intros experiments.
  - simpl. rewrite app_nil_r. reflexivity.
  - intros H. apply andb_true_iff in H as [Hhit Hrest].
    rewrite collect_experiments_cons.
    change (omap experiment_doc ((doc, Some meta) :: rest))
      with (match experiment_doc (doc, Some meta) with
            | Some d => d :: omap experiment_doc rest
            | None => omap experiment_doc rest
            end).
    unfold experiment_doc at 1. unfold plain_hit in Hhit.
    destruct (hit_type meta) as [s|]; [|apply IH; exact Hrest].
    destruct (String.eqb s "experiment").
    + rewrite (IH _ Hrest), <- app_assoc. reflexivity.
    + destruct (String.eqb s "kpi"); [discriminate|]. apply IH. exact Hrest.
  - simpl. discriminate.
Qed.

(** X15: the loop over the hits of a search.  When it completes, the
    experiments are the documents whose metadata type is [experiment],
    in the order of the hits, and nothing else; it completes on every
    list of hits that have metadata and are no KPI documents; a hit
    without metadata, after such hits, raises [AttributeError] whatever
    follows it. *)
Theorem collect_experiments_by_type (P : Platform)
    (hits : list (string * option (gmap string pyval))) (experiments : list string) :
  (forall result,
     collect_experiments P hits experiments = Ok result ->
     result = experiments ++ omap experiment_doc hits)
  /\ (forallb plain_hit hits = true ->
      collect_experiments P hits experiments = Ok (experiments ++ omap experiment_doc hits))
  /\ (forall doc after,
        forallb plain_hit hits = true ->
        collect_experiments P (hits ++ (doc, None) :: after) experiments
        = Raise (AttributeError "'NoneType' object has no attribute 'get'")).
Proof.
  split; [intros result; apply collect_experiments_Ok|].
  split; [apply collect_experiments_plain|].
  intros doc after. revert experiments.
  induction hits as [|[d [meta|]] rest IH]; intros experiments H.
  - reflexivity.
  - apply andb_true_iff in H as [Hhit Hrest].
    rewrite <- app_comm_cons, collect_experiments_cons. unfold plain_hit in Hhit.
    destruct (hit_type meta) as [s|]; [|apply IH; exact Hrest].
    destruct (String.eqb s "experiment"); [apply IH; exact Hrest|].
    destruct (String.eqb s "kpi"); [discriminate|]. apply IH. exact Hrest.
  - simpl in H. discriminate.
Qed.

(** X16: [retrieve_context] never raises, and its result has one of
    three shapes: no warning and the experiments of the hits as text
    (a fixed sentence when there is none); or no text and the single
    warning that nothing is indexed; or no text and the single warning
    that retrieval failed, with the message of the error.  There is
    never more than one warning, and a warning means that no experiment
    is passed on, even when the error came after some were collected. *)
Theorem retrieve_context_shapes (P : Platform) (W : World) (query treatment : string)
    (outcomes : list string) :
  exists context,
    retrieve_context P W query treatment outcomes = Ok context
    /\ ((exists docs metas,
           chroma W (search_query query treatment outcomes) = ChromaHits docs metas
           /\ ctx_warnings context = []
           /\ ctx_relevant_experiments context
              = experiments_text (omap experiment_doc (zip docs metas)))
        \/ (chroma W (search_query query treatment outcomes) = ChromaEmpty
            /\ context
               = mkContext EmptyString ["No documents indexed. Run ingest_documents.py"])
        \/ (exists e,
              context = mkContext EmptyString ["Document retrieval error: " +:+ exn_str P e]
              /\ chroma W (search_query query treatment outcomes) <> ChromaEmpty))
    /\ (length (ctx_warnings context) <= 1)%nat
    /\ (ctx_warnings context <> [] -> ctx_relevant_experiments context = EmptyString).
Proof.
  unfold retrieve_context, retrieve_body.
  destruct (chroma W (search_query query treatment outcomes)) as [e| |docs metas] eqn:E;
    simpl.
  - eexists. split; [reflexivity|]. split; [|split; [simpl; lia|reflexivity]].
    right. right. exists e. split; [reflexivity|discriminate].
  - eexists. split; [reflexivity|]. split; [|split; [simpl; lia|reflexivity]].
    right. left. split; reflexivity.
  - destruct (collect_experiments P (zip docs metas) []) as [experiments|e] eqn:Ec; simpl.
    + eexists. split; [reflexivity|]. split; [|split; [simpl; lia|simpl; congruence]].
      left. exists docs, metas. split; [reflexivity|]. split; [reflexivity|].
      apply collect_experiments_Ok in Ec. simpl in Ec. subst experiments. reflexivity.
    + eexists. split; [reflexivity|]. split; [|split; [simpl; lia|reflexivity]].
      right. right. exists e. split; [reflexivity|discriminate].
Qed.

(* ================================================================== *)
(** * Team impacts: the table *)
(* ================================================================== *)

Lemma assess_team_operations (outcome_set : gset string) confounders :
  assess_team outcome_set confounders ("operations", []) = None.
Proof.
  unfold assess_team. simpl.
  rewrite bool_decide_eq_true_2; [reflexivity|]. apply (left_absorb_L _ _).
Qed.

Lemma omap_teams_sublist (outcome_set : gset string) confounders
    (entries : list (string * list string)) :
  sublist (map ti_team (omap (assess_team outcome_set confounders) entries))
    (map fst entries).
Proof.
  induction entries as [|e es IH]; simpl.
  - constructor.
  - destruct (assess_team outcome_set confounders e) as [impact|] eqn:E; simpl.
    + apply assess_team_Some in E as [_ ->]. simpl. apply sublist_skip. exact IH.
    + apply sublist_cons. exact IH.
Qed.

Lemma TEAM_METRICS_owner_unique team1 metrics1 team2 metrics2 m :
  (team1, metrics1) ∈ TEAM_METRICS -> (team2, metrics2) ∈ TEAM_METRICS ->
  In m metrics1 -> In m metrics2 -> team1 = team2 /\ metrics1 = metrics2.
Proof.
  unfold TEAM_METRICS. intros H1 H2.
  repeat (apply elem_of_cons in H1 as [H1|H1]; [injection H1 as -> ->|]);
    [..|inversion H1];
    (repeat (apply elem_of_cons in H2 as [H2|H2]; [injection H2 as -> ->|]);
     [..|inversion H2]);
    simpl; intros Hm1 Hm2; try (split; reflexivity);
    repeat (destruct Hm1 as [<-|Hm1]; [|]); try contradiction;
    repeat (destruct Hm2 as [Hm2|Hm2]; [discriminate Hm2|]); contradiction.
Qed.

(** X17: the team assessment against its table.  The teams come in the
    order of the table and [operations], which owns no metric, is never
    among them, so there are at most four records; a metric is listed in
    some record exactly when it is an outcome that some team owns; and
    no metric is listed in two records. *)
Theorem team_impacts_table (outcomes : list string) (confounders : list ConfounderInfo) :
  sublist (map ti_team (_assess_team_impacts outcomes confounders))
    ["growth"; "product"; "finance"; "support"]
  /\ (length (_assess_team_impacts outcomes confounders) <= 4)%nat
  /\ (forall m,
        (exists r, r ∈ _assess_team_impacts outcomes confounders
                   /\ In m (ti_affected_metrics r))
        <-> In m outcomes /\ In m owned_metrics)
  /\ (forall r1 r2 m,
        r1 ∈ _assess_team_impacts outcomes confounders ->
        r2 ∈ _assess_team_impacts outcomes confounders ->
        In m (ti_affected_metrics r1) -> In m (ti_affected_metrics r2) -> r1 = r2).
Proof.
  assert (Hfour : _assess_team_impacts outcomes confounders
                  = omap (assess_team (list_to_set outcomes) confounders)
                      (take 4 TEAM_METRICS)).
  { unfold _assess_team_impacts.
    change TEAM_METRICS with (take 4 TEAM_METRICS ++ [("operations", [])]) at 1.
    rewrite omap_app. simpl omap at 2. rewrite assess_team_operations.
    apply app_nil_r. }
  assert (Hsub : sublist (map ti_team (_assess_team_impacts outcomes confounders))
                   ["growth"; "product"; "finance"; "support"]).
  { rewrite Hfour. apply (omap_teams_sublist _ _ (take 4 TEAM_METRICS)). }
  split; [exact Hsub|]. split.
  { apply sublist_length in Hsub. rewrite length_map in Hsub. exact Hsub. }
  split.
  - intros m. split.
    + intros (r & Hr & Hm). unfold _assess_team_impacts in Hr.
      apply list_elem_of_omap in Hr as ([team metrics] & He & Hsome).
      apply assess_team_Some in Hsome as [_ ->]. simpl in Hm.
      apply list_elem_of_In, elem_of_elements, elem_of_intersection in Hm as [Hm1 Hm2].
      apply elem_of_list_to_set, list_elem_of_In in Hm1.
      apply elem_of_list_to_set, list_elem_of_In in Hm2.
      split; [exact Hm2|]. unfold owned_metrics. apply in_concat.
      exists metrics. split; [|exact Hm1].
      apply in_map_iff. exists (team, metrics). split; [reflexivity|].
      apply list_elem_of_In. exact He.
    + intros [Ho Hown]. unfold owned_metrics in Hown.
      apply in_concat in Hown as (metrics & Hms & Hm).
      apply in_map_iff in Hms as ([team metrics'] & Heq & He). simpl in Heq. subst metrics'.
      apply list_elem_of_In in He.
      assert (Hin : m ∈ (list_to_set metrics ∩ list_to_set outcomes : gset string)).
      { apply elem_of_intersection.
        split; apply elem_of_list_to_set, list_elem_of_In; assumption. }
      destruct (assess_team (list_to_set outcomes) confounders (team, metrics))
        as [r|] eqn:E.
      * exists r. split.
        -- unfold _assess_team_impacts. apply list_elem_of_omap.
           exists (team, metrics). split; assumption.
        -- apply assess_team_Some in E as [_ ->]. simpl.
           apply list_elem_of_In, elem_of_elements. exact Hin.
      * apply assess_team_None in E. simpl in E. rewrite E in Hin.
        exfalso. revert Hin. apply not_elem_of_empty.
  - intros r1 r2 m Hr1 Hr2 Hm1 Hm2. unfold _assess_team_impacts in Hr1, Hr2.
    apply list_elem_of_omap in Hr1 as ([t1 ms1] & He1 & Hs1).
    apply list_elem_of_omap in Hr2 as ([t2 ms2] & He2 & Hs2).
    apply assess_team_Some in Hs1 as [_ ->]. apply assess_team_Some in Hs2 as [_ ->].
    simpl in *.
    apply list_elem_of_In, elem_of_elements, elem_of_intersection in Hm1 as [Hm1 _].
    apply list_elem_of_In, elem_of_elements, elem_of_intersection in Hm2 as [Hm2 _].
    apply elem_of_list_to_set, list_elem_of_In in Hm1.
    apply elem_of_list_to_set, list_elem_of_In in Hm2.
    destruct (TEAM_METRICS_owner_unique _ _ _ _ _ He1 He2 Hm1 Hm2) as [-> ->].
    reflexivity.
Qed.

(* ================================================================== *)
(** * The pipeline: how a request ends *)
(* ================================================================== *)

Lemma analyze_parse_ends P W request warnings :
  (exists parsed,
     parse_question P W (req_question request) = Ok (Some parsed)
     /\ analyze_parse P W request warnings = Ok (Some parsed, warnings))
  \/ (exists e, analyze_parse P W request warnings = Raise e /\ hard_error e).
Proof.
  unfold analyze_parse, parse_question.
  destruct (parse_question_loop_ends P W (req_question request)
              (seq 0 (LLM_MAX_RETRIES + 1)) (parse_prompt (req_question request)) eq_refl)
    as [[parsed H]|(e & He & [->| ->])]; rewrite ?H, ?He.
  - left. exists parsed. split; reflexivity.
  - right. eexists. split; [reflexivity|]. left. reflexivity.
  - right. eexists. split; [reflexivity|]. right. reflexivity.
Qed.

Lemma analyze_recommend_ends P W request parsed confounders decision_safe context warnings :
  (exists brief,
     generate_recommendation P W (req_question request) (pq_treatment parsed)
       (pq_outcomes parsed) (map model_dump confounders) (ctx_relevant_experiments context)
     = Ok brief
     /\ analyze_recommend P W request parsed confounders decision_safe context warnings
        = Ok (brief, warnings))
  \/ (exists e,
        analyze_recommend P W request parsed confounders decision_safe context warnings
        = Raise e /\ hard_error e).
Proof.
  unfold analyze_recommend, generate_recommendation.
  destruct (generate_recommendation_loop_ends P W (pq_outcomes parsed)
              (map model_dump confounders) (seq 0 (LLM_MAX_RETRIES + 1))
              (recommendation_prompt P (req_question request) (pq_treatment parsed)
                 (pq_outcomes parsed) (map model_dump confounders)
                 (ctx_relevant_experiments context)))
    as [[brief H]|(e & He & [->| ->])]; rewrite ?H, ?He.
  - left. exists brief. split; reflexivity.
  - right. eexists. split; [reflexivity|]. left. reflexivity.
  - right. eexists. split; [reflexivity|]. right. reflexivity.
Qed.

Lemma validate_str_items_raises model field whole l e :
  validate_str_items model field whole l = Raise e -> e = ValidationError model field whole.
Proof.
  induction l as [|v l IH]; simpl; [discriminate|].
  destruct v; try (intros [= <-]; reflexivity).
  destruct (validate_str_items model field whole l); simpl; [discriminate|].
  intros [= <-]. apply IH. reflexivity.
Qed.

Lemma validate_bool_raises model field v e :
  validate_bool model field v = Raise e -> e = ValidationError model field v.
Proof.
  destruct v as [|b|z|f|s|l|d]; simpl; try (intros [= <-]; reflexivity).
  - destruct z as [|[p|p|]|p]; try (intros [= <-]; reflexivity); discriminate.
  - destruct (PrimFloat.eqb f 0); [discriminate|].
    destruct (PrimFloat.eqb f 1); [discriminate|]. intros [= <-]. reflexivity.
  - destruct (bool_decide _); [discriminate|].
    destruct (bool_decide _); [discriminate|]. intros [= <-]. reflexivity.
Qed.

Lemma validate_str_raises model field v e :
  validate_str model field v = Raise e -> e = ValidationError model field v.
Proof. destruct v; simpl; try discriminate; intros [= <-]; reflexivity. Qed.

Lemma validate_opt_str_raises model field v e :
  validate_opt_str model field v = Raise e -> e = ValidationError model field v.
Proof. destruct v; simpl; try discriminate; intros [= <-]; reflexivity. Qed.

Lemma validate_opt_str_list_raises model field v e :
  validate_opt_str_list model field v = Raise e -> e = ValidationError model field v.
Proof.
  destruct v as [|b|z|f|s|l|d]; simpl; try discriminate; try (intros [= <-]; reflexivity).
  destruct (validate_str_items model field (PList l) l) eqn:E; simpl; [discriminate|].
  intros [= <-]. eapply validate_str_items_raises. exact E.
Qed.

(** The two ways [build_response] raises. *)
Lemma build_response_raises W request parsed recommendation confounders decision_safe
    team_impacts warnings e :
  build_response W request parsed recommendation confounders decision_safe team_impacts
    warnings = Raise e ->
  ((forall d, recommendation <> PDict d)
   /\ e = AttributeError ("'" +:+ type_name recommendation
                              +:+ "' object has no attribute 'get'"))
  \/ (exists d field v,
        recommendation = PDict d /\ In field brief_fields
        /\ e = ValidationError "AnalyzeResponse" field v).
Proof.
  unfold build_response.
  destruct recommendation as [| | | | | |d];
    try (simpl; intros [= <-]; left; split; [discriminate|reflexivity]).
  intros H. right. exists d. revert H. cbn [py_get]. unfold mbind, exc_bind.
  cbn [mret exc_ret].
  destruct (validate_bool _ _ _) as [safe|e1] eqn:E1.
  2: { intros [= <-]. apply validate_bool_raises in E1. do 2 eexists.
       split; [reflexivity|]. split; [|exact E1]. simpl. tauto. }
  destruct (validate_str _ _ (dict_get d "confidence_level" _)) as [level|e2] eqn:E2.
  2: { intros [= <-]. apply validate_str_raises in E2. do 2 eexists.
       split; [reflexivity|]. split; [|exact E2]. simpl. tauto. }
  destruct (validate_str _ _ (dict_get d "suggested_action" _)) as [action|e3] eqn:E3.
  2: { intros [= <-]. apply validate_str_raises in E3. do 2 eexists.
       split; [reflexivity|]. split; [|exact E3]. simpl. tauto. }
  destruct (validate_str _ _ (dict_get d "reasoning" _)) as [reasoning|e4] eqn:E4.
  2: { intros [= <-]. apply validate_str_raises in E4. do 2 eexists.
       split; [reflexivity|]. split; [|exact E4]. simpl. tauto. }
  destruct (validate_opt_str _ _ _) as [details|e5] eqn:E5.
  2: { intros [= <-]. apply validate_opt_str_raises in E5. do 2 eexists.
       split; [reflexivity|]. split; [|exact E5]. simpl. tauto. }
  destruct (validate_opt_str_list _ _ (dict_get d "monitoring_required" _))
    as [mon|e6] eqn:E6.
  2: { intros [= <-]. apply validate_opt_str_list_raises in E6. do 2 eexists.
       split; [reflexivity|]. split; [|exact E6]. simpl. tauto. }
  destruct (validate_opt_str_list _ _ (dict_get d "stop_loss_triggers" _))
    as [trig|e7] eqn:E7.
  2: { intros [= <-]. apply validate_opt_str_list_raises in E7. do 2 eexists.
       split; [reflexivity|]. split; [|exact E7]. simpl. tauto. }
  discriminate.
Qed.

(** The steps of [analyze] that a returned response went through. *)
Lemma analyze_Ok P W request response :
  analyze P W request = Ok response ->
  exists parsed context result brief built,
    parse_question P W (req_question request) = Ok (Some parsed)
    /\ retrieve_context P W (req_question request) (pq_treatment parsed) (pq_outcomes parsed)
       = Ok context
    /\ detect_confounders_dyn P None (clock_detect W) (get_recent_changes W)
         (pq_outcomes parsed) = Ok result
    /\ generate_recommendation P W (req_question request) (pq_treatment parsed)
         (pq_outcomes parsed) (map model_dump (dr_confounders result))
         (ctx_relevant_experiments context) = Ok brief
    /\ build_response W request parsed brief (dr_confounders result)
         (dr_decision_safe result)
         (_assess_team_impacts (pq_outcomes parsed) (dr_confounders result))
         (ctx_warnings context) = Ok built
    /\ response = match audit_store_failure W with
                  | Some _ => append_warning built "Decision logging failed"
                  | None => built
                  end.
Proof.
  unfold analyze.
  destruct (analyze_parse_ends P W request []) as [(parsed & Hp & ->)|(e & -> & _)];
    [|discriminate].
  cbn [mbind exc_bind].
  destruct (retrieve_context P W (req_question request) (pq_treatment parsed)
              (pq_outcomes parsed)) as [context|] eqn:Ec; [|discriminate].
  unfold analyze_with_context.
  destruct (detect_confounders_dyn P None (clock_detect W) (get_recent_changes W)
              (pq_outcomes parsed)) as [result|] eqn:Ed; [|discriminate].
  cbn [mbind exc_bind].
  destruct (analyze_recommend_ends P W request parsed (dr_confounders result)
              (dr_decision_safe result) context ([] ++ ctx_warnings context))
    as [(brief & Hb & ->)|(e & -> & _)]; [|discriminate].
  cbn [mbind exc_bind app].
  destruct (build_response _ _ _ _ _ _ _ _) as [built|] eqn:Eb; [|discriminate].
  cbn [mbind exc_bind]. rewrite analyze_log_Ok. intros [= <-].
  exists parsed, context, result, brief, built. repeat (split; [assumption|]). reflexivity.
Qed.

Lemma build_response_fields W request parsed recommendation confounders decision_safe
    team_impacts warnings response :
  build_response W request parsed recommendation confounders decision_safe team_impacts
    warnings = Ok response ->
  ar_decision_id response = new_decision_id W
  /\ ar_question response = req_question request
  /\ ar_treatment response = Some (pq_treatment parsed)
  /\ ar_outcomes response = Some (pq_outcomes parsed)
  /\ ar_confounders_detected response = confounders
  /\ ar_team_impacts response = none_if_empty team_impacts
  /\ ar_warnings response = none_if_empty warnings
  /\ ar_created_at response = clock_response W.
Proof.
  unfold build_response.
  destruct recommendation as [| | | | | |d]; simpl; try discriminate.
  destruct (validate_bool _ _ _) as [safe|]; simpl; [|discriminate].
  destruct (validate_str _ _ (dict_get d "confidence_level" _)) as [level|]; simpl;
    [|discriminate].
  destruct (validate_str _ _ (dict_get d "suggested_action" _)) as [action|]; simpl;
    [|discriminate].
  destruct (validate_str _ _ (dict_get d "reasoning" _)) as [reasoning|]; simpl;
    [|discriminate].
  destruct (validate_opt_str _ _ _) as [details|]; simpl; [|discriminate].
  destruct (validate_opt_str_list _ _ (dict_get d "monitoring_required" _)) as [mon|]; simpl;
    [|discriminate].
  destruct (validate_opt_str_list _ _ (dict_get d "stop_loss_triggers" _)) as [trig|]; simpl;
    [|discriminate].
  intros [= <-]. simpl. repeat split; reflexivity.
Qed.

Lemma append_warning_none_if_empty (built : AnalyzeResponse) (warnings : list string)
    (W : World) :
  ar_warnings built = none_if_empty warnings ->
  ar_warnings (match audit_store_failure W with
               | Some _ => append_warning built "Decision logging failed"
               | None => built
               end)
  = none_if_empty (warnings ++ audit_warning W).
Proof.
  intros Hw. unfold audit_warning. destruct (audit_store_failure W); simpl.
  - rewrite Hw. destruct warnings; reflexivity.
  - rewrite app_nil_r. exact Hw.
Qed.

Lemma retrieve_context_warning_cases P W query treatment outcomes context :
  retrieve_context P W query treatment outcomes = Ok context ->
  ctx_warnings context = []
  \/ ctx_warnings context = ["No documents indexed. Run ingest_documents.py"]
  \/ exists e, ctx_warnings context = ["Document retrieval error: " +:+ exn_str P e].
Proof.
  unfold retrieve_context, retrieve_body.
  destruct (chroma W (search_query query treatment outcomes)) as [e| |docs metas]; simpl.
  - intros [= <-]. right. right. exists e. reflexivity.
  - intros [= <-]. right. left. reflexivity.
  - destruct (collect_experiments P (zip docs metas) []) as [experiments|e]; simpl;
      intros [= <-]; [left; reflexivity|right; right; exists e; reflexivity].
Qed.

(** X18: what a response of [analyze] echoes.  The response carries the
    question of the request, the treatment and the outcomes of the parsed
    question, the confounders detection returned for these outcomes, the
    team assessment of these outcomes and confounders, the generated id
    and the clock; only the fields of the brief come from the backend. *)
Theorem analyze_response_echo (P : Platform) (W : World) (request : AnalyzeRequest)
    (response : AnalyzeResponse) :
  analyze P W request = Ok response ->
  exists parsed result,
    parse_question P W (req_question request) = Ok (Some parsed)
    /\ detect_confounders_dyn P None (clock_detect W) (get_recent_changes W)
         (pq_outcomes parsed) = Ok result
    /\ ar_decision_id response = new_decision_id W
    /\ ar_question response = req_question request
    /\ ar_treatment response = Some (pq_treatment parsed)
    /\ ar_outcomes response = Some (pq_outcomes parsed)
    /\ ar_confounders_detected response = dr_confounders result
    /\ ar_team_impacts response
       = none_if_empty (_assess_team_impacts (pq_outcomes parsed) (dr_confounders result))
    /\ ar_created_at response = clock_response W.
Proof.
  intros H.
  apply analyze_Ok in H as (parsed & context & result & brief & built
                            & Hp & Hc & Hd & Hb & Hbuilt & ->).
  exists parsed, result. split; [exact Hp|]. split; [exact Hd|].
  apply build_response_fields in Hbuilt as (H1 & H2 & H3 & H4 & H5 & H6 & _ & H8).
  destruct (audit_store_failure W); simpl; repeat split; assumption.
Qed.

Lemma analyze_response_echo_witness :
  exists response,
    analyze ref_platform optimistic_world sample_request = Ok response
    /\ ar_question response = sample_question
    /\ ar_decision_id response = "DEC-20260118-0A1B2C3D".
Proof.
  destruct (analyze ref_platform optimistic_world sample_request) as [response|e] eqn:E;
    [|vm_compute in E; discriminate E].
  exists response. split; [reflexivity|].
  destruct (analyze_response_echo ref_platform optimistic_world sample_request response E)
    as (parsed & result & _ & _ & Hid & Hq & _).
  split; [exact Hq|exact Hid].
Defined.

(** X19: where the warnings of a response come from.  They are the
    warnings of retrieval (at most one), followed by
    [Decision logging failed] when the audit write raised, and [None]
    when there is none.  The two warnings of the orchestrator's own
    fallbacks are never among them: the services raise only the two hard
    errors, which the orchestrator passes on. *)
Theorem analyze_warnings_sources (P : Platform) (W : World) (request : AnalyzeRequest)
    (response : AnalyzeResponse) :
  analyze P W request = Ok response ->
  exists parsed context,
    parse_question P W (req_question request) = Ok (Some parsed)
    /\ retrieve_context P W (req_question request) (pq_treatment parsed) (pq_outcomes parsed)
       = Ok context
    /\ ar_warnings response = none_if_empty (ctx_warnings context ++ audit_warning W)
    /\ (forall ws, ar_warnings response = Some ws ->
          (length ws <= 2)%nat
          /\ ~ In "Question parsing used fallback mode" ws
          /\ ~ In "Recommendation generation used fallback mode" ws).
Proof.
  intros H.
  apply analyze_Ok in H as (parsed & context & result & brief & built
                            & Hp & Hc & Hd & Hb & Hbuilt & ->).
  exists parsed, context. split; [exact Hp|]. split; [exact Hc|].
  apply build_response_fields in Hbuilt as (_ & _ & _ & _ & _ & _ & Hw & _).
  rewrite (append_warning_none_if_empty _ _ _ Hw).
  split; [reflexivity|].
  intros ws Hws.
  assert (Hall : ws = ctx_warnings context ++ audit_warning W).
  { destruct (ctx_warnings context ++ audit_warning W); [discriminate|].
    simpl in Hws. congruence. }
  subst ws. clear Hws.
  assert (Haudit : audit_warning W = [] \/ audit_warning W = ["Decision logging failed"]).
  { unfold audit_warning. destruct (audit_store_failure W); auto. }
  apply retrieve_context_warning_cases in Hc as [->|[->|[e ->]]];
    destruct Haudit as [-> | ->]; simpl;
    (split; [lia|]); split; intros Hin;
    repeat (destruct Hin as [Hin|Hin]; [discriminate Hin|]); exact Hin.
Qed.

Lemma analyze_warnings_sources_witness :
  exists response,
    analyze ref_platform degraded_world sample_request = Ok response
    /\ ar_warnings response
       = Some ["Document retrieval error: index unavailable"; "Decision logging failed"].
Proof.
  destruct (analyze ref_platform degraded_world sample_request) as [response|e] eqn:E;
    [|vm_compute in E; discriminate E].
  exists response. split; [reflexivity|].
  destruct (analyze_warnings_sources ref_platform degraded_world sample_request response E)
    as (parsed & context & Hp & Hc & Hw & _).
  vm_compute in Hp. injection Hp as <-.
  vm_compute in Hc. injection Hc as <-.
  exact Hw.
Defined.

Lemma analyze_raises (P : Platform) (W : World) (request : AnalyzeRequest) (e : exn) :
  analyze P W request = Raise e ->
  e = OllamaUnavailableError unavailable_msg
  \/ e = ModelNotFoundError model_missing_msg
  \/ (exists parsed,
        parse_question P W (req_question request) = Ok (Some parsed)
        /\ change_file_error (get_recent_changes W) = Some e)
  \/ (exists parsed brief,
        parse_question P W (req_question request) = Ok (Some parsed)
        /\ detect_confounders_dyn P None (clock_detect W) (get_recent_changes W)
             (pq_outcomes parsed) = Ok (mkDetectionResult [] true 0)
        /\ (forall d, brief <> PDict d)
        /\ e = AttributeError (no_get brief))
  \/ (exists field v,
        In field brief_fields /\ e = ValidationError "AnalyzeResponse" field v).
Proof.
  unfold analyze.
  destruct (analyze_parse_ends P W request []) as [(parsed & Hp & ->)|(e' & -> & He')].
  2: { intros [= <-]. destruct He' as [->| ->]; auto. }
  cbn [mbind exc_bind].
  destruct (retrieve_context_Ok P W (req_question request) (pq_treatment parsed)
              (pq_outcomes parsed)) as (context & -> & _).
  unfold analyze_with_context.
  pose proof (detect_confounders_dyn_shape P None (clock_detect W) (get_recent_changes W)
                (pq_outcomes parsed)) as Hshape.
  destruct (change_file_error (get_recent_changes W)) as [e'|] eqn:Efile.
  { rewrite Hshape. intros [= <-]. right. right. left. exists parsed. auto. }
  rewrite detect_confounders_emitted in Hshape. rewrite Hshape.
  cbn [mbind exc_bind dr_confounders dr_decision_safe].
  set (confounders := sort_by_confidence_desc _) in *.
  destruct (analyze_recommend_ends P W request parsed confounders (is_empty confounders)
              context ([] ++ ctx_warnings context))
    as [(brief & Hb & ->)|(e' & -> & He')].
  2: { intros [= <-]. destruct He' as [->| ->]; auto. }
  cbn [mbind exc_bind app].
  destruct (build_response _ _ _ _ _ _ _ _) as [built|e'] eqn:Eb.
  { cbn [mbind exc_bind]. rewrite analyze_log_Ok. discriminate. }
  intros [= <-].
  apply build_response_raises in Eb as [[Hnd ->]|(d & field & v & _ & Hf & ->)].
  - right. right. right. left. exists parsed, brief. split; [exact Hp|].
    destruct confounders as [|c cs] eqn:Ec.
    + split; [exact Hshape|]. split; [exact Hnd|reflexivity].
    + exfalso.
      apply generate_recommendation_forced in Hb as (d & -> & _); [|discriminate].
      apply (Hnd d). reflexivity.
  - right. right. right. right. exists field, v. split; [exact Hf|reflexivity].
Qed.

(** X20: the errors of [analyze].  When [analyze] raises, the error is
    one of the two hard errors of the backend, with their fixed
    messages; or the error of the change file, when the loaded value is
    no list of dicts (it cannot be iterated, or an entry of it has no
    [get]); or it comes from the brief: an [AttributeError] when the
    brief is no dict, which happens only when no confounder was
    detected, or a validation error of [AnalyzeResponse] on one of the
    seven fields read from the brief.  Retrieval, the team assessment
    and the audit write raise nothing. *)
Theorem analyze_errors (P : Platform) (W : World) (request : AnalyzeRequest) (e : exn) :
  analyze P W request = Raise e ->
  e = OllamaUnavailableError unavailable_msg
  \/ e = ModelNotFoundError model_missing_msg
  \/ (exists parsed,
        parse_question P W (req_question request) = Ok (Some parsed)
        /\ change_file_error (get_recent_changes W) = Some e)
  \/ (exists parsed brief,
        parse_question P W (req_question request) = Ok (Some parsed)
        /\ detect_confounders_dyn P None (clock_detect W) (get_recent_changes W)
             (pq_outcomes parsed) = Ok (mkDetectionResult [] true 0)
        /\ (forall d, brief <> PDict d)
        /\ e = AttributeError (no_get brief))
  \/ (exists field v,
        In field brief_fields /\ e = ValidationError "AnalyzeResponse" field v).
Proof. apply analyze_raises. Qed.

Lemma analyze_errors_witness :
  analyze ref_platform listing_world sample_request
  = Raise (AttributeError "'list' object has no attribute 'get'")
  /\ exists parsed brief,
       parse_question ref_platform listing_world sample_question = Ok (Some parsed)
       /\ (forall d, brief <> PDict d)
       /\ AttributeError "'list' object has no attribute 'get'"
          = AttributeError (no_get brief).
Proof.
  assert (E : analyze ref_platform listing_world sample_request
              = Raise (AttributeError "'list' object has no attribute 'get'"))
    by (vm_compute; reflexivity).
  split; [exact E|].
  destruct (analyze_errors ref_platform listing_world sample_request _ E)
    as [H|[H|[(parsed & _ & H)|[(parsed & brief & Hp & _ & Hnd & He)|(field & v & _ & H)]]]];
    try discriminate H.
  exists parsed, brief. split; [exact Hp|]. split; [exact Hnd|exact He].
Defined.

(* ================================================================== *)
(** * A backend that is of no use *)
(* ================================================================== *)

Lemma parse_attempt_unusable P W prompt :
  backend_unusable P W -> soft_failure P W prompt.
Proof.
  intros Hbad. destruct (Hbad prompt) as (e & He & Hne & Hnf).
  exists e. split; [|split; assumption].
  unfold parse_attempt.
  destruct (invoke W prompt) as [content|e']; simpl in *; [|congruence].
  rewrite He. reflexivity.
Qed.

Lemma recommendation_attempt_unusable P W confounders prompt :
  backend_unusable P W ->
  exists e, recommendation_attempt P W confounders prompt = Raise e
            /\ e <> ConnectError
            /\ contains "not found" (lower (exn_str P e)) = false.
Proof.
  intros Hbad. destruct (Hbad prompt) as (e & He & Hne & Hnf).
  exists e. split; [|split; assumption].
  unfold recommendation_attempt.
  destruct (invoke W prompt) as [content|e']; simpl in *; [|congruence].
  rewrite He. reflexivity.
Qed.

Lemma generate_recommendation_loop_unusable P W outcomes confounders attempts prompt :
  backend_unusable P W ->
  last attempts = Some LLM_MAX_RETRIES ->
  Forall (fun attempt => attempt <= LLM_MAX_RETRIES)%nat attempts ->
  NoDup attempts ->
  generate_recommendation_loop P W outcomes confounders attempts prompt
  = Ok (_rule_based_recommendation confounders outcomes).
Proof.
  intros Hbad. revert prompt.
  induction attempts as [|attempt rest IH]; intros prompt Hlast Hle Hnd; [discriminate|].
  simpl.
  destruct (recommendation_attempt_unusable P W confounders prompt Hbad)
    as (e & -> & Hne & Hnf).
  apply Forall_cons in Hle as [Hle Hrest]. apply NoDup_cons in Hnd as [Hnotin Hnd].
  assert (Hstep :
    (if contains "not found" (lower (exn_str P e))
     then Raise (ModelNotFoundError model_missing_msg)
     else if (attempt <? LLM_MAX_RETRIES)%nat
          then generate_recommendation_loop P W outcomes confounders rest
                 (prompt +:+ retry_directive)
          else Ok (_rule_based_recommendation confounders outcomes))
    = Ok (_rule_based_recommendation confounders outcomes)).
  { rewrite Hnf. destruct (attempt <? LLM_MAX_RETRIES)%nat eqn:Elt; [|reflexivity].
    apply Nat.ltb_lt in Elt.
    destruct rest as [|a rest'].
    - simpl in Hlast. injection Hlast as ->. lia.
    - apply IH; [exact Hlast|exact Hrest|exact Hnd]. }
  destruct e; try exact Hstep. congruence.
Qed.

(** X21: the service with a backend that is of no use (it raises, or
    answers without JSON, on every call, and none of these errors ends
    the request).  [analyze] returns a response all the same: the
    question is the one of the rule-based parser, the brief the one of
    the rule-based fallback, of low confidence, safe exactly when
    detection found no confounder, with at most three outcomes to
    monitor; the team assessment is never empty.  No warning tells the
    caller: the warnings are those of retrieval and of the audit write
    only; the reasoning ends in [(LLM fallback mode)].  This needs a
    change file that detection can read: missing, or a list of dicts. *)
Theorem unusable_backend_answers (P : Platform) (W : World) (request : AnalyzeRequest) :
  backend_unusable P W ->
  change_file_error (get_recent_changes W) = None ->
  exists response parsed result context,
    _rule_based_parse (req_question request) = Ok parsed
    /\ detect_confounders_dyn P None (clock_detect W) (get_recent_changes W)
         (pq_outcomes parsed) = Ok result
    /\ retrieve_context P W (req_question request) (pq_treatment parsed) (pq_outcomes parsed)
       = Ok context
    /\ analyze P W request = Ok response
    /\ ar_treatment response = Some (pq_treatment parsed)
    /\ ar_outcomes response = Some (pq_outcomes parsed)
    /\ ar_confounders_detected response = dr_confounders result
    /\ ar_decision_safe response = dr_decision_safe result
    /\ ar_confidence_level response = "LOW"
    /\ ar_suggested_action response
       = (if dr_decision_safe result then "RUN_EXPERIMENT" else "WAIT")
    /\ ar_reasoning response
       = (if dr_decision_safe result then "No recent confounders detected."
          else "Confounders detected - cannot safely attribute changes to proposed treatment.")
         +:+ " (LLM fallback mode)"
    /\ ar_monitoring_required response = Some (take 3 (pq_outcomes parsed))
    /\ ar_stop_loss_triggers response = Some stop_loss_defaults
    /\ ar_team_impacts response <> None
    /\ ar_warnings response = none_if_empty (ctx_warnings context ++ audit_warning W).
Proof.
  intros Hbad Hfile.
  set (parsed := mkParsedQuestion
                   (extract_treatment (req_question request) (lower (req_question request)))
                   (extract_outcomes (lower (req_question request)))
                   (extract_decision_type (lower (req_question request)))).
  assert (Hparse : parse_question P W (req_question request) = Ok (Some parsed)).
  { rewrite parse_question_falls_back by (apply parse_attempt_unusable; exact Hbad).
    rewrite rule_based_parse_Ok. reflexivity. }
  destruct (retrieve_context_Ok P W (req_question request) (pq_treatment parsed)
              (pq_outcomes parsed)) as (context & Hc & _).
  pose proof (detect_confounders_dyn_shape P None (clock_detect W) (get_recent_changes W)
                (pq_outcomes parsed)) as Hd.
  rewrite Hfile, detect_confounders_emitted in Hd.
  set (confounders := sort_by_confidence_desc _) in Hd.
  assert (Hgen : generate_recommendation P W (req_question request) (pq_treatment parsed)
                   (pq_outcomes parsed) (map model_dump confounders)
                   (ctx_relevant_experiments context)
                 = Ok (_rule_based_recommendation (map model_dump confounders)
                         (pq_outcomes parsed))).
  { unfold generate_recommendation.
    apply generate_recommendation_loop_unusable; [exact Hbad|reflexivity| |].
    - repeat constructor.
    - apply (bool_decide_unpack _). vm_compute. exact I. }
  destruct (build_response_rule_based W request parsed (map model_dump confounders)
              (pq_outcomes parsed) confounders (is_empty confounders)
              (_assess_team_impacts (pq_outcomes parsed) confounders)
              (ctx_warnings context))
    as (built & Hb & Hsafe & Hlevel & Haction & Hmon & Htrig & Hreason & Ht & Ho & Hconf
        & Hteams & Hw).
  assert (Hdump : is_empty (map model_dump confounders) = is_empty confounders)
    by (destruct confounders; reflexivity).
  rewrite Hdump in Hsafe, Haction, Hreason.
  assert (Hrun : analyze P W request
                 = Ok (match audit_store_failure W with
                       | Some _ => append_warning built "Decision logging failed"
                       | None => built
                       end)).
  { unfold analyze, analyze_parse. rewrite Hparse. cbn [mbind exc_bind].
    rewrite Hc. cbn [mbind exc_bind]. unfold analyze_with_context.
    rewrite Hd. cbn [mbind exc_bind dr_confounders dr_decision_safe].
    unfold analyze_recommend. rewrite Hgen. cbn [mbind exc_bind app].
    rewrite Hb. cbn [mbind exc_bind]. apply analyze_log_Ok. }
  eexists _, parsed, _, context.
  split; [apply rule_based_parse_Ok|]. split; [exact Hd|]. split; [exact Hc|].
  split; [exact Hrun|].
  cbn [dr_confounders dr_decision_safe].
  assert (Hteam_ne : ar_team_impacts built <> None).
  { rewrite Hteams.
    pose proof (extract_outcomes_assessed (lower (req_question request)) confounders) as Hne.
    change (extract_outcomes (lower (req_question request))) with (pq_outcomes parsed) in Hne.
    destruct (_assess_team_impacts (pq_outcomes parsed) confounders);
      [congruence|discriminate]. }
  pose proof (append_warning_none_if_empty built (ctx_warnings context) W Hw) as Hwarn.
  destruct (audit_store_failure W); simpl in *;
    repeat (split; [assumption|]); assumption.
Qed.

Lemma silent_backend_unusable : backend_unusable ref_platform silent_world.
Proof.
  intros prompt. exists (OtherError "Read timed out").
  split; [reflexivity|]. split; [discriminate|]. vm_compute. reflexivity.
Defined.

Lemma unusable_backend_answers_witness :
  exists response,
    analyze ref_platform silent_world sample_request = Ok response
    /\ ar_treatment response = Some "change pricing"
    /\ ar_outcomes response = Some ["conversion_rate"]
    /\ ar_decision_safe response = true
    /\ ar_suggested_action response = "RUN_EXPERIMENT"
    /\ ar_warnings response = Some ["No documents indexed. Run ingest_documents.py"].
Proof.
  destruct (unusable_backend_answers ref_platform silent_world sample_request
              silent_backend_unusable eq_refl)
    as (response & parsed & result & context & Hp & Hd & Hc & Hrun & Ht & Ho & _ & Hsafe
        & _ & Haction & _ & _ & _ & _ & Hw).
  exists response. split; [exact Hrun|].
  vm_compute in Hp. injection Hp as <-.
  vm_compute in Hd. injection Hd as <-.
  vm_compute in Hc. injection Hc as <-.
  split; [exact Ht|]. split; [exact Ho|]. split; [exact Hsafe|].
  split; [exact Haction|exact Hw].
Defined.

(* ================================================================== *)
(** * The handler of POST /api/analyze *)
(* ================================================================== *)

Lemma change_file_error_kind (v : pyval) (e : exn) :
  change_file_error v = Some e ->
  exists msg, e = AttributeError msg \/ e = TypeError msg.
Proof.
  destruct v as [|b|z|f|s|l|d]; simpl;
    try (intros [= <-]; eexists; right; reflexivity).
  - destruct (String.eqb s EmptyString); [discriminate|].
    intros [= <-]. eexists. left. reflexivity.
  - destruct (List.find _ l); [|discriminate].
    intros [= <-]. eexists. left. reflexivity.
  - destruct (bool_decide (d = ∅)); [discriminate|].
    intros [= <-]. eexists. left. reflexivity.
Qed.

(** X22: the replies of the handler.  It returns the response of
    [analyze]; or answers 503 when [analyze] raised
    [OllamaUnavailableError]; or 500 with the advice to pull the model
    when [analyze] raised [ModelNotFoundError]; or
    500 with [Analysis failed:] and the message of the error, and this
    error is the one of a change file that is no list of dicts, or it
    comes from the brief (a brief that is no dict, or a field of it
    that fails the validation of the response).  The model named in
    the handler's text is the default model of the configuration. *)
Theorem analyze_decision_replies (P : Platform) (W : World) (request : AnalyzeRequest) :
  (exists response,
     analyze P W request = Ok response
     /\ analyze_decision P W request = Returned response)
  \/ (analyze P W request = Raise (OllamaUnavailableError unavailable_msg)
      /\ analyze_decision P W request
         = HTTPException 503 unavailable_msg "Start Ollama server with: ollama serve")
  \/ (analyze P W request = Raise (ModelNotFoundError model_missing_msg)
      /\ analyze_decision P W request
         = HTTPException 500 model_missing_msg
             ("Download the model with: ollama pull " +:+ OLLAMA_MODEL))
  \/ (exists e,
        analyze P W request = Raise e
        /\ (change_file_error (get_recent_changes W) = Some e
            \/ (exists brief, (forall d, brief <> PDict d)
                              /\ e = AttributeError (no_get brief))
            \/ (exists field v, In field brief_fields
                                /\ e = ValidationError "AnalyzeResponse" field v))
        /\ analyze_decision P W request
           = HTTPException 500 ("Analysis failed: " +:+ exn_str P e)
               "Check logs for details").
Proof.
  unfold analyze_decision.
  destruct (analyze P W request) as [response|e] eqn:E.
  - left. exists response. split; reflexivity.
  - right.
    apply analyze_raises in E
      as [->|[->|[(parsed & _ & Hfile)
                 |[(parsed & brief & _ & _ & Hnd & ->)|(field & v & Hf & ->)]]]].
    + left. split; reflexivity.
    + right. left. split; reflexivity.
    + right. right. exists e. split; [reflexivity|]. split; [left; exact Hfile|].
      apply change_file_error_kind in Hfile as (msg & [->| ->]); reflexivity.
    + right. right. eexists. split; [reflexivity|]. split; [|reflexivity].
      right. left. exists brief. split; [exact Hnd|reflexivity].
    + right. right. eexists. split; [reflexivity|]. split; [|reflexivity].
      right. right. exists field, v. split; [exact Hf|reflexivity].
Qed.

(** X30: a change file of another shape fails the request.  When the
    question was parsed and the loaded change file is no list of dicts
    (a value that cannot be iterated, or with an entry that has no
    [get]), detection raises inside its own handler, [analyze] raises
    that error and the handler answers 500 with its message. *)
Theorem change_file_shape_500 (P : Platform) (W : World) (request : AnalyzeRequest)
    (parsed : ParsedQuestion) (e : exn) :
  parse_question P W (req_question request) = Ok (Some parsed) ->
  change_file_error (get_recent_changes W) = Some e ->
  analyze P W request = Raise e
  /\ analyze_decision P W request
     = HTTPException 500 ("Analysis failed: " +:+ exn_str P e) "Check logs for details".
Proof.
  intros Hparse Hfile.
  assert (Hrun : analyze P W request = Raise e).
  { unfold analyze, analyze_parse. rewrite Hparse. cbn [mbind exc_bind].
    destruct (retrieve_context_Ok P W (req_question request) (pq_treatment parsed)
                (pq_outcomes parsed)) as (context & -> & _).
    cbn [mbind exc_bind]. unfold analyze_with_context.
    rewrite detect_confounders_dyn_shape, Hfile. reflexivity. }
  split; [exact Hrun|]. unfold analyze_decision. rewrite Hrun.
  apply change_file_error_kind in Hfile as (msg & [->| ->]); reflexivity.
Qed.

Lemma change_file_shape_500_witness :
  analyze_decision ref_platform keyed_changes_world sample_request
  = HTTPException 500 "Analysis failed: 'str' object has no attribute 'get'"
      "Check logs for details".
Proof.
  apply (change_file_shape_500 ref_platform keyed_changes_world sample_request
           (mkParsedQuestion "change pricing" ["conversion_rate"] "should_we")
           (AttributeError "'str' object has no attribute 'get'"));
    vm_compute; reflexivity.
Defined.

(** The message of a validation error quotes the rejected value: an
    answer whose treatment is a list holding the words [not found] is
    read as a missing model. *)
Example quoted_value_read_as_missing_model :
  parse_question ref_platform misnaming_world sample_question
  = Raise (ModelNotFoundError model_missing_msg)
  /\ analyze_decision ref_platform misnaming_world sample_request
     = HTTPException 500 model_missing_msg
         ("Download the model with: ollama pull " +:+ OLLAMA_MODEL).
Proof. split; vm_compute; reflexivity. Qed.

(** X23: a backend that cannot be reached is not worked around.  When
    the first call of the backend raises a connection error, the
    handler answers 503: there is no retry and the rule-based parser is
    not used. *)
Theorem unreachable_backend_503 (P : Platform) (W : World) (request : AnalyzeRequest) :
  llm_invoke W (parse_prompt (req_question request)) = LLMConnectError ->
  analyze P W request = Raise (OllamaUnavailableError unavailable_msg)
  /\ analyze_decision P W request
     = HTTPException 503 "Ollama unavailable. Run: ollama serve"
         "Start Ollama server with: ollama serve".
Proof.
  intros H.
  assert (Hrun : analyze P W request = Raise (OllamaUnavailableError unavailable_msg)).
  { unfold analyze, analyze_parse.
    rewrite (parse_question_unreachable P W (req_question request) H). reflexivity. }
  split; [exact Hrun|]. unfold analyze_decision. rewrite Hrun. reflexivity.
Qed.

Lemma unreachable_backend_503_witness :
  analyze_decision ref_platform unreachable_world sample_request
  = HTTPException 503 "Ollama unavailable. Run: ollama serve"
      "Start Ollama server with: ollama serve".
Proof.
  apply (unreachable_backend_503 ref_platform unreachable_world sample_request).
  reflexivity.
Defined.

(* ================================================================== *)
(** * Ingestion of the experiment file *)
(* ================================================================== *)

Lemma split_from_nonempty (sep s : string) (skip : nat) (piece : string) :
  split_from sep s skip piece <> [].
Proof.
  revert skip piece. induction s as [|c s IH]; intros skip piece; cbn [split_from].
  - discriminate.
  - destruct skip; [|apply IH].
    destruct (String.prefix sep (String c s)); [discriminate|apply IH].
Qed.

Lemma string_app_nil_r (s : string) : s +:+ EmptyString = s.
Proof.
  induction s as [|c s IH]; [reflexivity|].
  change (String c (s +:+ EmptyString) = String c s). rewrite IH. reflexivity.
Qed.

Lemma string_app_assoc (a b c : string) : (a +:+ b) +:+ c = a +:+ (b +:+ c).
Proof.
  induction a as [|x a IH]; [reflexivity|].
  change (String x ((a +:+ b) +:+ c) = String x (a +:+ (b +:+ c))). rewrite IH. reflexivity.
Qed.

Lemma prefix_app (p s : string) : String.prefix p (p +:+ s) = true.
Proof.
  induction p as [|c p IH]; [destruct s; reflexivity|].
  change (String c p +:+ s) with (String c (p +:+ s)). cbn [String.prefix].
  destruct (ascii_dec c c) as [_|Hne]; [exact IH|congruence].
Qed.

(** The first piece of a split at one character. *)
Lemma first_item_split_char (c : ascii) (s piece : string) :
  first_item (split_from (String c EmptyString) s 0 piece) = Ok (piece +:+ split_head c s).
Proof.
  revert piece. induction s as [|a s IH]; intros piece; simpl.
  - rewrite string_app_nil_r. reflexivity.
  - destruct (ascii_dec c a) as [<-|Hne].
    + rewrite Ascii.eqb_refl.
      replace (String.prefix EmptyString s) with true by (destruct s; reflexivity).
      simpl. rewrite string_app_nil_r. reflexivity.
    + destruct (Ascii.eqb_spec a c) as [->|_]; [congruence|].
      rewrite IH, string_app_assoc. reflexivity.
Qed.

(** The experiment id is read from the first line, up to its colon; the
    numbered default is never used. *)
Lemma section_exp_id_Ok (i : nat) (section : string) :
  section_exp_id i section
  = Ok (strip (split_head ":" (split_head (ascii_of_nat 10) (strip section)))).
Proof.
  unfold section_exp_id.
  pose proof (first_item_split_char (ascii_of_nat 10) (strip section) EmptyString) as Hline.
  change (split_from (String (ascii_of_nat 10) EmptyString) (strip section) 0 EmptyString)
    with (split nl (strip section)) in Hline.
  destruct (split nl (strip section)) as [|line lines] eqn:E.
  - exfalso. revert E. apply split_from_nonempty.
  - rewrite Hline. cbn [mbind exc_bind].
    pose proof (first_item_split_char ":" (EmptyString +:+ split_head (ascii_of_nat 10)
                                             (strip section)) EmptyString) as Hhead.
    unfold split. rewrite Hhead. reflexivity.
Qed.

Lemma window_count_le_length (len : nat) :
  (window_count (Z.of_nat len) (EXPERIMENT_CHUNK_SIZE - EXPERIMENT_OVERLAP) <= len)%nat.
Proof.
  unfold window_count, EXPERIMENT_CHUNK_SIZE, EXPERIMENT_OVERLAP.
  change (800 - 100) with 700.
  destruct len as [|n]; [reflexivity|].
  assert (H : (Z.of_nat (S n) + 700 - 1) / 700 <= Z.of_nat (S n)).
  { apply Z.div_le_upper_bound; lia. }
  lia.
Qed.

(** [chunk_text] with 800 and 100 ends, with the windows of the text. *)
Lemma experiment_chunks_windows (text : string) :
  experiment_chunks text
  = Some (omap (chunk_window text EXPERIMENT_CHUNK_SIZE
                  (EXPERIMENT_CHUNK_SIZE - EXPERIMENT_OVERLAP))
            (seq 0 (window_count (Z.of_nat (String.length text))
                      (EXPERIMENT_CHUNK_SIZE - EXPERIMENT_OVERLAP)))).
Proof.
  unfold experiment_chunks, chunk_text.
  change 0 with (Z.of_nat 0 * (EXPERIMENT_CHUNK_SIZE - EXPERIMENT_OVERLAP)) at 1.
  rewrite (chunk_text_loop_windows text EXPERIMENT_CHUNK_SIZE EXPERIMENT_OVERLAP
             ltac:(unfold EXPERIMENT_CHUNK_SIZE, EXPERIMENT_OVERLAP; lia)
             (window_count (Z.of_nat (String.length text))
                (EXPERIMENT_CHUNK_SIZE - EXPERIMENT_OVERLAP)) 0 [] (String.length text)).
  - reflexivity.
  - reflexivity.
  - apply window_count_le_length.
Qed.

Lemma experiment_chunks_text_chunks (text : string) (chunks : list string) :
  experiment_chunks text = Some chunks -> Forall text_chunk chunks.
Proof.
  rewrite experiment_chunks_windows. intros [= <-].
  apply Forall_forall. intros c Hc.
  apply list_elem_of_omap in Hc as (k & _ & Hk).
  apply chunk_window_Some in Hk as (Hne & Hs & Hlen & _);
    [|unfold EXPERIMENT_CHUNK_SIZE, EXPERIMENT_OVERLAP; lia
     |unfold EXPERIMENT_CHUNK_SIZE; lia].
  split; [exact Hne|]. split; [exact Hs|exact Hlen].
Qed.

Lemma batch_ok_add (b : Batch) (d : string) (m : gmap string pyval) (id : string) :
  batch_ok b -> stored_document d -> m !! "type" = Some (PStr "experiment") ->
  String.prefix "exp_" id = true ->
  batch_ok (mkBatch (documents b ++ [d]) (metadatas b ++ [m]) (ids b ++ [id])).
Proof.
  intros ([Hm Hi] & Hd & Ht & Hp) Hdoc Htype Hid.
  split; [split; simpl; rewrite !length_app; simpl; lia|].
  simpl. split; [|split]; apply Forall_app; split; try assumption;
    apply Forall_cons; split; try assumption; apply Forall_nil; exact I.
Qed.

Lemma add_section_chunks_ok (exp_id : string) (chunks : list string) (j : nat) (b : Batch) :
  strip exp_id = exp_id -> Forall text_chunk chunks -> batch_ok b ->
  batch_ok (add_section_chunks exp_id chunks j b).
Proof.
  intros Hid Hchunks. revert j b.
  induction Hchunks as [|chunk rest Hchunk Hrest IH]; intros j b Hb; simpl.
  - exact Hb.
  - apply IH. apply batch_ok_add;
      [exact Hb| |reflexivity|apply prefix_app].
    left. exists exp_id, chunk. split; [reflexivity|]. split; assumption.
Qed.

Lemma add_practice_chunks_ok (chunks : list string) (j : nat) (b : Batch) :
  Forall text_chunk chunks -> batch_ok b -> batch_ok (add_practice_chunks chunks j b).
Proof.
  intros Hchunks. revert j b.
  induction Hchunks as [|chunk rest Hchunk Hrest IH]; intros j b Hb; simpl.
  - exact Hb.
  - apply IH. apply batch_ok_add;
      [exact Hb| |reflexivity
      |apply (prefix_app "exp_" ("best_practices_" +:+ str_nat j))].
    right. exact Hchunk.
Qed.

Lemma ingest_sections_ok (sections : list string) (i : nat) (b : Batch) :
  batch_ok b ->
  exists b', ingest_sections sections i b = Some (Ok b') /\ batch_ok b'.
Proof.
  revert i b. induction sections as [|section rest IH]; intros i b Hb; simpl.
  - exists b. split; [reflexivity|exact Hb].
  - rewrite section_exp_id_Ok.
    destruct (experiment_chunks section) as [chunks|] eqn:E;
      [|rewrite experiment_chunks_windows in E; discriminate].
    apply IH. apply add_section_chunks_ok; [apply strip_idem| |exact Hb].
    eapply experiment_chunks_text_chunks. exact E.
Qed.

Lemma batch_ok_empty : batch_ok (mkBatch [] [] []).
Proof.
  split; [split; reflexivity|]. simpl. repeat split; apply Forall_nil; exact I.
Qed.

Lemma ingest_experiments_ok (content : string) :
  exists b,
    ingest_experiments content
    = Some (Ok (match documents b with [] => None | _ :: _ => Some b end,
                length (documents b)))
    /\ batch_ok b.
Proof.
  unfold ingest_experiments.
  destruct (ingest_sections_ok (tail (split "## EXP-" content)) 1 (mkBatch [] [] [])
              batch_ok_empty) as (b & -> & Hb).
  destruct (contains best_practices_title content).
  - destruct (experiment_chunks (best_practices_text content)) as [chunks|] eqn:E;
      [|rewrite experiment_chunks_windows in E; discriminate].
    eexists. split; [reflexivity|].
    apply add_practice_chunks_ok; [|exact Hb].
    eapply experiment_chunks_text_chunks. exact E.
  - exists b. split; [reflexivity|exact Hb].
Qed.

(** X24: [ingest_experiments] ends on every file text, raises nothing of
    its own, and returns the number of documents; [collection.add] is
    called exactly when there is a document.  The three lists it passes
    have one length; every document is a stripped, non-empty chunk of at
    most 800 characters, those of a section under the line
    [Experiment <id>:] with a stripped id; every metadata has the type
    [experiment]; every id starts with [exp_]. *)
Theorem ingest_experiments_batch (content : string) :
  exists b,
    ingest_experiments content
    = Some (Ok (match documents b with [] => None | _ :: _ => Some b end,
                length (documents b)))
    /\ aligned b
    /\ Forall stored_document (documents b)
    /\ Forall (fun m : gmap string pyval => m !! "type" = Some (PStr "experiment"))
         (metadatas b)
    /\ Forall (fun id => String.prefix "exp_" id = true) (ids b).
Proof. apply ingest_experiments_ok. Qed.

Lemma collect_experiments_batch P (docs : list string) (metas : list (gmap string pyval))
    (experiments : list string) :
  length metas = length docs ->
  Forall (fun m : gmap string pyval => m !! "type" = Some (PStr "experiment")) metas ->
  collect_experiments P (zip docs (map Some metas)) experiments = Ok (experiments ++ docs).
Proof.
  revert metas experiments.
  induction docs as [|d docs IH]; intros metas experiments Hlen Hall.
  - destruct metas; [|discriminate]. simpl. rewrite app_nil_r. reflexivity.
  - destruct metas as [|m metas]; [discriminate|].
    apply Forall_cons in Hall as [Hm Hall].
    change (zip (d :: docs) (map Some (m :: metas)))
      with ((d, Some m) :: zip docs (map Some metas)).
    rewrite collect_experiments_cons.
    unfold hit_type, dict_get. rewrite Hm. cbn [as_str].
    change (String.eqb "experiment" "experiment") with true. cbv iota.
    rewrite IH; [|simpl in Hlen; lia|exact Hall].
    rewrite <- app_assoc. reflexivity.
Qed.

(** X25: ingestion and retrieval agree on the type of an experiment.
    When a search returns the documents of an ingested batch with their
    metadata, the loop of [retrieve_context] raises nothing and keeps
    every one of them, in their order. *)
Theorem ingested_experiments_retrieved (P : Platform) (content : string) (b : Batch)
    (n : nat) :
  ingest_experiments content = Some (Ok (Some b, n)) ->
  collect_experiments P (batch_hits b) [] = Ok (documents b)
  /\ n = length (documents b) /\ (0 < n)%nat.
Proof.
  intros H.
  destruct (ingest_experiments_ok content) as (b' & Hrun & (Hal & _) & _ & Htypes & _).
  rewrite Hrun in H.
  assert (Hcollect : collect_experiments P (batch_hits b') [] = Ok (documents b')).
  { unfold batch_hits. rewrite collect_experiments_batch; [reflexivity|exact Hal|exact Htypes]. }
  destruct (documents b') as [|d ds] eqn:Ed; [discriminate|].
  injection H as <- <-. rewrite Ed.
  split; [exact Hcollect|]. split; [reflexivity|simpl; lia].
Qed.

Lemma ingested_experiments_retrieved_witness :
  exists b,
    ingest_experiments sample_experiments = Some (Ok (Some b, 3%nat))
    /\ collect_experiments ref_platform (batch_hits b) [] = Ok (documents b).
Proof.
  destruct (ingest_experiments sample_experiments) as [[[[b|] n]|e]|] eqn:E;
    try (vm_compute in E; discriminate E).
  assert (Hn : n = 3%nat) by (vm_compute in E; congruence).
  subst n. exists b. split; [reflexivity|].
  apply (ingested_experiments_retrieved ref_platform sample_experiments b 3 E).
Defined.

Lemma contains_false_cons (sep : string) (c : ascii) (s : string) :
  contains sep (String c s) = false ->
  String.prefix sep (String c s) = false /\ contains sep s = false.
Proof.
  unfold contains. cbn [String.index].
  destruct (String.prefix sep (String c s)); [discriminate|].
  destruct (String.index 0 sep s); [discriminate|]. split; reflexivity.
Qed.

(** A text without the separator is one piece. *)
Lemma split_from_no_sep (sep s piece : string) :
  contains sep s = false -> split_from sep s 0 piece = [piece +:+ s].
Proof.
  revert piece. induction s as [|c s IH]; intros piece H.
  - cbn [split_from]. rewrite string_app_nil_r. reflexivity.
  - apply contains_false_cons in H as [Hp Hs]. cbn [split_from]. rewrite Hp.
    rewrite (IH _ Hs), string_app_assoc. reflexivity.
Qed.

Lemma strip_single (c : ascii) :
  strip (String c EmptyString) = if is_space c then EmptyString else String c EmptyString.
Proof. unfold strip. simpl. destruct (is_space c) eqn:E; simpl; rewrite ?E; reflexivity. Qed.

Lemma substring_last (s : string) :
  s <> EmptyString ->
  exists c, String.substring (String.length s - 1) 1 s = String c EmptyString.
Proof.
  induction s as [|a s IH]; [congruence|]. intros _.
  destruct s as [|b s].
  - exists a. reflexivity.
  - destruct IH as [c Hc]; [discriminate|]. exists c.
    replace (String.length (String a (String b s)) - 1)%nat
      with (S (String.length (String b s) - 1)) by (simpl; lia).
    exact Hc.
Qed.

(** [chunk_text] on a text of one character. *)
Lemma experiment_chunks_single (c : ascii) :
  experiment_chunks (String c EmptyString)
  = Some (if is_space c then [] else [String c EmptyString]).
Proof.
  unfold experiment_chunks, chunk_text. cbn [String.length chunk_text_loop].
  change (0 <? Z.of_nat 1) with true. cbv iota.
  change (py_slice (String c EmptyString) 0 (0 + EXPERIMENT_CHUNK_SIZE))
    with (String c EmptyString).
  rewrite strip_single.
  change (0 + EXPERIMENT_CHUNK_SIZE - EXPERIMENT_OVERLAP <? Z.of_nat 1) with false.
  destruct (is_space c); reflexivity.
Qed.

(** X26: the title of the best practices without its heading.  The
    title is looked for as [Experiment Design Best Practices], the start
    of the section as [## Experiment Design Best Practices].  On a file
    that has the title but not the heading (and no experiment section),
    the search for the start gives -1 and the text taken is the last
    character of the file: it is stored as the one document, unless it
    is whitespace. *)
Theorem best_practices_without_heading (content : string) :
  contains "## EXP-" content = false ->
  contains best_practices_title content = true ->
  find ("## " +:+ best_practices_title) content = -1 ->
  exists c,
    String.substring (String.length content - 1) 1 content = String c EmptyString
    /\ ingest_experiments content
       = Some (Ok (if is_space c then (None, 0%nat)
                   else (Some (mkBatch [String c EmptyString]
                                 [list_to_map [("type", PStr "experiment");
                                               ("experiment_id", PStr "best_practices");
                                               ("chunk", PInt 0)]]
                                 ["exp_best_practices_0"]), 1%nat))).
Proof.
  intros Hsections Htitle Hfind.
  assert (Hne : content <> EmptyString).
  { intros ->. vm_compute in Htitle. discriminate. }
  destruct (substring_last content Hne) as [c Hc]. exists c. split; [exact Hc|].
  assert (Htext : best_practices_text content = String c EmptyString).
  { unfold best_practices_text. rewrite Hfind. unfold py_slice.
    set (len := Z.of_nat (String.length content)).
    assert (Hlen : 1 <= len).
    { unfold len. destruct content; [congruence|]. simpl String.length. lia. }
    assert (Ha : clamp_index len (-1) = len - 1).
    { unfold clamp_index. change (-1 <? 0) with true. cbv iota.
      destruct (-1 + len <? 0) eqn:E1; [apply Z.ltb_lt in E1; lia|].
      destruct (len <? -1 + len) eqn:E2; [apply Z.ltb_lt in E2; lia|]. lia. }
    assert (Hb : clamp_index len len = len).
    { unfold clamp_index.
      destruct (len <? 0) eqn:E3; [apply Z.ltb_lt in E3; lia|]. rewrite E3.
      rewrite Z.ltb_irrefl. reflexivity. }
    rewrite Ha, Hb.
    replace (Z.to_nat (len - 1)) with (String.length content - 1)%nat by (unfold len; lia).
    replace (Z.to_nat (len - (len - 1))) with 1%nat by lia.
    exact Hc. }
  unfold ingest_experiments, split.
  rewrite (split_from_no_sep _ _ _ Hsections). cbn [tail ingest_sections].
  rewrite Htitle, Htext, experiment_chunks_single.
  destruct (is_space c); reflexivity.
Qed.

Lemma best_practices_without_heading_witness :
  exists b,
    ingest_experiments "Experiment Design Best Practices!" = Some (Ok (Some b, 1%nat))
    /\ documents b = ["!"].
Proof.
  destruct (best_practices_without_heading "Experiment Design Best Practices!")
    as (c & Hc & Hrun); [vm_compute; reflexivity..|].
  vm_compute in Hc. injection Hc as <-.
  eexists. split; [exact Hrun|reflexivity].
Defined.

(** X27: a file without an experiment section and without the title of
    the best practices gives no document: [collection.add] is not
    called and 0 is returned. *)
Theorem ingest_experiments_nothing (content : string) :
  contains "## EXP-" content = false ->
  contains best_practices_title content = false ->
  ingest_experiments content = Some (Ok (None, 0%nat)).
Proof.
  intros Hsections Htitle. unfold ingest_experiments, split.
  rewrite (split_from_no_sep _ _ _ Hsections). cbn [tail ingest_sections].
  rewrite Htitle. reflexivity.
Qed.

Lemma ingest_experiments_nothing_witness :
  ingest_experiments "# Past experiments: none yet" = Some (Ok (None, 0%nat)).
Proof. apply ingest_experiments_nothing; vm_compute; reflexivity. Defined.

(* ================================================================== *)
(** * Availability and health *)
(* ================================================================== *)

Lemma model_names_tags (names : list string) :
  mapM model_name (map (fun n => PDict {[ "name" := PStr n ]}) names)
  = Ok (map PStr names).
Proof.
  induction names as [|n names IH]; [reflexivity|].
  cbn [map mapM]. rewrite IH. reflexivity.
Qed.

Lemma any_mentions_model_names (names : list string) :
  any_mentions_model (map PStr names) = Ok (existsb (contains OLLAMA_MODEL) names).
Proof.
  induction names as [|n names IH]; [reflexivity|].
  cbn [map any_mentions_model mentions_model existsb].
  destruct (contains OLLAMA_MODEL n); [reflexivity|exact IH].
Qed.

(** X28: when the backend is reported available.  Only a reply with
    status 200 and a JSON object as body can report it; on a tag list
    whose entries name their model, the backend is available exactly
    when the configured model name is a part of one of the names, so a
    longer tag of the model counts as the model. *)
Theorem llm_available_by_name (reply : tags_reply) :
  (llm_check_availability reply = true ->
   exists d, reply = TagsResponse 200 (Some (PDict d)))
  /\ (forall names,
        llm_check_availability (TagsResponse 200 (Some (tags_body names)))
        = existsb (contains OLLAMA_MODEL) names)
  /\ (forall suffix,
        llm_check_availability
          (TagsResponse 200 (Some (tags_body [OLLAMA_MODEL +:+ suffix]))) = true).
Proof.
  assert (Hnames : forall names,
            llm_check_availability (TagsResponse 200 (Some (tags_body names)))
            = existsb (contains OLLAMA_MODEL) names).
  { intros names. unfold llm_check_availability, tags_body.
    change (negb (200 =? 200)) with false. cbv iota.
    cbn [py_get mbind exc_bind]. unfold dict_get. rewrite lookup_singleton_eq.
    cbn [model_names]. rewrite model_names_tags. cbn [mbind exc_bind].
    rewrite any_mentions_model_names. reflexivity. }
  split; [|split; [exact Hnames|]].
  - destruct reply as [e|status_code [body|]]; simpl; try discriminate.
    + destruct (status_code =? 200) eqn:E; simpl; [|discriminate].
      apply Z.eqb_eq in E. subst status_code.
      destruct body; simpl; try discriminate. intros _. eexists. reflexivity.
    + destruct (status_code =? 200); discriminate.
  - intros suffix. rewrite Hnames. cbn [existsb]. rewrite orb_false_r.
    unfold contains.
    destruct (String.index 0 OLLAMA_MODEL (OLLAMA_MODEL +:+ suffix)) eqn:E; [reflexivity|].
    exfalso.
    apply (index_correct3 0 0 OLLAMA_MODEL (OLLAMA_MODEL +:+ suffix)) in E;
      [|discriminate|lia].
    apply E. apply prefix_correct. apply prefix_app.
Qed.

(** X29: the health report.  The status is [healthy] when the backend
    and the index are both available and [degraded] otherwise; the
    database is always reported available; and the index counts as
    available only when it holds a document, so an index that works and
    is empty gives [degraded]. *)
Theorem health_check_status (tags : tags_reply) (count : count_reply) :
  (hr_status (health_check tags count) = "healthy"
   <-> llm_check_availability tags = true /\ 0 < get_document_count count)
  /\ (hr_status (health_check tags count) = "healthy"
      \/ hr_status (health_check tags count) = "degraded")
  /\ hr_database_available (health_check tags count) = true
  /\ hr_chromadb_available (health_check tags count)
     = (get_document_count count >? 0)
  /\ hr_status (health_check tags (CountIs 0)) = "degraded".
Proof.
  unfold health_check. cbn [hr_status hr_database_available hr_chromadb_available].
  assert (Hcount : document_check_availability count = (get_document_count count >? 0)).
  { destruct count; reflexivity. }
  rewrite Hcount.
  split; [|split; [|split; [reflexivity|split; [reflexivity|]]]].
  - destruct (llm_check_availability tags);
      destruct (get_document_count count >? 0) eqn:E; simpl; split; intros H;
      try discriminate H; try reflexivity.
    + split; [reflexivity|]. apply Z.gtb_lt. exact E.
    + destruct H as [_ H]. apply Z.gtb_lt in H. congruence.
    + destruct H as [H _]. discriminate H.
    + destruct H as [H _]. discriminate H.
  - destruct (llm_check_availability tags && (get_document_count count >? 0)); auto.
  - cbn [document_check_availability]. rewrite andb_false_r. reflexivity.
Qed.
